(** * HM64Updatescripts: the update scripts and their specification

    A shallow embedding of the five updater scripts of the repository

      - [scripts/2ship-Updatescript.py]                (module [TwoShip])
      - [scripts/Spaghettikart-Updatescript.py]        (module [Spaghettikart])
      - [scripts/SoH-Updatescript-Nightly.py]          (module [SohNightly])
      - [scripts/Spaghettikart-Updatescript-Nightly.py] (module [SpaghettikartNightly])
      - [scripts/SoH-Updatescript-Lynks.py]            (module [Lynks])

    together with the parts of the Python runtime they lean on ([str]
    methods, the two regular expressions of the PR script, [json.dump] and
    [json.load]), followed by the properties of the specification.

    Conventions of the model.
      - A Python [str] is a list of characters whose code points are below
        256; the character classes, [str.lower] and the case-insensitive
        comparisons below are Python's on that range.
      - The remote services, the transport and the archive decoder are
        oracles of the environment [env]; the files the scripts own
        (version.json, the downloads directory, the unpacked installation)
        are the mutable [state], threaded through an exception monad that
        also records the trace of effectful calls.
      - Filesystem calls on the scripts' own files succeed; an archive is
        unpacked entirely or not at all, and its members lie beside
        version.json and downloads/, never on them. *)

From Stdlib Require Import Ascii String ZArith NArith Lia DecimalString.
From stdpp Require Import gmap strings list fin_maps sorting.

Set Warnings "-register-all".

(* ===================================================================== *)
(** ** Python strings                                                     *)
(* ===================================================================== *)

Definition str := list ascii.

Coercion list_ascii_of_string : string >-> list.

Definition ord (c : ascii) : N := N_of_ascii c.
Definition chr (n : N) : ascii := ascii_of_N n.

Definition dquote : ascii := chr 34.
Definition squote : ascii := chr 39.
Definition backslash : ascii := chr 92.
Definition newline : ascii := chr 10.

Definition between (lo hi n : N) : bool := ((lo <=? n) && (n <=? hi))%N.

(** [str.isspace] on one character, which is also the class [\s] of [re]
    for [str] patterns: TAB..CR, FS..US, SPACE, NEL and NBSP. *)
Definition isspace (c : ascii) : bool :=
  between 9 13 (ord c) || between 28 32 (ord c)
  || (ord c =? 133)%N || (ord c =? 160)%N.

(** [str.lower] on one character: A-Z, and the upper-case letters of the
    Latin-1 supplement (all of 192..222 but the multiplication sign). *)
Definition lower_char (c : ascii) : ascii :=
  if between 65 90 (ord c) || (between 192 222 (ord c) && negb (ord c =? 215)%N)
  then chr (ord c + 32) else c.

Definition lower (s : str) : str := map lower_char s.

Fixpoint lstrip (s : str) : str :=
  match s with
  | c :: r => if isspace c then lstrip r else s
  | [] => []
  end.

Definition rstrip (s : str) : str := rev (lstrip (rev s)).

Definition strip (s : str) : str := rstrip (lstrip s).

Definition ascii_eqb (a b : ascii) : bool := bool_decide (a = b).

Fixpoint startswith (s p : str) {struct p} : bool :=
  match p, s with
  | [], _ => true
  | a :: p', b :: s' => ascii_eqb a b && startswith s' p'
  | _ :: _, [] => false
  end.

Definition endswith (s suffix : str) : bool := startswith (rev s) (rev suffix).

(** [sub in s] *)
Fixpoint contains (sub s : str) : bool :=
  startswith s sub ||
  match s with
  | [] => false
  | _ :: r => contains sub r
  end.

Definition str_eqb (a b : str) : bool := bool_decide (a = b).

(** Code-point order on strings, the order of [sorted] on [str]. *)
Fixpoint str_leb (a b : str) : bool :=
  match a, b with
  | [], _ => true
  | _ :: _, [] => false
  | x :: a', y :: b' =>
      if (ord x <? ord y)%N then true
      else if (ord y <? ord x)%N then false
      else str_leb a' b'
  end.

Definition str_le (a b : str) : Prop := str_leb a b = true.

Global Instance str_le_dec a b : Decision (str_le a b).
Proof. unfold str_le. apply _. Defined.

Definition sorted (l : list str) : list str := merge_sort str_le l.

(** [sep.join(l)] *)
Fixpoint join (sep : str) (l : list str) : str :=
  match l with
  | [] => []
  | [x] => x
  | x :: r => x ++ sep ++ join sep r
  end.

(** [repr] of an [int], as [json.dump] and f-strings print it. *)
Definition repr_int (z : Z) : str :=
  list_ascii_of_string (NilZero.string_of_int (Z.to_int z)).

(* ===================================================================== *)
(** ** Python values and [json]                                           *)
(* ===================================================================== *)

(** A float is kept as the decimal literal it was read from,
    [(-1)^neg * m * 10^e]; only its truth value is ever needed. *)
Inductive pyfloat :=
  | FDec (neg : bool) (m : N) (e : Z)
  | FNaN
  | FInf (neg : bool).

Inductive pyval :=
  | PNone
  | PBool (b : bool)
  | PInt (z : Z)
  | PFloat (f : pyfloat)
  | PStr (s : str)
  | PList (l : list pyval)
  | PDict (d : list (str * pyval)).

(** [d[k] = v] on a dict kept in insertion order: an existing key keeps
    its place and takes the new value. *)
Fixpoint dict_set (d : list (str * pyval)) (k : str) (v : pyval)
  : list (str * pyval) :=
  match d with
  | [] => [(k, v)]
  | (k', v') :: r => if str_eqb k' k then (k, v) :: r else (k', v') :: dict_set r k v
  end.

Fixpoint dict_get (d : list (str * pyval)) (k : str) : option pyval :=
  match d with
  | [] => None
  | (k', v') :: r => if str_eqb k' k then Some v' else dict_get r k
  end.

(** The decimal literal rounds to zero as an IEEE double exactly when it is
    at most 2^-1075, half of the smallest subnormal. *)
Definition float_is_zero (f : pyfloat) : bool :=
  match f with
  | FDec _ m e =>
      (m =? 0)%N ||
      ((e <? 0)%Z && (Z.of_N m * 2 ^ 1075 <=? 10 ^ (- e))%Z)
  | FNaN => false
  | FInf _ => false
  end.

(** [bool(v)] *)
Definition truthy (v : pyval) : bool :=
  match v with
  | PNone => false
  | PBool b => b
  | PInt z => negb (z =? 0)%Z
  | PFloat f => negb (float_is_zero f)
  | PStr s => negb (bool_decide (s = []))
  | PList l => negb (bool_decide (length l = 0))
  | PDict d => negb (bool_decide (length d = 0))
  end.

(** [v == s] for a [str] [s]: only an equal [str] compares equal. *)
Definition eq_str (v : pyval) (s : str) : bool :=
  match v with
  | PStr t => str_eqb t s
  | _ => false
  end.

(** *** [json.dump(obj, f, indent=4)] on the flat records the scripts write *)

Definition hex_digit (n : N) : ascii :=
  if (n <? 10)%N then chr (48 + n) else chr (87 + n).

(** ['\\u{0:04x}'.format(n)] for a code point below 256 *)
Definition escape_u (c : ascii) : str :=
  [backslash; "u"; "0"; "0"; hex_digit (ord c / 16); hex_digit (ord c mod 16)]%char.

(** One step of [ESCAPE_ASCII]: backslash, quote and everything outside
    SPACE..~ are escaped. *)
Definition escape_char (c : ascii) : str :=
  if ascii_eqb c backslash then [backslash; backslash]
  else if ascii_eqb c dquote then [backslash; dquote]
  else if (ord c =? 8)%N then [backslash; "b"%char]
  else if (ord c =? 12)%N then [backslash; "f"%char]
  else if (ord c =? 10)%N then [backslash; "n"%char]
  else if (ord c =? 13)%N then [backslash; "r"%char]
  else if (ord c =? 9)%N then [backslash; "t"%char]
  else if between 32 126 (ord c) then [c]
  else escape_u c.

Definition encode_basestring_ascii (s : str) : str :=
  dquote :: flat_map escape_char s ++ [dquote].

Inductive scalar :=
  | SStr (s : str)
  | SInt (z : Z)
  | SNone.

Definition to_py (v : scalar) : pyval :=
  match v with
  | SStr s => PStr s
  | SInt z => PInt z
  | SNone => PNone
  end.

Definition dumps_scalar (v : scalar) : str :=
  match v with
  | SStr s => encode_basestring_ascii s
  | SInt z => repr_int z
  | SNone => "null"%string
  end.

Definition dumps_item (kv : str * scalar) : str :=
  encode_basestring_ascii (fst kv) ++ ": "%string ++ dumps_scalar (snd kv).

(** The text [json.dump(d, f, indent=4)] writes for a dict of scalars. *)
Definition json_dumps (d : list (str * scalar)) : str :=
  match d with
  | [] => "{}"%string
  | _ =>
      "{"%string ++ newline :: "    "%string
      ++ join (","%char :: newline :: "    "%string) (map dumps_item d)
      ++ newline :: "}"%string
  end.

(** *** [json.load] *)

(** [WHITESPACE] of [json.decoder] *)
Definition is_ws (c : ascii) : bool :=
  (ord c =? 32)%N || (ord c =? 9)%N || (ord c =? 10)%N || (ord c =? 13)%N.

Fixpoint skip_ws (s : str) : str :=
  match s with
  | c :: r => if is_ws c then skip_ws r else s
  | [] => []
  end.

Definition hex_val (c : ascii) : option N :=
  let n := ord c in
  if between 48 57 n then Some (n - 48)%N
  else if between 97 102 n then Some (n - 87)%N
  else if between 65 70 n then Some (n - 55)%N
  else None.

Definition hex4 (a b c d : ascii) : option N :=
  match hex_val a, hex_val b, hex_val c, hex_val d with
  | Some x, Some y, Some z, Some w => Some (((x * 16 + y) * 16 + z) * 16 + w)%N
  | _, _, _, _ => None
  end.

(** [BACKSLASH] of [json.decoder] *)
Definition unescape (e : ascii) : option ascii :=
  if ascii_eqb e dquote then Some dquote
  else if ascii_eqb e backslash then Some backslash
  else if ascii_eqb e "/" then Some "/"%char
  else if ascii_eqb e "b" then Some (chr 8)
  else if ascii_eqb e "f" then Some (chr 12)
  else if ascii_eqb e "n" then Some (chr 10)
  else if ascii_eqb e "r" then Some (chr 13)
  else if ascii_eqb e "t" then Some (chr 9)
  else None.

Definition cons_fst (c : ascii) (r : option (str * str)) : option (str * str) :=
  match r with
  | Some (t, rest) => Some (c :: t, rest)
  | None => None
  end.

(** [scanstring] in strict mode, started after the opening quote: the
    decoded string and the text after the closing quote. A [\uXXXX] escape
    of a code point of 256 or more denotes a string outside the model. *)
Fixpoint scanstring (s : str) : option (str * str) :=
  match s with
  | [] => None
  | c :: r =>
      if ascii_eqb c dquote then Some ([], r)
      else if ascii_eqb c backslash then
        match r with
        | [] => None
        | e :: r1 =>
            match unescape e with
            | Some ch => cons_fst ch (scanstring r1)
            | None =>
                if ascii_eqb e "u" then
                  match r1 with
                  | h1 :: h2 :: h3 :: h4 :: r2 =>
                      match hex4 h1 h2 h3 h4 with
                      | Some n =>
                          if (n <? 256)%N then cons_fst (chr n) (scanstring r2)
                          else None
                      | None => None
                      end
                  | _ => None
                  end
                else None
            end
        end
      else if (ord c <? 32)%N then None
      else cons_fst c (scanstring r)
  end.

Definition is_digit (c : ascii) : bool := between 48 57 (ord c).

(** The longest run of digits at the head of [s], read in base ten on top
    of [acc], with their number. *)
Fixpoint digits (acc : N) (n : nat) (s : str) : N * nat * str :=
  match s with
  | c :: r =>
      if is_digit c then digits (acc * 10 + (ord c - 48))%N (S n) r
      else (acc, n, s)
  | [] => (acc, n, s)
  end.

(** The integer part of [NUMBER_RE]: an optional minus sign, then a
    single zero or a run of digits that does not begin with zero. *)
Definition scan_integer (s : str) : option (bool * N * str) :=
  let '(neg, s1) :=
    match s with
    | c :: r => if ascii_eqb c "-" then (true, r) else (false, s)
    | [] => (false, s)
    end in
  match s1 with
  | c :: r =>
      if ascii_eqb c "0" then Some (neg, 0%N, r)
      else if is_digit c then
        let '(m, _, r') := digits 0 0 s1 in Some (neg, m, r')
      else None
  | [] => None
  end.

(** The optional fraction of [NUMBER_RE], a dot and at least one digit:
    the mantissa extended by the fraction digits, and their number. *)
Definition scan_frac (m : N) (s : str) : option (N * nat * str) :=
  match s with
  | c :: r =>
      if ascii_eqb c "." then
        match digits m 0 r with
        | (_, O, _) => None
        | (m', n, r') => Some (m', n, r')
        end
      else None
  | [] => None
  end.

(** The optional exponent of [NUMBER_RE]: e or E, an optional sign, and
    at least one digit. *)
Definition scan_exp (s : str) : option (Z * str) :=
  match s with
  | c :: r =>
      if ascii_eqb c "e" || ascii_eqb c "E" then
        let '(neg, r1) :=
          match r with
          | d :: r' =>
              if ascii_eqb d "-" then (true, r')
              else if ascii_eqb d "+" then (false, r')
              else (false, r)
          | [] => (false, r)
          end in
        match digits 0 0 r1 with
        | (_, O, _) => None
        | (x, _, r2) => Some (if neg then (- Z.of_N x)%Z else Z.of_N x, r2)
        end
      else None
  | [] => None
  end.

(** [match_number]: an [int] when the literal has neither fraction nor
    exponent, a [float] otherwise. *)
Definition scan_number (s : str) : option (pyval * str) :=
  match scan_integer s with
  | None => None
  | Some (neg, m, r) =>
      match scan_frac m r with
      | Some (m', n, r1) =>
          match scan_exp r1 with
          | Some (x, r2) => Some (PFloat (FDec neg m' (x - Z.of_nat n)), r2)
          | None => Some (PFloat (FDec neg m' (- Z.of_nat n)), r1)
          end
      | None =>
          match scan_exp r with
          | Some (x, r2) => Some (PFloat (FDec neg m x), r2)
          | None => Some (PInt (if neg then (- Z.of_N m)%Z else Z.of_N m), r)
          end
      end
  end.

(** The text after [p] when [s] begins with [p]. *)
Definition after (p s : str) : option str :=
  if startswith s p then Some (drop (length p) s) else None.

Definition scan_constant (s : str) : option (pyval * str) :=
  match after "null"%string s with
  | Some r => Some (PNone, r)
  | None =>
  match after "true"%string s with
  | Some r => Some (PBool true, r)
  | None =>
  match after "false"%string s with
  | Some r => Some (PBool false, r)
  | None =>
  match scan_number s with
  | Some x => Some x
  | None =>
  match after "NaN"%string s with
  | Some r => Some (PFloat FNaN, r)
  | None =>
  match after "Infinity"%string s with
  | Some r => Some (PFloat (FInf false), r)
  | None =>
  match after "-Infinity"%string s with
  | Some r => Some (PFloat (FInf true), r)
  | None => None
  end end end end end end end.

(** [scan_once], [JSONObject] and [JSONArray]. [parse_members] starts
    after the opening quote of a key, [parse_elems] at an element. Every
    call consumes a character before it recurses, so [fuel] above the
    length of the text is never used up. *)
Fixpoint parse_value (fuel : nat) (s : str) : option (pyval * str) :=
  match fuel with
  | O => None
  | S f =>
      match s with
      | [] => None
      | c :: r =>
          if ascii_eqb c dquote then
            match scanstring r with
            | Some (t, r1) => Some (PStr t, r1)
            | None => None
            end
          else if ascii_eqb c "{" then
            match skip_ws r with
            | c1 :: r1 =>
                if ascii_eqb c1 "}" then Some (PDict [], r1)
                else if ascii_eqb c1 dquote then parse_members f [] r1
                else None
            | [] => None
            end
          else if ascii_eqb c "[" then
            match skip_ws r with
            | c1 :: r1 =>
                if ascii_eqb c1 "]" then Some (PList [], r1)
                else parse_elems f [] (c1 :: r1)
            | [] => None
            end
          else scan_constant s
      end
  end
with parse_members (fuel : nat) (acc : list (str * pyval)) (s : str)
  : option (pyval * str) :=
  match fuel with
  | O => None
  | S f =>
      match scanstring s with
      | None => None
      | Some (k, r) =>
          match skip_ws r with
          | c :: r1 =>
              if ascii_eqb c ":" then
                match parse_value f (skip_ws r1) with
                | None => None
                | Some (v, r2) =>
                    match skip_ws r2 with
                    | c2 :: r3 =>
                        if ascii_eqb c2 "}" then Some (PDict (dict_set acc k v), r3)
                        else if ascii_eqb c2 "," then
                          match skip_ws r3 with
                          | c3 :: r4 =>
                              if ascii_eqb c3 dquote
                              then parse_members f (dict_set acc k v) r4
                              else None
                          | [] => None
                          end
                        else None
                    | [] => None
                    end
                end
              else None
          | [] => None
          end
      end
  end
with parse_elems (fuel : nat) (acc : list pyval) (s : str)
  : option (pyval * str) :=
  match fuel with
  | O => None
  | S f =>
      match parse_value f s with
      | None => None
      | Some (v, r) =>
          match skip_ws r with
          | c :: r1 =>
              if ascii_eqb c "]" then Some (PList (acc ++ [v]), r1)
              else if ascii_eqb c "," then parse_elems f (acc ++ [v]) (skip_ws r1)
              else None
          | [] => None
          end
      end
  end.

(** [json.loads]: one value, white space around it, nothing else. *)
Definition json_loads (s : str) : option pyval :=
  match parse_value (S (length s)) (skip_ws s) with
  | Some (v, r) => match skip_ws r with [] => Some v | _ :: _ => None end
  | None => None
  end.

(** The exceptions a run can end in. *)
Inductive exn :=
  | RuntimeError (msg : str)
  | HTTPError (url : str)
  | JSONDecodeError
  | KeyError (k : str)
  | TypeError
  | AttributeError
  | IndexError
  | BadZipFile
  | FileNotFoundError.

(** [v[k]] for a [str] key: a dict is looked up, everything else refuses
    the subscript. *)
Definition getitem (v : pyval) (k : str) : exn + pyval :=
  match v with
  | PDict d =>
      match dict_get d k with
      | Some x => inr x
      | None => inl (KeyError k)
      end
  | _ => inl TypeError
  end.

(** [l[0]] *)
Definition item0 {A} (l : list A) : exn + A :=
  match l with
  | x :: _ => inr x
  | [] => inl IndexError
  end.

(** [v.get(k)]: only a dict has the method. *)
Definition get (v : pyval) (k : str) : exn + pyval :=
  match v with
  | PDict d =>
      match dict_get d k with
      | Some x => inr x
      | None => inr PNone
      end
  | _ => inl AttributeError
  end.

(* ===================================================================== *)
(** ** The world of a run                                                 *)
(* ===================================================================== *)

(** What the GitHub API answers, already read into the fields the scripts
    use. *)
Record asset := { name : str; browser_download_url : str }.
Record release := { tag_name : str; assets : list asset }.

(** A streamed download is refused before the file is opened, breaks off
    after part of the file is written, or completes. *)
Inductive transfer :=
  | Refused (e : exn)
  | Aborted (e : exn) (written : str)
  | Complete (content : str).

(** The surroundings of a run, which the run does not change: the platform
    name and, per URL, what each remote call would answer. An oracle
    answers [inl e] when the call raises [e] (a failed [requests.get], a
    bad status in [raise_for_status], a body that is not the JSON
    expected). *)
Record env := {
  platform_system : str;
  api_release : str -> exn + release;
  api_releases : str -> exn + list release;
  api_commit_sha : str -> exn + str;
  api_pull_body : str -> exn + str;
  web_page : str -> exn + str;
  download : str -> transfer;
  unzip : str -> exn + list (str * str);
}.

Inductive event :=
  | Get (url : str)
  | Download (url : str)
  | Extract (file : str)
  | Save (text : str)
  | Clear.

(** The files of [SCRIPT_DIR] and the calls made so far, oldest first.
    [downloads] is [None] while the directory does not exist. *)
Record state := {
  version_file : option str;
  downloads : option (gmap str str);
  installation : gmap str str;
  trace : list event;
}.

Definition M (A : Type) : Type := state -> (exn + A) * state.

Definition ret {A} (a : A) : M A := fun st => (inr a, st).

Definition raise {A} (e : exn) : M A := fun st => (inl e, st).

Definition bind {A B} (m : M A) (k : A -> M B) : M B :=
  fun st =>
    match m st with
    | (inr a, st') => k a st'
    | (inl e, st') => (inl e, st')
    end.

(** [try: m  except Exception: h] *)
Definition catch {A} (m : M A) (h : exn -> M A) : M A :=
  fun st =>
    match m st with
    | (inr a, st') => (inr a, st')
    | (inl e, st') => h e st'
    end.

Definition lift {A} (r : exn + A) : M A :=
  match r with
  | inr a => ret a
  | inl e => raise e
  end.

Definition log (ev : event) : M unit :=
  fun st =>
    (inr tt, {| version_file := version_file st; downloads := downloads st;
                installation := installation st; trace := trace st ++ [ev] |}).

Notation "'let!' x ':=' m 'in' k" := (bind m (fun x => k))
  (at level 10, x binder, m at level 100, k at level 200).
Notation "m >> k" := (bind m (fun _ => k))
  (at level 65, right associativity).

(** [requests.get(url)] on an API or page endpoint, through its oracle. *)
Definition request {A} (oracle : str -> exn + A) (url : str) : M A :=
  log (Get url) >> lift (oracle url).

(** *** The helpers every script repeats *)

Definition load_local_version : M pyval :=
  fun st =>
    match version_file st with
    | None => (inr PNone, st)
    | Some text =>
        match json_loads text with
        | Some v => (inr v, st)
        | None => (inl JSONDecodeError, st)
        end
    end.

(** [open(VERSION_FILE, "w")] and [json.dump] of the record [d] *)
Definition write_version (d : list (str * scalar)) : M unit :=
  fun st =>
    (inr tt, {| version_file := Some (json_dumps d); downloads := downloads st;
                installation := installation st;
                trace := trace st ++ [Save (json_dumps d)] |}).

Definition makedirs_downloads : M unit :=
  fun st =>
    (inr tt, {| version_file := version_file st;
                downloads := Some (default ∅ (downloads st));
                installation := installation st; trace := trace st |}).

Definition write_download (file content : str) : M unit :=
  fun st =>
    (inr tt, {| version_file := version_file st;
                downloads := Some (<[file := content]> (default ∅ (downloads st)));
                installation := installation st; trace := trace st |}).

(** The body shared by [download_asset], [download_nightly] and
    [download_file]: the directory is made, the URL streamed into
    [DOWNLOAD_DIR/file], and the name of the file returned. *)
Definition fetch_to (E : env) (url file : str) : M str :=
  makedirs_downloads >>
  log (Download url) >>
  match download E url with
  | Refused e => raise e
  | Aborted e written => write_download file written >> raise e
  | Complete content => write_download file content >> ret file
  end.

Definition extractall (entries : list (str * str)) : M unit :=
  fun st =>
    (inr tt, {| version_file := version_file st; downloads := downloads st;
                installation :=
                  foldl (fun m kv => <[fst kv := snd kv]> m) (installation st) entries;
                trace := trace st |}).

Definition read_download (file : str) : M str :=
  fun st =>
    match default ∅ (downloads st) !! file with
    | Some content => (inr content, st)
    | None => (inl FileNotFoundError, st)
    end.

Definition extract_zip (E : env) (filepath : str) : M unit :=
  log (Extract filepath) >>
  let! content := read_download filepath in
  let! entries := lift (unzip E content) in
  extractall entries.

Definition rmtree_downloads : M unit :=
  fun st =>
    (inr tt, {| version_file := version_file st; downloads := None;
                installation := installation st; trace := trace st ++ [Clear] |}).

Definition clear_downloads : M unit :=
  fun st =>
    match downloads st with
    | Some _ => rmtree_downloads st
    | None => (inr tt, st)
    end.

(** [local[key] if local else None] *)
Definition installed_field (local : pyval) (key : str) : M pyval :=
  if truthy local then lift (getitem local key) else ret PNone.

Definition unsupported_os (sys : str) : exn :=
  RuntimeError ("Unsupported OS: "%string ++ sys).

(* ===================================================================== *)
(** ** scripts/2ship-Updatescript.py                                      *)
(* ===================================================================== *)

Module TwoShip.

Definition REPO : str := "HarbourMasters/2ship2harkinian"%string.

Definition save_local_version (version : str) : M unit :=
  write_version [("installed_version"%string : str, SStr version);
                 ("repo"%string : str, SStr REPO)].

Definition get_os_target_word (E : env) : exn + str :=
  let sys := lower (platform_system E) in
  if str_eqb sys "windows"%string then inr ("Win64"%string : str)
  else if str_eqb sys "linux"%string then inr ("Linux"%string : str)
  else if str_eqb sys "darwin"%string then inr ("Mac"%string : str)
  else inl (unsupported_os sys).

Definition releases_latest_url : str :=
  "https://api.github.com/repos/"%string ++ REPO ++ "/releases/latest"%string.

Definition get_latest_release (E : env) : M release :=
  request (api_release E) releases_latest_url.

Definition download_asset (E : env) (a : asset) : M str :=
  fetch_to E (browser_download_url a) (name a).

Definition install_or_update (E : env) : M unit :=
  let! local := load_local_version in
  let! installed := installed_field local "installed_version"%string in
  let! release := get_latest_release E in
  let latest := tag_name release in
  if eq_str installed latest then ret tt
  else
    let! word := lift (get_os_target_word E) in
    let target_word := lower word in
    let candidates :=
      List.filter
        (fun a => endswith (lower (name a))
                    ("-"%string ++ target_word ++ ".zip"%string))
        (assets release) in
    match candidates with
    | [] =>
        raise (RuntimeError ("No matching asset for OS '"%string ++ target_word
                             ++ "'"%string))
    | _ :: _ =>
        let! a := lift (item0 candidates) in
        let! zip_path := download_asset E a in
        extract_zip E zip_path >>
        save_local_version latest >>
        clear_downloads
    end.

End TwoShip.

(* ===================================================================== *)
(** ** scripts/Spaghettikart-Updatescript.py                              *)
(* ===================================================================== *)

Module Spaghettikart.

Definition REPO : str := "HarbourMasters/Spaghettikart"%string.

Definition save_local_version (version : str) : M unit :=
  write_version [("installed_version"%string : str, SStr version);
                 ("repo"%string : str, SStr REPO)].

(** The message of the macOS refusal, as the bytes of the source literal. *)
Definition no_macos_build : exn :=
  RuntimeError "⚠️ Spaghettikart has no macOS build available."%string.

Definition get_os_tag (E : env) : exn + str :=
  let sys := lower (platform_system E) in
  if str_eqb sys "windows"%string then inr ("windows"%string : str)
  else if str_eqb sys "linux"%string then inr ("linux-old"%string : str)
  else if str_eqb sys "darwin"%string then inl no_macos_build
  else inl (unsupported_os sys).

Definition releases_url : str :=
  "https://api.github.com/repos/"%string ++ REPO ++ "/releases"%string.

Definition no_releases : exn :=
  RuntimeError "No releases or pre-releases found."%string.

Definition get_latest_any_release (E : env) : M release :=
  let! releases := request (api_releases E) releases_url in
  match releases with
  | [] => raise no_releases
  | _ :: _ => lift (item0 releases)
  end.

Definition download_asset (E : env) (a : asset) : M str :=
  fetch_to E (browser_download_url a) (name a).

Definition install_or_update (E : env) : M unit :=
  let! local := load_local_version in
  let! installed := installed_field local "installed_version"%string in
  let! release := get_latest_any_release E in
  let latest := tag_name release in
  if eq_str installed latest then ret tt
  else
    let! os_tag := lift (get_os_tag E) in
    let candidates :=
      List.filter
        (fun a => contains os_tag (lower (name a))
                  && endswith (lower (name a)) ".zip"%string)
        (assets release) in
    match candidates with
    | [] => raise (RuntimeError ("No asset found for: "%string ++ os_tag))
    | _ :: _ =>
        let! a := lift (item0 candidates) in
        let! zip_path := download_asset E a in
        extract_zip E zip_path >>
        save_local_version latest >>
        clear_downloads
    end.

End Spaghettikart.

(* ===================================================================== *)
(** ** scripts/SoH-Updatescript-Nightly.py                                *)
(* ===================================================================== *)

Module SohNightly.

Definition REPO : str := "HarbourMasters/Shipwright"%string.
Definition BRANCH : str := "develop"%string.
Definition NIGHTLY_BASE : str :=
  "https://nightly.link/"%string ++ REPO ++ "/workflows/generate-builds/"%string
  ++ BRANCH.

Definition save_local_version (commit_sha : str) : M unit :=
  write_version [("latest_commit"%string : str, SStr commit_sha)].

Definition commits_url : str :=
  "https://api.github.com/repos/"%string ++ REPO ++ "/commits/"%string ++ BRANCH.

Definition get_latest_commit_sha (E : env) : M str :=
  request (api_commit_sha E) commits_url.

Definition get_os_zip_name (E : env) : exn + str :=
  let sys := lower (platform_system E) in
  if str_eqb sys "windows"%string then inr ("soh-windows.zip"%string : str)
  else if str_eqb sys "linux"%string then inr ("soh-linux.zip"%string : str)
  else if str_eqb sys "darwin"%string then inr ("soh-mac.zip"%string : str)
  else inl (unsupported_os sys).

Definition download_nightly (E : env) (zip_name : str) : M str :=
  fetch_to E (NIGHTLY_BASE ++ "/"%string ++ zip_name) zip_name.

Definition install_latest_nightly (E : env) : M unit :=
  let! local := load_local_version in
  let! installed_commit := installed_field local "latest_commit"%string in
  let! latest_commit := get_latest_commit_sha E in
  if eq_str installed_commit latest_commit then clear_downloads
  else
    let! zip_name := lift (get_os_zip_name E) in
    let! zip_path := download_nightly E zip_name in
    extract_zip E zip_path >>
    save_local_version latest_commit >>
    clear_downloads.

End SohNightly.

(* ===================================================================== *)
(** ** scripts/Spaghettikart-Updatescript-Nightly.py                      *)
(* ===================================================================== *)

Module SpaghettikartNightly.

Definition REPO : str := "HarbourMasters/SpaghettiKart"%string.
Definition WORKFLOW : str := "main"%string.
Definition BRANCH : str := "main"%string.
Definition NIGHTLY_BASE : str :=
  "https://nightly.link/"%string ++ REPO ++ "/workflows/"%string ++ WORKFLOW
  ++ "/"%string ++ BRANCH.

Definition save_local_version (commit_sha : str) : M unit :=
  write_version [("latest_commit"%string : str, SStr commit_sha)].

Definition commits_url : str :=
  "https://api.github.com/repos/"%string ++ REPO ++ "/commits/"%string ++ BRANCH.

Definition get_latest_commit_sha (E : env) : M str :=
  request (api_commit_sha E) commits_url.

Definition get_os_zip_name (E : env) : exn + str :=
  let sys := lower (platform_system E) in
  if str_eqb sys "linux"%string then inr ("spaghetti-linux-x64.zip"%string : str)
  else if str_eqb sys "windows"%string then inr ("spaghetti-windows.zip"%string : str)
  else if str_eqb sys "darwin"%string then inr ("spaghetti-mac-intel-x64.zip"%string : str)
  else inl (unsupported_os sys).

Definition download_nightly (E : env) (zip_name : str) : M str :=
  fetch_to E (NIGHTLY_BASE ++ "/"%string ++ zip_name) zip_name.

Definition install_latest_nightly (E : env) : M unit :=
  let! local := load_local_version in
  let! installed_commit := installed_field local "latest_commit"%string in
  let! latest_commit := get_latest_commit_sha E in
  if eq_str installed_commit latest_commit then clear_downloads
  else
    let! zip_name := lift (get_os_zip_name E) in
    let! zip_path := download_nightly E zip_name in
    extract_zip E zip_path >>
    save_local_version latest_commit >>
    clear_downloads.

End SpaghettikartNightly.

(* ===================================================================== *)
(** ** Regular expressions of the PR script                               *)
(* ===================================================================== *)

(** A compiled pattern is modelled by its matcher at a position: given the
    text from that position on, the groups of the match and the text after
    it. Both patterns of the script are deterministic up to the points
    noted at their definitions, and neither matches the empty string. *)

(** One literal character under [re.IGNORECASE]. *)
Definition ieq (p c : ascii) : bool := ascii_eqb (lower_char c) (lower_char p).

(** A literal under [re.IGNORECASE]: the text after it. *)
Fixpoint imatch (p s : str) {struct p} : option str :=
  match p, s with
  | [], _ => Some s
  | a :: p', b :: s' => if ieq a b then imatch p' s' else None
  | _ :: _, [] => None
  end.

(** A greedy character class: the longest run of the class and the rest. *)
Fixpoint span (f : ascii -> bool) (s : str) : str * str :=
  match s with
  | c :: r =>
      if f c then let '(a, b) := span f r in (c :: a, b) else ([], s)
  | [] => ([], [])
  end.

(** The part of [s] in front of its suffix [rest]. *)
Definition consumed (s rest : str) : str := take (length s - length rest) s.

(** [pattern.finditer(s)]: a match is sought at each position from the
    left; after a match the search resumes at its end. [skip] counts the
    characters still covered by the last match. *)
Fixpoint finditer_from {A} (pattern : str -> option (A * str)) (skip : nat)
  (s : str) : list A :=
  match s with
  | [] => []
  | _ :: r =>
      match skip with
      | S k => finditer_from pattern k r
      | O =>
          match pattern s with
          | Some (g, rest) =>
              g :: finditer_from pattern (length s - length rest - 1) r
          | None => finditer_from pattern 0 r
          end
      end
  end.

Definition finditer {A} (pattern : str -> option (A * str)) (s : str) : list A :=
  finditer_from pattern 0 s.

(* ===================================================================== *)
(** ** scripts/SoH-Updatescript-Lynks.py                                  *)
(* ===================================================================== *)

Module Lynks.

Definition REPO : str := "TheLynk/Shipwright"%string.
Definition PR_NUMBER : Z := 11.

Definition ARTIFACT_OS_MAP : gmap str str :=
  <[("windows"%string : str) := ("soh-windows.zip"%string : str)]>
  (<[("linux"%string : str) := ("soh-linux.zip"%string : str)]>
  (<[("darwin"%string : str) := ("soh-mac.zip"%string : str)]> ∅)).

Definition save_local_version (download_url : str) : M unit :=
  write_version [("download_url"%string : str, SStr download_url);
                 ("repo"%string : str, SStr REPO);
                 ("pr_number"%string : str, SInt PR_NUMBER)].

Definition get_os_key (E : env) : exn + str :=
  let sysname := lower (platform_system E) in
  match ARTIFACT_OS_MAP !! sysname with
  | Some _ => inr sysname
  | None => inl (unsupported_os sysname)
  end.

Definition pull_api_url (repo : str) (pr_number : Z) : str :=
  "https://api.github.com/repos/"%string ++ repo ++ "/pulls/"%string
  ++ repr_int pr_number.

Definition fetch_pr_body (E : env) (repo : str) (pr_number : Z) : M str :=
  request (api_pull_body E) (pull_api_url repo pr_number).

(** The pattern of [extract_markdown_links_from_body]: an opening bracket,
    the link text (one or more characters other than the closing bracket),
    the closing bracket and an opening parenthesis, white space, a URL
    (http or https, a colon and two slashes, then one or more characters
    that are neither white space nor a closing parenthesis), white space
    and the closing parenthesis. Each greedy run is followed by a
    character outside its class, so giving characters back never helps and
    the match at a position is unique. Groups: the text and the URL. *)
Definition markdown_link (s : str) : option (str * str * str) :=
  match s with
  | c :: s1 =>
      if ascii_eqb c "[" then
        let '(text, s2) := span (fun c => negb (ascii_eqb c "]")) s1 in
        match text, s2 with
        | _ :: _, _ :: c3 :: s4 =>
            if ascii_eqb c3 "(" then
              let s5 := lstrip s4 in
              match imatch "http"%string s5 with
              | Some s6 =>
                  let s7 :=
                    match s6 with
                    | c6 :: r6 => if ieq "s" c6 then r6 else s6
                    | [] => s6
                    end in
                  match imatch "://"%string s7 with
                  | Some s8 =>
                      let '(u, s9) :=
                        span (fun c => negb (isspace c || ascii_eqb c ")")) s8 in
                      match u, lstrip s9 with
                      | _ :: _, c10 :: rest =>
                          if ascii_eqb c10 ")"
                          then Some (text, consumed s5 s9, rest)
                          else None
                      | _, _ => None
                      end
                  | None => None
                  end
              | None => None
              end
            else None
        | _, _ => None
        end
      else None
  | [] => None
  end.

(** The file name shared by both patterns, [soh-], one of [windows],
    [linux] and [mac], and [.zip], under [re.IGNORECASE]: the text after
    it. The alternatives differ in their first letter, so at most one
    applies. *)
Definition soh_zip (s : str) : option str :=
  match imatch "soh-"%string s with
  | Some s1 =>
      let alt (w : str) :=
        match imatch w s1 with
        | Some s2 => imatch ".zip"%string s2
        | None => None
        end in
      match alt "windows"%string with
      | Some s3 => Some s3
      | None =>
          match alt "linux"%string with
          | Some s3 => Some s3
          | None => alt "mac"%string
          end
      end
  | None => None
  end.

(** [re.match] of the file name anchored at both ends; the dollar sign
    also matches in front of a final newline. *)
Definition is_soh_zip (text : str) : bool :=
  match soh_zip text with
  | Some rest => bool_decide (rest = []) || bool_decide (rest = [newline])
  | None => false
  end.

Definition extract_markdown_links_from_body (body : str) : gmap str str :=
  foldl
    (fun (links : gmap str str) (m : str * str) =>
       let text := strip (fst m) in
       let url := strip (snd m) in
       if is_soh_zip text then <[lower text := url]> links else links)
    ∅ (finditer markdown_link body).

Definition pull_page_url : str :=
  "https://github.com/"%string ++ REPO ++ "/pull/"%string ++ repr_int PR_NUMBER.

Definition fetch_pr_html (E : env) (pr_url : str) : M str :=
  request (web_page E) pr_url.

Definition is_quote (c : ascii) : bool := ascii_eqb c dquote || ascii_eqb c squote.

(** The tail of the pattern of [extract_nightly_links_from_html]: [href=],
    a quote, the URL (the host prefix and one or more characters that are
    neither white space, a quote nor a closing angle bracket) and a quote.
    The run of URL characters ends in front of a character outside its
    class, so it is never shortened. *)
Definition href_nightly (t : str) : option (str * str) :=
  match imatch "href="%string t with
  | Some (q :: t2) =>
      if is_quote q then
        match imatch "https://nightly.link/"%string t2 with
        | Some t3 =>
            let '(u, t4) :=
              span (fun c => negb (isspace c || is_quote c || ascii_eqb c ">")) t3 in
            match u, t4 with
            | _ :: _, q' :: rest =>
                if is_quote q' then Some (consumed t2 t4, rest) else None
            | _, _ => None
            end
        | None => None
        end
      else None
  | _ => None
  end.

(** The lazy gap of at most [n] arbitrary characters in front of the tail:
    the shortest gap after which the tail matches. *)
Fixpoint lazy_gap (n : nat) (t : str) : option (str * str) :=
  match href_nightly t with
  | Some x => Some x
  | None =>
      match n, t with
      | S k, _ :: t' => lazy_gap k t'
      | _, _ => None
      end
  end.

(** The pattern of [extract_nightly_links_from_html]. Groups: the file name
    and the URL. *)
Definition nightly_link (s : str) : option (str * str * str) :=
  match soh_zip s with
  | Some s1 =>
      match lazy_gap 200 s1 with
      | Some (url, rest) => Some (consumed s s1, url, rest)
      | None => None
      end
  | None => None
  end.

Definition extract_nightly_links_from_html (html : str) : gmap str str :=
  foldl
    (fun (links : gmap str str) (m : str * str) =>
       let name := lower (strip (fst m)) in
       let url := strip (snd m) in
       <[name := url]> links)
    ∅ (finditer nightly_link html).

Definition download_file (E : env) (url filename : str) : M str :=
  fetch_to E url filename.

Definition no_links_found : exn :=
  RuntimeError "No soh-<os>.zip artifact links found in PR body or HTML."%string.

Definition artifact_not_found (target_filename : str) (links : gmap str str) : exn :=
  RuntimeError
    ("Artifact for this OS ('"%string ++ target_filename
     ++ "') not found. Available links: "%string
     ++ join ", "%string (sorted (map fst (map_to_list links)))).

Definition is_empty (links : gmap str str) : bool := bool_decide (links = ∅).

Definition install_or_update_from_pr (E : env) : M unit :=
  let! os_key := lift (get_os_key E) in
  let! target := lift (match ARTIFACT_OS_MAP !! os_key with
                       | Some f => inr f
                       | None => inl (KeyError os_key)
                       end) in
  let target_filename := lower target in
  let! local := load_local_version in
  let! body := catch (fetch_pr_body E REPO PR_NUMBER) (fun _ => ret []) in
  let links :=
    match body with
    | _ :: _ => extract_markdown_links_from_body body
    | [] => ∅
    end in
  let! links :=
    (if is_empty links then
       catch (let! html := fetch_pr_html E pull_page_url in
              ret (extract_nightly_links_from_html html))
             (fun _ => ret links)
     else ret links) in
  if is_empty links then raise no_links_found
  else
    match links !! target_filename with
    | None => raise (artifact_not_found target_filename links)
    | Some download_url =>
        let! up_to_date :=
          (if truthy local then
             let! recorded := lift (get local "download_url"%string) in
             ret (eq_str recorded download_url)
           else ret false) in
        if up_to_date then ret tt
        else
          let! zip_path := download_file E download_url target_filename in
          extract_zip E zip_path >>
          save_local_version download_url >>
          clear_downloads
    end.

End Lynks.

(* ===================================================================== *)
(** ** Notions used to state the properties                               *)
(* ===================================================================== *)

Definition outcome {A} (m : M A) (st : state) : exn + A := fst (m st).

Definition final {A} (m : M A) (st : state) : state := snd (m st).

(** The calls a computation adds to the trace. *)
Definition run_events {A} (m : M A) (st : state) : list event :=
  drop (length (trace st)) (trace (final m st)).

Definition failed {A} (r : exn + A) : Prop :=
  match r with
  | inl _ => True
  | inr _ => False
  end.

(** The five entry points. *)
Definition orchestrators : list (env -> M unit) :=
  [TwoShip.install_or_update; Spaghettikart.install_or_update;
   SohNightly.install_latest_nightly; SpaghettikartNightly.install_latest_nightly;
   Lynks.install_or_update_from_pr].

(** The state after further calls have been recorded. *)
Definition logged (st : state) (evs : list event) : state :=
  {| version_file := version_file st; downloads := downloads st;
     installation := installation st; trace := trace st ++ evs |}.

(** The state once [file] has been written to the staging directory. *)
Definition staged (st : state) (file content : str) : state :=
  {| version_file := version_file st;
     downloads := Some (<[file := content]> (default ∅ (downloads st)));
     installation := installation st; trace := trace st |}.

(** The steps every script ends with once it knows what to fetch: the
    download into the staging directory, the extraction, the write of
    version.json and the removal of the staging directory. *)
Definition install (E : env) (url file : str) (d : list (str * scalar)) : M unit :=
  let! zip_path := fetch_to E url file in
  extract_zip E zip_path >> write_version d >> clear_downloads.

(** The one pipeline behind the release and nightly scripts: read the
    installed identifier, query the remote one, stop when they agree
    (clearing the staging directory or not), else plan the download for
    this platform and [install]. *)
Definition pipeline (E : env) (key url : str)
  (remote : exn + (str * list asset))
  (plan : list asset -> exn + (str * str))
  (record : str -> list (str * scalar))
  (tidy_when_current : bool) : M unit :=
  let! local := load_local_version in
  let! installed := installed_field local key in
  let! r := request (fun _ => remote) url in
  if eq_str installed (fst r) then
    if tidy_when_current then clear_downloads else ret tt
  else
    let! target := lift (plan (snd r)) in
    install E (fst target) (snd target) (record (fst r)).

(** A script as an instance of the pipeline: its entry point, and what it
    puts in the places the pipeline leaves open. *)
Record id_script := {
  run : env -> M unit;
  state_key : str;
  query_url : str;
  remote : env -> exn + (str * list asset);
  plan : env -> list asset -> exn + (str * str);
  record_of : str -> list (str * scalar);
  tidies_when_current : bool;
}.

Definition as_pipeline (s : id_script) (E : env) : M unit :=
  pipeline E (state_key s) (query_url s) (remote s E) (plan s E) (record_of s)
    (tidies_when_current s).

(** The identifier the remote query of a script answers. *)
Definition remote_identifier (s : id_script) (E : env) : exn + str :=
  match remote s E with
  | inr r => inr (fst r)
  | inl e => inl e
  end.

Definition first_asset (candidates : list asset) (none : exn) : exn + (str * str) :=
  match candidates with
  | a :: _ => inr (browser_download_url a, name a)
  | [] => inl none
  end.

Definition nightly_plan (zip_name : exn + str) (base : str) : exn + (str * str) :=
  match zip_name with
  | inr z => inr (base ++ "/"%string ++ z, z)
  | inl e => inl e
  end.

Definition two_ship : id_script :=
  {| run := TwoShip.install_or_update;
     state_key := "installed_version"%string;
     query_url := TwoShip.releases_latest_url;
     remote := fun E =>
       match api_release E TwoShip.releases_latest_url with
       | inr rel => inr (tag_name rel, assets rel)
       | inl e => inl e
       end;
     plan := fun E l =>
       match TwoShip.get_os_target_word E with
       | inr word =>
           first_asset
             (List.filter
                (fun a => endswith (lower (name a))
                            ("-"%string ++ lower word ++ ".zip"%string)) l)
             (RuntimeError ("No matching asset for OS '"%string ++ lower word
                            ++ "'"%string))
       | inl e => inl e
       end;
     record_of := fun id =>
       [("installed_version"%string : str, SStr id);
        ("repo"%string : str, SStr TwoShip.REPO)];
     tidies_when_current := false |}.

Definition spaghettikart : id_script :=
  {| run := Spaghettikart.install_or_update;
     state_key := "installed_version"%string;
     query_url := Spaghettikart.releases_url;
     remote := fun E =>
       match api_releases E Spaghettikart.releases_url with
       | inr (rel :: _) => inr (tag_name rel, assets rel)
       | inr [] => inl Spaghettikart.no_releases
       | inl e => inl e
       end;
     plan := fun E l =>
       match Spaghettikart.get_os_tag E with
       | inr os_tag =>
           first_asset
             (List.filter
                (fun a => contains os_tag (lower (name a))
                          && endswith (lower (name a)) ".zip"%string) l)
             (RuntimeError ("No asset found for: "%string ++ os_tag))
       | inl e => inl e
       end;
     record_of := fun id =>
       [("installed_version"%string : str, SStr id);
        ("repo"%string : str, SStr Spaghettikart.REPO)];
     tidies_when_current := false |}.

Definition soh_nightly : id_script :=
  {| run := SohNightly.install_latest_nightly;
     state_key := "latest_commit"%string;
     query_url := SohNightly.commits_url;
     remote := fun E =>
       match api_commit_sha E SohNightly.commits_url with
       | inr sha => inr (sha, [])
       | inl e => inl e
       end;
     plan := fun E _ =>
       nightly_plan (SohNightly.get_os_zip_name E) SohNightly.NIGHTLY_BASE;
     record_of := fun id => [("latest_commit"%string : str, SStr id)];
     tidies_when_current := true |}.

Definition spaghettikart_nightly : id_script :=
  {| run := SpaghettikartNightly.install_latest_nightly;
     state_key := "latest_commit"%string;
     query_url := SpaghettikartNightly.commits_url;
     remote := fun E =>
       match api_commit_sha E SpaghettikartNightly.commits_url with
       | inr sha => inr (sha, [])
       | inl e => inl e
       end;
     plan := fun E _ =>
       nightly_plan (SpaghettikartNightly.get_os_zip_name E)
         SpaghettikartNightly.NIGHTLY_BASE;
     record_of := fun id => [("latest_commit"%string : str, SStr id)];
     tidies_when_current := true |}.

(** The scripts that compare a release tag or a commit. *)
Definition identifier_scripts : list id_script :=
  [two_ship; spaghettikart; soh_nightly; spaghettikart_nightly].

(** The installed identifier as a run reads it from version.json. *)
Definition read_installed (key : str) (st : state) : exn + pyval :=
  outcome (let! local := load_local_version in installed_field local key) st.

Definition is_download (ev : event) : bool :=
  match ev with Download _ => true | _ => false end.

Definition is_extract (ev : event) : bool :=
  match ev with Extract _ => true | _ => false end.

Definition is_save (ev : event) : bool :=
  match ev with Save _ => true | _ => false end.

(** The staging directory is absent or empty. *)
Definition staging_clear (st : state) : Prop :=
  downloads st = None \/ downloads st = Some ∅.

(** The platform names of the fixed map, after lowering. *)
Definition os_keys : list str :=
  ["windows"%string : str; "linux"%string : str; "darwin"%string : str].

(** The file names of the PR artifacts. *)
Definition soh_zips : list str :=
  ["soh-windows.zip"%string : str; "soh-linux.zip"%string : str;
   "soh-mac.zip"%string : str].

(** [finditer] tries a match at offset [n] of [s]: no earlier match runs
    over that position. *)
Fixpoint visits_from {A} (pattern : str -> option (A * str)) (skip n : nat)
  (s : str) : bool :=
  match n with
  | O => match skip with O => true | S _ => false end
  | S n' =>
      match s with
      | [] => false
      | _ :: r =>
          match skip with
          | S k => visits_from pattern k n' r
          | O =>
              match pattern s with
              | Some (_, rest) =>
                  visits_from pattern (length s - length rest - 1) n' r
              | None => visits_from pattern 0 n' r
              end
          end
      end
  end.

Definition visits {A} (pattern : str -> option (A * str)) (n : nat) (s : str)
  : bool := visits_from pattern 0 n s.

(** Some part of [s] is an artifact file name, in any case of letters. *)
Fixpoint has_soh_zip (s : str) : bool :=
  match Lynks.soh_zip s with
  | Some _ => true
  | None =>
      match s with
      | [] => false
      | _ :: r => has_soh_zip r
      end
  end.

(** The key a match of the Markdown pattern is filed under, when its text
    is an artifact file name; the key of a match of the page pattern; and
    the URL either is filed with. *)
Definition md_key (m : str * str) : option str :=
  if Lynks.is_soh_zip (strip (fst m)) then Some (lower (strip (fst m))) else None.

Definition html_key (m : str * str) : option str := Some (lower (strip (fst m))).

Definition link_url (m : str * str) : str := strip (snd m).

(** [links[key] = url] for one match. *)
Definition record_link (key : str * str -> option str) (links : gmap str str)
  (m : str * str) : gmap str str :=
  match key m with
  | Some k => <[k := link_url m]> links
  | None => links
  end.

(** What the two lookups of the PR script find in an environment: the
    links of the description when it can be fetched and is not empty, else
    nothing; the links of the page when it can be fetched, else nothing;
    and the links the run goes on with. *)
Definition body_links (E : env) : gmap str str :=
  match api_pull_body E (Lynks.pull_api_url Lynks.REPO Lynks.PR_NUMBER) with
  | inr (c :: b) => Lynks.extract_markdown_links_from_body (c :: b)
  | _ => ∅
  end.

Definition page_links (E : env) : gmap str str :=
  match web_page E Lynks.pull_page_url with
  | inr html => Lynks.extract_nightly_links_from_html html
  | inl _ => ∅
  end.

Definition found_links (E : env) : gmap str str :=
  if Lynks.is_empty (body_links E) then page_links E else body_links E.

(** The lookups a run of the PR script makes: the description, and the
    page when the description gave no link. *)
Definition lookup_events (E : env) : list event :=
  Get (Lynks.pull_api_url Lynks.REPO Lynks.PR_NUMBER)
  :: (if Lynks.is_empty (body_links E) then [Get Lynks.pull_page_url] else []).

(** The record the PR script writes for a URL. *)
Definition pr_record (download_url : str) : list (str * scalar) :=
  [("download_url"%string : str, SStr download_url);
   ("repo"%string : str, SStr Lynks.REPO);
   ("pr_number"%string : str, SInt Lynks.PR_NUMBER)].


(** *** The text of a dumped record *)

(** What follows a value in the text [json_dumps] writes. *)
Definition terminated (tail : str) : Prop :=
  exists r, tail = ","%char :: r \/ tail = newline :: r.

(** A scalar is read back from its text, whatever the fuel. *)
Definition reads_back (v : scalar) : Prop :=
  forall f tail, terminated tail ->
    parse_value (S f) (skip_ws (dumps_scalar v ++ tail)) = Some (to_py v, tail).

(** The separator of the items of a dumped record, and the items after
    the first, each behind its separator. *)
Definition item_separator : str := ","%char :: newline :: list_ascii_of_string "    ".

Definition more_items (d : list (str * scalar)) : str :=
  flat_map (fun kv => item_separator ++ dumps_item kv) d.

(** [d[k] = v] for one item of a record. *)
Definition set_item (acc : list (str * pyval)) (kv : str * scalar)
  : list (str * pyval) := dict_set acc (fst kv) (to_py (snd kv)).

(** *** Sample worlds *)

Definition pristine : state :=
  {| version_file := None; downloads := None; installation := ∅; trace := [] |}.

(** A machine without network: every remote call is refused. *)
Definition offline (sys : str) : env :=
  {| platform_system := sys;
     api_release := fun url => inl (HTTPError url);
     api_releases := fun url => inl (HTTPError url);
     api_commit_sha := fun url => inl (HTTPError url);
     api_pull_body := fun url => inl (HTTPError url);
     web_page := fun url => inl (HTTPError url);
     download := fun url => Refused (HTTPError url);
     unzip := fun _ => inl BadZipFile |}.

(** A release tagged v1 with one archive per platform. *)
Definition release_v1 : release :=
  {| tag_name := "v1"%string;
     assets :=
       [ {| name := "game-v1-Win64.zip"%string;
            browser_download_url := "https://example.org/game-v1-Win64.zip"%string |};
         {| name := "game-v1-Linux.zip"%string;
            browser_download_url := "https://example.org/game-v1-Linux.zip"%string |};
         {| name := "game-v1-Mac.zip"%string;
            browser_download_url := "https://example.org/game-v1-Mac.zip"%string |} ] |}.

(** A remote that serves [release_v1] and commit [c0ffee], a transport
    that delivers the text [PK] for every URL, and a decoder that unpacks
    it into one file. *)
Definition online (sys : str) : env :=
  {| platform_system := sys;
     api_release := fun _ => inr release_v1;
     api_releases := fun _ => inr [release_v1];
     api_commit_sha := fun _ => inr ("c0ffee"%string : str);
     api_pull_body := fun url => inl (HTTPError url);
     web_page := fun url => inl (HTTPError url);
     download := fun _ => Complete "PK"%string;
     unzip := fun _ => inr [("game.bin"%string : str, "bits"%string : str)] |}.

(** An installation of v1 whose downloads directory still holds a file. *)
Definition installed_v1_stale : state :=
  {| version_file :=
       Some (json_dumps [("installed_version"%string : str, SStr "v1"%string);
                         ("repo"%string : str, SStr TwoShip.REPO)]);
     downloads := Some {[ ("old.zip"%string : str) := ("PK"%string : str) ]};
     installation := ∅;
     trace := [] |}.


(** A page that offers the Linux artifact. *)
Definition page_linux : str :=
  "<a>soh-linux.zip</a> <a href='https://nightly.link/a/b'>"%string.

(** The description cannot be fetched; the page can, and the transport and
    the decoder work. *)
Definition api_down (sys : str) : env :=
  {| platform_system := sys;
     api_release := fun url => inl (HTTPError url);
     api_releases := fun url => inl (HTTPError url);
     api_commit_sha := fun url => inl (HTTPError url);
     api_pull_body := fun url => inl (HTTPError url);
     web_page := fun _ => inr page_linux;
     download := fun _ => Complete "PK"%string;
     unzip := fun _ => inr [("soh.elf"%string : str, "bits"%string : str)] |}.

Definition linux_zip : str := "soh-linux.zip"%string.

(** The description and the page can be fetched, and the transport and
    the decoder work. *)
Definition described (sys body html : str) : env :=
  {| platform_system := sys;
     api_release := fun url => inl (HTTPError url);
     api_releases := fun url => inl (HTTPError url);
     api_commit_sha := fun url => inl (HTTPError url);
     api_pull_body := fun _ => inr body;
     web_page := fun _ => inr html;
     download := fun _ => Complete "PK"%string;
     unzip := fun _ => inr [("soh.elf"%string : str, "bits"%string : str)] |}.

(** The Mac artifact, the host of the redistributed builds, and the
    characters a URL of the page pattern is made of. *)
Definition mac_zip : str := "soh-mac.zip"%string.
Definition nightly_host : str := "https://nightly.link/"%string.
Definition url_char (c : ascii) : bool :=
  negb (isspace c || Lynks.is_quote c || ascii_eqb c ">").

(** A page that names the Linux artifact and then the Mac artifact in
    front of one link. *)
Definition page_two_names : str :=
  "soh-linux.zip "%string ++ mac_zip ++ " href="%string
  ++ dquote :: nightly_host ++ "a/b"%string ++ [dquote].

(* ===================================================================== *)
(** ** Notions used to state further properties                           *)
(* ===================================================================== *)

Definition is_get (ev : event) : bool :=
  match ev with Get _ => true | _ => false end.


(** The files of an installation once the members of an archive have been
    written over them, in the order of the archive. *)
Definition unpacked (files : gmap str str) (entries : list (str * str))
  : gmap str str :=
  foldl (fun m kv => <[fst kv := snd kv]> m) files entries.

(** The state a completed update leaves: the record [d] in version.json,
    no staging directory, the archive unpacked over the installation, and
    the calls [evs] added to the trace. *)
Definition updated (st : state) (d : list (str * scalar))
  (entries : list (str * str)) (evs : list event) : state :=
  {| version_file := Some (json_dumps d);
     downloads := None;
     installation := unpacked (installation st) entries;
     trace := trace st ++ evs |}.

(** The state without version.json. *)
Definition without_version (st : state) : state :=
  {| version_file := None; downloads := downloads st;
     installation := installation st; trace := trace st |}.

(** The calls of an installation, from the download on. *)
Definition install_events (url file : str) (d : list (str * scalar)) : list event :=
  [Download url; Extract file; Save (json_dumps d); Clear].

(** The calls a run may end with after its read requests, and the outcome
    each ending goes with: nothing more; the removal of the staging
    directory by a run that found the installation current; a download
    that failed; an extraction that failed; a completed installation. *)
Definition ending (r : exn + unit) (tail : list event) : Prop :=
  match tail with
  | [] => True
  | [Clear] => r = inr tt
  | [Download _] => failed r
  | [Download _; Extract _] => failed r
  | [Download _; Extract _; Save _; Clear] => r = inr tt
  | _ => False
  end.

(** The two nightly entry points. *)
Definition nightly_orchestrators : list (env -> M unit) :=
  [SohNightly.install_latest_nightly; SpaghettikartNightly.install_latest_nightly].

(** What a download leaves in the staging directory [m] under [file]. *)
Definition staged_by (t : transfer) (file : str) (m : gmap str str) : gmap str str :=
  match t with
  | Refused _ => m
  | Aborted _ written => <[file := written]> m
  | Complete content => <[file := content]> m
  end.

(** *** Further sample worlds *)

(** No installation yet, and a file left in the downloads directory. *)
Definition leftover : state :=
  {| version_file := None;
     downloads := Some {[ ("old.zip"%string : str) := ("PK"%string : str) ]};
     installation := ∅;
     trace := [] |}.


(** *** The archive a run fetches *)

(** [s] ends with [suffix]; [sub] occurs in [s]. *)
Definition ends_with (s suffix : str) : Prop := exists p, s = p ++ suffix.

Definition occurs_in (sub s : str) : Prop := exists a b, s = a ++ sub ++ b.

(** The tests of the two list comprehensions that pick the candidates
    among the assets of a release. *)
Definition two_ship_candidate (target_word : str) (a : asset) : Prop :=
  ends_with (lower (name a)) ("-"%string ++ target_word ++ ".zip"%string).

Definition spaghettikart_candidate (os_tag : str) (a : asset) : Prop :=
  occurs_in os_tag (lower (name a)) /\ ends_with (lower (name a)) ".zip"%string.

(** [a] is the first asset of [l] that passes the test [P]. *)
Definition first_candidate (P : asset -> Prop) (l : list asset) (a : asset) : Prop :=
  exists pre post, l = pre ++ a :: post /\ Forall (fun b => ~ P b) pre /\ P a.

(** The URL each nightly script fetches, by the lowered platform name. *)
Definition soh_nightly_urls : list (str * str) :=
  [("windows"%string : str,
    "https://nightly.link/HarbourMasters/Shipwright/workflows/generate-builds/develop/soh-windows.zip"%string : str);
   ("linux"%string : str,
    "https://nightly.link/HarbourMasters/Shipwright/workflows/generate-builds/develop/soh-linux.zip"%string : str);
   ("darwin"%string : str,
    "https://nightly.link/HarbourMasters/Shipwright/workflows/generate-builds/develop/soh-mac.zip"%string : str)].

Definition spaghettikart_nightly_urls : list (str * str) :=
  [("linux"%string : str,
    "https://nightly.link/HarbourMasters/SpaghettiKart/workflows/main/main/spaghetti-linux-x64.zip"%string : str);
   ("windows"%string : str,
    "https://nightly.link/HarbourMasters/SpaghettiKart/workflows/main/main/spaghetti-windows.zip"%string : str);
   ("darwin"%string : str,
    "https://nightly.link/HarbourMasters/SpaghettiKart/workflows/main/main/spaghetti-mac-intel-x64.zip"%string : str)].

(** A release tagged v2 whose only asset is not an archive, and a remote
    that serves it. *)
Definition release_v2_notes : release :=
  {| tag_name := "v2"%string;
     assets :=
       [ {| name := "notes.txt"%string;
            browser_download_url := "https://example.org/notes.txt"%string |} ] |}.

Definition without_archive (sys : str) : env :=
  {| platform_system := sys;
     api_release := fun _ => inr release_v2_notes;
     api_releases := fun _ => inr [release_v2_notes];
     api_commit_sha := fun url => inl (HTTPError url);
     api_pull_body := fun url => inl (HTTPError url);
     web_page := fun url => inl (HTTPError url);
     download := fun url => Refused (HTTPError url);
     unzip := fun _ => inl BadZipFile |}.

(** *** What a run makes of version.json *)

(** Two states hold the same staging directory and installation and have
    seen the same calls; version.json may differ. *)
Definition same_files (st st' : state) : Prop :=
  downloads st = downloads st' /\ installation st = installation st'
  /\ trace st = trace st'.

(** A computation does the same from two states: the same outcome after
    the same calls, with the same staging directory and installation. *)
Definition same_run (m : M unit) (st st' : state) : Prop :=
  outcome m st = outcome m st'
  /\ run_events m st = run_events m st'
  /\ downloads (final m st) = downloads (final m st')
  /\ installation (final m st) = installation (final m st').

(** [local and local.get("download_url") == download_url], the test of the
    PR script for an installation that is current. *)
Definition records_url (local : pyval) (download_url : str) : exn + bool :=
  if truthy local then
    match get local "download_url"%string with
    | inl e => inl e
    | inr recorded => inr (eq_str recorded download_url)
    end
  else inr false.


(** A version.json that holds an empty object. *)
Definition blank : state :=
  {| version_file := Some ("{}"%string : str); downloads := None; installation := ∅;
     trace := [] |}.




(** *** The links of the PR script *)


(** The characters of an address of the Markdown pattern. *)
Definition link_char (c : ascii) : bool := negb (isspace c || ascii_eqb c ")").

(** An address as the Markdown pattern takes it: [http] or [https] in any
    letter case, a colon and two slashes, then at least one character, and
    nowhere white space or a closing parenthesis. *)
Definition web_url (url : str) : Prop :=
  exists scheme u,
    url = scheme ++ "://"%string ++ u
    /\ (lower scheme = "http"%string \/ lower scheme = "https"%string)
    /\ u <> []
    /\ Forall (fun c => link_char c = true) url.

(** A Markdown link: the text in brackets, then in parentheses the
    address with white space around it. *)
Definition markdown (text w1 url w2 : str) : str :=
  "["%char :: text ++ "]"%char :: "("%char :: w1 ++ url ++ w2 ++ [")"%char].

(** A link in capitals, with white space inside the brackets and the
    parentheses. *)
Definition shouted_text : str := " SOH-Linux.ZIP "%string.
Definition shouted_url : str := "HTTPS://nightly.link/x/y.zip"%string.
Definition shouted_body : str :=
  "Builds: "%string ++ markdown shouted_text " "%string shouted_url " "%string
  ++ " (CI)"%string.

(** A character of 7-bit ASCII that prints, or a line feed. *)
Definition plain (c : ascii) : bool := (ord c =? 10)%N || between 32 126 (ord c).

(** A page on which 201 blanks separate the name of the Mac artifact from
    the link. *)
Definition page_far_link : str :=
  repeat " "%char 201 ++ "href='https://nightly.link/a/b'"%string.

(** A description that links the Windows artifact only. *)
Definition windows_link : str :=
  "[soh-windows.zip](https://nightly.link/x/y/soh-windows.zip)"%string.

(** *** A run after a failed run *)


(* ===================================================================== *)
(** ** Symbolic execution of runs                                         *)
(* ===================================================================== *)

#[local] Arguments json_loads : simpl never.
#[local] Arguments json_dumps : simpl never.
#[local] Arguments lower : simpl never.
#[local] Arguments getitem : simpl never.
#[local] Arguments get : simpl never.
#[local] Arguments truthy : simpl never.
#[local] Arguments eq_str : simpl never.
#[local] Arguments str_eqb : simpl never.
#[local] Arguments endswith : simpl never.
#[local] Arguments contains : simpl never.
#[local] Arguments Lynks.extract_markdown_links_from_body : simpl never.
#[local] Arguments Lynks.extract_nightly_links_from_html : simpl never.
#[local] Arguments Lynks.is_empty : simpl never.
#[local] Arguments Lynks.artifact_not_found : simpl never.
#[local] Arguments repr_int : simpl never.

Ltac unfold_scripts :=
  unfold TwoShip.install_or_update, TwoShip.get_latest_release,
    TwoShip.download_asset, TwoShip.save_local_version,
    Spaghettikart.install_or_update, Spaghettikart.get_latest_any_release,
    Spaghettikart.download_asset, Spaghettikart.save_local_version,
    SohNightly.install_latest_nightly, SohNightly.get_latest_commit_sha,
    SohNightly.download_nightly, SohNightly.save_local_version,
    SpaghettikartNightly.install_latest_nightly,
    SpaghettikartNightly.get_latest_commit_sha,
    SpaghettikartNightly.download_nightly,
    SpaghettikartNightly.save_local_version,
    Lynks.install_or_update_from_pr, Lynks.fetch_pr_body, Lynks.fetch_pr_html,
    Lynks.download_file, Lynks.save_local_version in *.

Ltac unfold_run :=
  unfold_scripts;
  unfold as_pipeline, pipeline, install, read_installed, run_events, outcome, final,
    request, fetch_to, extract_zip, clear_downloads, rmtree_downloads,
    installed_field, load_local_version, write_version, makedirs_downloads,
    write_download, extractall, read_download,
    lift, catch, log, bind, ret, raise in *.

(** The events a run has added, once its final trace is explicit. *)
Lemma drop_trace (t evs : list event) : drop (length t) (t ++ evs) = evs.
Proof. by rewrite drop_app_length. Qed.

Lemma drop_trace_nil (t : list event) : drop (length t) t = [].
Proof. by rewrite drop_all. Qed.

Ltac neat :=
  simplify_eq/=;
  repeat rewrite <- ?app_assoc, ?drop_trace, ?drop_trace_nil, ?lookup_insert_eq in *;
  simplify_eq/=.

(** One step: a case distinction on a scrutinee that holds no other. *)
Ltac step :=
  match goal with
  | |- context [match ?x with _ => _ end] =>
      lazymatch x with
      | context [match _ with _ => _ end] => fail
      | _ => destruct x eqn:?
      end
  end.

Ltac symex := unfold_run; neat; repeat (step; neat).

Ltac in_list H :=
  simpl in H;
  repeat (destruct H as [H | H]; [subst|]); [..|destruct H].

(* ===================================================================== *)
(** ** OS-key resolution                                                  *)
(* ===================================================================== *)

Lemma str_eqb_eq (a b : str) : str_eqb a b = true <-> a = b.
Proof. unfold str_eqb. apply bool_decide_eq_true. Qed.

Lemma str_eqb_refl (a : str) : str_eqb a a = true.
Proof. by apply str_eqb_eq. Qed.

Lemma str_eqb_ne (a b : str) : a <> b -> str_eqb a b = false.
Proof. unfold str_eqb. apply bool_decide_eq_false. Qed.

Lemma not_os_key (sys : str) :
  ~ In sys os_keys ->
  sys <> list_ascii_of_string "windows" /\ sys <> list_ascii_of_string "linux"
  /\ sys <> list_ascii_of_string "darwin".
Proof. unfold os_keys. simpl. intuition. Qed.

Lemma artifact_os_map_lookup (sys : str) :
  Lynks.ARTIFACT_OS_MAP !! sys =
    if str_eqb sys (list_ascii_of_string "windows")
    then Some (list_ascii_of_string "soh-windows.zip")
    else if str_eqb sys (list_ascii_of_string "linux")
    then Some (list_ascii_of_string "soh-linux.zip")
    else if str_eqb sys (list_ascii_of_string "darwin")
    then Some (list_ascii_of_string "soh-mac.zip")
    else None.
Proof.
  unfold Lynks.ARTIFACT_OS_MAP, str_eqb.
  repeat (case_bool_decide; [subst; by simplify_map_eq|]).
  by simplify_map_eq.
Qed.

(** C4, as the code has it. On the lowered platform name every script
    looks its OS word up in a fixed table: [windows], [linux] and [darwin]
    each give one value (the mac variant for [darwin]) and any other name
    raises the unsupported-OS error; the exception is [get_os_tag] of the
    Spaghettikart release script, where [darwin] raises its own
    no-macOS-build error. *)
Theorem os_lookup_fixed (E : env) :
  let sys := lower (platform_system E) in
  (sys = list_ascii_of_string "windows" ->
     TwoShip.get_os_target_word E = inr (list_ascii_of_string "Win64")
     /\ Spaghettikart.get_os_tag E = inr (list_ascii_of_string "windows")
     /\ SohNightly.get_os_zip_name E = inr (list_ascii_of_string "soh-windows.zip")
     /\ SpaghettikartNightly.get_os_zip_name E
        = inr (list_ascii_of_string "spaghetti-windows.zip")
     /\ Lynks.get_os_key E = inr sys
     /\ Lynks.ARTIFACT_OS_MAP !! sys = Some (list_ascii_of_string "soh-windows.zip"))
  /\ (sys = list_ascii_of_string "linux" ->
     TwoShip.get_os_target_word E = inr (list_ascii_of_string "Linux")
     /\ Spaghettikart.get_os_tag E = inr (list_ascii_of_string "linux-old")
     /\ SohNightly.get_os_zip_name E = inr (list_ascii_of_string "soh-linux.zip")
     /\ SpaghettikartNightly.get_os_zip_name E
        = inr (list_ascii_of_string "spaghetti-linux-x64.zip")
     /\ Lynks.get_os_key E = inr sys
     /\ Lynks.ARTIFACT_OS_MAP !! sys = Some (list_ascii_of_string "soh-linux.zip"))
  /\ (sys = list_ascii_of_string "darwin" ->
     TwoShip.get_os_target_word E = inr (list_ascii_of_string "Mac")
     /\ Spaghettikart.get_os_tag E = inl Spaghettikart.no_macos_build
     /\ SohNightly.get_os_zip_name E = inr (list_ascii_of_string "soh-mac.zip")
     /\ SpaghettikartNightly.get_os_zip_name E
        = inr (list_ascii_of_string "spaghetti-mac-intel-x64.zip")
     /\ Lynks.get_os_key E = inr sys
     /\ Lynks.ARTIFACT_OS_MAP !! sys = Some (list_ascii_of_string "soh-mac.zip"))
  /\ (~ In sys os_keys ->
     TwoShip.get_os_target_word E = inl (unsupported_os sys)
     /\ Spaghettikart.get_os_tag E = inl (unsupported_os sys)
     /\ SohNightly.get_os_zip_name E = inl (unsupported_os sys)
     /\ SpaghettikartNightly.get_os_zip_name E = inl (unsupported_os sys)
     /\ Lynks.get_os_key E = inl (unsupported_os sys)).
Proof.
  intros sys.
  unfold TwoShip.get_os_target_word, Spaghettikart.get_os_tag,
    SohNightly.get_os_zip_name, SpaghettikartNightly.get_os_zip_name,
    Lynks.get_os_key.
  fold sys. rewrite artifact_os_map_lookup.
  split; [|split; [|split]]; intros H.
  1-3: by rewrite H.
  apply not_os_key in H as (Hw & Hl & Hd).
  by rewrite !str_eqb_ne.
Qed.

Lemma os_lookup_fixed_witness :
  TwoShip.get_os_target_word (offline (list_ascii_of_string "Linux"))
  = inr (list_ascii_of_string "Linux").
Proof.
  exact (proj1 (proj1 (proj2 (os_lookup_fixed
                                (offline (list_ascii_of_string "Linux"))))
                 eq_refl)).
Defined.

(** C4 fails as stated: on [Darwin], one of the three platforms of the
    map, [get_os_tag] raises, and not the unsupported-OS error. *)
Lemma os_lookup_darwin_raises :
  In (lower (list_ascii_of_string "Darwin")) os_keys
  /\ Spaghettikart.get_os_tag (offline (list_ascii_of_string "Darwin"))
     = inl Spaghettikart.no_macos_build
  /\ Spaghettikart.no_macos_build
     <> unsupported_os (lower (list_ascii_of_string "Darwin")).
Proof.
  split; [|split].
  - vm_compute. tauto.
  - reflexivity.
  - discriminate.
Qed.

(* ===================================================================== *)
(** ** Runs as decision trees                                             *)
(* ===================================================================== *)

(** What [install] does, by the answers of the transport and the decoder. *)
Lemma install_eq (E : env) (url file : str) (d : list (str * scalar)) (st : state) :
  install E url file d st =
    match download E url with
    | Refused e =>
        (inl e, {| version_file := version_file st;
                   downloads := Some (default ∅ (downloads st));
                   installation := installation st;
                   trace := trace st ++ [Download url] |})
    | Aborted e written => (inl e, logged (staged st file written) [Download url])
    | Complete content =>
        match unzip E content with
        | inl e =>
            (inl e, logged (staged st file content) [Download url; Extract file])
        | inr entries =>
            (inr tt,
             {| version_file := Some (json_dumps d);
                downloads := None;
                installation :=
                  foldl (fun m kv => <[fst kv := snd kv]> m) (installation st) entries;
                trace := trace st ++ [Download url; Extract file;
                                      Save (json_dumps d); Clear] |})
        end
    end.
Proof. unfold logged, staged. by symex. Qed.

(** What the pipeline does, by what it reads and what the remote answers. *)
Lemma pipeline_eq (E : env) (key url : str) (remote : exn + (str * list asset))
  (plan : list asset -> exn + (str * str)) (record : str -> list (str * scalar))
  (tidy : bool) (st : state) :
  pipeline E key url remote plan record tidy st =
    match read_installed key st with
    | inl e => (inl e, st)
    | inr installed =>
        match remote with
        | inl e => (inl e, logged st [Get url])
        | inr r =>
            if eq_str installed (fst r) then
              if tidy then clear_downloads (logged st [Get url])
              else (inr tt, logged st [Get url])
            else
              match plan (snd r) with
              | inl e => (inl e, logged st [Get url])
              | inr target =>
                  install E (fst target) (snd target) (record (fst r))
                    (logged st [Get url])
              end
        end
    end.
Proof.
  unfold pipeline, read_installed, outcome, logged.
  unfold installed_field, load_local_version, request, lift, log, bind, ret, raise.
  repeat (step; simplify_eq/=); done || congruence.
Qed.

(** Each release and nightly script is the pipeline with its own query,
    plan and record. *)
Lemma script_is_pipeline (s : id_script) (E : env) (st : state) :
  In s identifier_scripts -> run s E st = as_pipeline s E st.
Proof.
  intros Hin. in_list Hin.
  all: unfold as_pipeline, pipeline, install; simpl.
  all: unfold first_asset, nightly_plan.
  all: unfold_scripts.
  all: unfold installed_field, load_local_version, request, lift, log, bind,
         ret, raise.
  all: repeat (step; simplify_eq/=); done || congruence.
Qed.

(** What a run of the PR script does, by the platform, version.json, the
    links its lookups find and the recorded URL. *)
Lemma lynks_eq (E : env) (st : state) :
  Lynks.install_or_update_from_pr E st =
    match Lynks.get_os_key E with
    | inl e => (inl e, st)
    | inr os_key =>
        match Lynks.ARTIFACT_OS_MAP !! os_key with
        | None => (inl (KeyError os_key), st)
        | Some target =>
            match outcome load_local_version st with
            | inl e => (inl e, st)
            | inr local =>
                let st1 := logged st (lookup_events E) in
                if Lynks.is_empty (found_links E)
                then (inl Lynks.no_links_found, st1)
                else
                  match found_links E !! lower target with
                  | None =>
                      (inl (Lynks.artifact_not_found (lower target) (found_links E)),
                       st1)
                  | Some url =>
                      if truthy local then
                        match get local (list_ascii_of_string "download_url") with
                        | inl e => (inl e, st1)
                        | inr recorded =>
                            if eq_str recorded url then (inr tt, st1)
                            else install E url (lower target) (pr_record url) st1
                        end
                      else install E url (lower target) (pr_record url) st1
                  end
            end
        end
    end.
Proof.
  unfold Lynks.install_or_update_from_pr, Lynks.fetch_pr_body, Lynks.fetch_pr_html,
    Lynks.download_file, Lynks.save_local_version.
  unfold found_links, lookup_events, body_links, page_links, logged, outcome.
  change (let! zip_path := fetch_to E ?u ?f in
          extract_zip E zip_path >> write_version ?d >> clear_downloads)
    with (install E u f d).
  unfold load_local_version, request, lift, log, catch, bind, ret, raise.
  repeat (step; simplify_eq/=); rewrite <- ?app_assoc; unfold pr_record; simpl;
    done || congruence.
Qed.

(** Case analysis of a run along its decision tree. *)
Ltac tree :=
  unfold run_events, outcome, final;
  rewrite ?pipeline_eq, ?lynks_eq;
  unfold outcome;
  repeat (progress (rewrite ?install_eq;
                    unfold clear_downloads, rmtree_downloads, logged, staged,
                      lookup_events in *;
                    simpl)
          || step);
  rewrite <- ?app_assoc, ?drop_trace, ?drop_trace_nil; simpl.

(* ===================================================================== *)
(** ** The newest release of the Spaghettikart release script             *)
(* ===================================================================== *)

(** C9. [get_latest_any_release] raises its no-releases error on an empty
    listing and otherwise returns the first release of the listing; the
    indexing of the listing never raises of its own. *)
Theorem latest_any_release (E : env) (st : state) :
  outcome (Spaghettikart.get_latest_any_release E) st =
    match api_releases E Spaghettikart.releases_url with
    | inl e => inl e
    | inr [] => inl Spaghettikart.no_releases
    | inr (r :: _) => inr r
    end.
Proof. by symex. Qed.

Lemma latest_any_release_empty :
  outcome (Spaghettikart.get_latest_any_release
             {| platform_system := list_ascii_of_string "Linux";
                api_release := fun url => inl (HTTPError url);
                api_releases := fun _ => inr [];
                api_commit_sha := fun url => inl (HTTPError url);
                api_pull_body := fun url => inl (HTTPError url);
                web_page := fun url => inl (HTTPError url);
                download := fun url => Refused (HTTPError url);
                unzip := fun _ => inl BadZipFile |}) pristine
  = inl (RuntimeError (list_ascii_of_string "No releases or pre-releases found.")).
Proof. reflexivity. Qed.

(* ===================================================================== *)
(** ** Failed runs and the installed state                                *)
(* ===================================================================== *)









(* ===================================================================== *)
(** ** Runs that find the installation current                            *)
(* ===================================================================== *)

(** A release or nightly run whose installed identifier is the one the
    remote reports succeeds after the query alone; the nightly scripts
    then remove the staging directory, the release scripts leave it as it
    is. *)
Lemma up_to_date_run (s : id_script) (E : env) (st : state) (id : str) :
  In s identifier_scripts ->
  read_installed (state_key s) st = inr (PStr id) ->
  remote_identifier s E = inr id ->
  outcome (run s E) st = inr tt
  /\ version_file (final (run s E) st) = version_file st
  /\ (if tidies_when_current s
      then downloads (final (run s E) st) = None
           /\ (run_events (run s E) st = [Get (query_url s)]
               \/ run_events (run s E) st = [Get (query_url s); Clear])
      else downloads (final (run s E) st) = downloads st
           /\ run_events (run s E) st = [Get (query_url s)]).
Proof.
  intros Hin Hi Hr. unfold run_events, outcome, final.
  rewrite (script_is_pipeline s E st Hin). unfold as_pipeline.
  rewrite pipeline_eq, Hi. unfold remote_identifier in Hr.
  destruct (remote s E) as [|[id' l]]; simplify_eq/=.
  unfold eq_str. rewrite str_eqb_refl.
  destruct (tidies_when_current s); tree; auto.
Qed.

(** The PR script likewise: when version.json records the URL the lookups
    resolve, the run succeeds after the lookups and touches no file. *)
Lemma up_to_date_pr_run (E : env) (st : state) (key target url : str) (d : list (str * pyval)) :
  Lynks.get_os_key E = inr key ->
  Lynks.ARTIFACT_OS_MAP !! key = Some target ->
  outcome load_local_version st = inr (PDict d) ->
  dict_get d (list_ascii_of_string "download_url") = Some (PStr url) ->
  found_links E !! lower target = Some url ->
  Lynks.install_or_update_from_pr E st = (inr tt, logged st (lookup_events E)).
Proof.
  intros Hk Ht Hl Hd Hf. rewrite lynks_eq, Hk, Ht, Hl. simpl. rewrite Hf.
  assert (Lynks.is_empty (found_links E) = false) as ->.
  { unfold Lynks.is_empty. apply bool_decide_eq_false. intros He.
    by rewrite He in Hf. }
  assert (truthy (PDict d) = true) as -> by (by destruct d).
  unfold get. simpl in *. rewrite Hd. unfold eq_str. by rewrite str_eqb_refl.
Qed.

(** C2 fails on the release scripts. 2ship, with v1 installed, v1 reported
    by the remote and a file left in the downloads directory: the run
    succeeds after the query alone, without download or extraction, and
    the downloads directory is still there with its file. *)
Theorem up_to_date_leaves_staging :
  read_installed (state_key two_ship) installed_v1_stale
  = inr (PStr (list_ascii_of_string "v1"))
  /\ remote_identifier two_ship (online (list_ascii_of_string "Linux"))
     = inr (list_ascii_of_string "v1")
  /\ outcome (TwoShip.install_or_update (online (list_ascii_of_string "Linux")))
       installed_v1_stale = inr tt
  /\ run_events (TwoShip.install_or_update (online (list_ascii_of_string "Linux")))
       installed_v1_stale = [Get TwoShip.releases_latest_url]
  /\ downloads (final (TwoShip.install_or_update
                         (online (list_ascii_of_string "Linux")))
                  installed_v1_stale)
     = Some {[ list_ascii_of_string "old.zip" := list_ascii_of_string "PK" ]}
  /\ ~ staging_clear (final (TwoShip.install_or_update
                               (online (list_ascii_of_string "Linux")))
                        installed_v1_stale).
Proof.
  assert (Hi : read_installed (state_key two_ship) installed_v1_stale
               = inr (PStr (list_ascii_of_string "v1"))) by (vm_compute; reflexivity).
  assert (Hr : remote_identifier two_ship (online (list_ascii_of_string "Linux"))
               = inr (list_ascii_of_string "v1")) by reflexivity.
  assert (Hin : In two_ship identifier_scripts) by (simpl; tauto).
  destruct (up_to_date_run two_ship _ _ _ Hin Hi Hr) as (Ho & _ & H).
  change (downloads (final (TwoShip.install_or_update
                              (online (list_ascii_of_string "Linux")))
                       installed_v1_stale)
          = Some {[ list_ascii_of_string "old.zip" := list_ascii_of_string "PK" ]}
          /\ run_events (TwoShip.install_or_update
                           (online (list_ascii_of_string "Linux")))
                installed_v1_stale = [Get TwoShip.releases_latest_url]) in H.
  destruct H as (Hd & He).
  repeat split; try done.
  unfold staging_clear. rewrite Hd. intros [H | H]; [done|].
  apply (inj Some) in H.
  apply (f_equal (fun m : gmap str str => m !! list_ascii_of_string "old.zip")) in H.
  by rewrite lookup_singleton_eq in H.
Qed.

(* ===================================================================== *)
(** ** Unsupported platforms                                              *)
(* ===================================================================== *)







(* ===================================================================== *)
(** ** Errors of remote calls                                             *)
(* ===================================================================== *)

(** C5 fails on the PR script. With the description API down and the page
    up, the failed query is caught: the run goes on to fetch the page,
    takes the link from it, installs and succeeds. *)
Lemma pr_api_error_is_recovered :
  api_pull_body (api_down (list_ascii_of_string "Linux"))
    (Lynks.pull_api_url Lynks.REPO Lynks.PR_NUMBER)
  = inl (HTTPError (Lynks.pull_api_url Lynks.REPO Lynks.PR_NUMBER))
  /\ outcome (Lynks.install_or_update_from_pr (api_down (list_ascii_of_string "Linux")))
       pristine = inr tt
  /\ run_events (Lynks.install_or_update_from_pr (api_down (list_ascii_of_string "Linux")))
       pristine
     = [Get (Lynks.pull_api_url Lynks.REPO Lynks.PR_NUMBER);
        Get Lynks.pull_page_url;
        Download (list_ascii_of_string "https://nightly.link/a/b");
        Extract (list_ascii_of_string "soh-linux.zip");
        Save (json_dumps (pr_record (list_ascii_of_string "https://nightly.link/a/b")));
        Clear].
Proof.
  split; [reflexivity|split]; vm_compute; reflexivity.
Qed.

Lemma get_os_key_inr (E : env) (key : str) :
  Lynks.get_os_key E = inr key ->
  exists target, Lynks.ARTIFACT_OS_MAP !! key = Some target.
Proof.
  unfold Lynks.get_os_key.
  destruct (Lynks.ARTIFACT_OS_MAP !! lower (platform_system E)) eqn:H;
    intros; simplify_eq; eauto.
Qed.

Lemma is_empty_empty : Lynks.is_empty ∅ = true.
Proof. unfold Lynks.is_empty. by apply bool_decide_eq_true. Qed.

Lemma is_empty_true (m : gmap str str) : Lynks.is_empty m = true -> m = ∅.
Proof. unfold Lynks.is_empty. by intros ?%bool_decide_eq_true. Qed.

Lemma is_empty_false (m : gmap str str) (k v : str) :
  m !! k = Some v -> Lynks.is_empty m = false.
Proof.
  intros H. unfold Lynks.is_empty. apply bool_decide_eq_false. intros ->.
  by rewrite lookup_empty in H.
Qed.

(** Two answers of one oracle are the same answer. *)
Ltac same :=
  simplify_eq;
  repeat match goal with
         | H1 : ?x = _, H2 : ?x = _ |- _ => rewrite H1 in H2; simplify_eq
         end.

(** A failed transfer or extraction is the last call of the run, and its
    error the outcome. *)
Lemma pipeline_aborts (s : id_script) (E : env) (st : state) (u : str) :
  In (Download u) (run_events (as_pipeline s E) st) ->
  (forall e, download E u = Refused e \/ (exists w, download E u = Aborted e w) ->
     outcome (as_pipeline s E) st = inl e
     /\ last (run_events (as_pipeline s E) st) = Some (Download u))
  /\ (forall content e, download E u = Complete content -> unzip E content = inl e ->
        outcome (as_pipeline s E) st = inl e
        /\ exists file, last (run_events (as_pipeline s E) st) = Some (Extract file)).
Proof.
  unfold as_pipeline. tree; try done.
  all: intros Hd; in_list Hd; simplify_eq.
  all: split; [intros e' [?|[w' ?]]|intros c' e' ? ?]; same; eauto.
Qed.

Lemma lynks_aborts (E : env) (st : state) (u : str) :
  In (Download u) (run_events (Lynks.install_or_update_from_pr E) st) ->
  (forall e, download E u = Refused e \/ (exists w, download E u = Aborted e w) ->
     outcome (Lynks.install_or_update_from_pr E) st = inl e
     /\ last (run_events (Lynks.install_or_update_from_pr E) st) = Some (Download u))
  /\ (forall content e, download E u = Complete content -> unzip E content = inl e ->
        outcome (Lynks.install_or_update_from_pr E) st = inl e
        /\ exists file, last (run_events (Lynks.install_or_update_from_pr E) st)
                        = Some (Extract file)).
Proof.
  tree; try done.
  all: intros Hd; in_list Hd; simplify_eq.
  all: split; [intros e' [?|[w' ?]]|intros c' e' ? ?]; same; eauto.
Qed.

(** C5, as the code has it. In the release and nightly scripts a failed
    identifier query ends the run with its error, nothing being done after
    it; in every script a failed download or extraction is the last call
    of the run and its error the outcome. In the PR script a failed query
    of the description is caught and the page is fetched in its place,
    the run going on with the links of the page; when the page cannot be
    fetched either, that error is caught too and the run ends in the
    no-links error. *)
Theorem remote_errors (E : env) (st : state) :
  (forall s e, In s identifier_scripts ->
     remote_identifier s E = inl e ->
     run s E st = (inl e, logged st [Get (query_url s)])
     \/ exists e0, read_installed (state_key s) st = inl e0
                   /\ run s E st = (inl e0, st))
  /\ (forall script u, In script orchestrators ->
        In (Download u) (run_events (script E) st) ->
        (forall e, download E u = Refused e \/ (exists w, download E u = Aborted e w) ->
           outcome (script E) st = inl e
           /\ last (run_events (script E) st) = Some (Download u))
        /\ (forall content e, download E u = Complete content ->
              unzip E content = inl e ->
              outcome (script E) st = inl e
              /\ exists file, last (run_events (script E) st) = Some (Extract file)))
  /\ (forall e key local,
        api_pull_body E (Lynks.pull_api_url Lynks.REPO Lynks.PR_NUMBER) = inl e ->
        Lynks.get_os_key E = inr key ->
        outcome load_local_version st = inr local ->
        (exists evs, run_events (Lynks.install_or_update_from_pr E) st
                     = Get (Lynks.pull_api_url Lynks.REPO Lynks.PR_NUMBER)
                       :: Get Lynks.pull_page_url :: evs)
        /\ found_links E = page_links E
        /\ (forall e', web_page E Lynks.pull_page_url = inl e' ->
              Lynks.install_or_update_from_pr E st
              = (inl Lynks.no_links_found,
                 logged st [Get (Lynks.pull_api_url Lynks.REPO Lynks.PR_NUMBER);
                            Get Lynks.pull_page_url]))).
Proof.
  split; [|split].
  - intros s e Hin Hr. rewrite (script_is_pipeline s E st Hin). unfold as_pipeline.
    rewrite pipeline_eq. unfold remote_identifier in Hr.
    destruct (read_installed (state_key s) st) as [e0|installed]; [by eauto|].
    left. by destruct (remote s E) as [|[]]; simplify_eq.
  - intros script u Hin. unfold run_events, outcome, final.
    in_list Hin.
    1: change (TwoShip.install_or_update E st) with (run two_ship E st).
    2: change (Spaghettikart.install_or_update E st) with (run spaghettikart E st).
    3: change (SohNightly.install_latest_nightly E st) with (run soh_nightly E st).
    4: change (SpaghettikartNightly.install_latest_nightly E st)
         with (run spaghettikart_nightly E st).
    1-4: rewrite script_is_pipeline by (simpl; tauto).
    1-4: apply pipeline_aborts.
    apply lynks_aborts.
  - intros e key local Hb Hk Hl.
    destruct (get_os_key_inr E key Hk) as [target Ht].
    assert (Hbl : body_links E = ∅) by (unfold body_links; by rewrite Hb).
    assert (Hf : found_links E = page_links E)
      by (unfold found_links; by rewrite Hbl, is_empty_empty).
    assert (Hev : lookup_events E
                  = [Get (Lynks.pull_api_url Lynks.REPO Lynks.PR_NUMBER);
                     Get Lynks.pull_page_url])
      by (unfold lookup_events; by rewrite Hbl, is_empty_empty).
    split; [|split; [done|]].
    + unfold run_events, final. rewrite lynks_eq, Hk, Ht, Hl, Hev.
      tree; eauto.
    + intros e' Hp. rewrite lynks_eq, Hk, Ht, Hl, Hev. simpl.
      rewrite Hf. unfold page_links. by rewrite Hp, is_empty_empty.
Qed.

Lemma remote_errors_witness :
  In soh_nightly identifier_scripts
  /\ remote_identifier soh_nightly (offline (list_ascii_of_string "Linux"))
     = inl (HTTPError SohNightly.commits_url)
  /\ (run soh_nightly (offline (list_ascii_of_string "Linux")) pristine
      = (inl (HTTPError SohNightly.commits_url),
         logged pristine [Get (query_url soh_nightly)])
      \/ exists e0, read_installed (state_key soh_nightly) pristine = inl e0
                    /\ run soh_nightly (offline (list_ascii_of_string "Linux")) pristine
                       = (inl e0, pristine)).
Proof.
  assert (Hin : In soh_nightly identifier_scripts) by (simpl; tauto).
  assert (Hr : remote_identifier soh_nightly (offline (list_ascii_of_string "Linux"))
               = inl (HTTPError SohNightly.commits_url)) by reflexivity.
  split; [exact Hin|split; [exact Hr|]].
  exact (proj1 (remote_errors (offline (list_ascii_of_string "Linux")) pristine)
           soh_nightly _ Hin Hr).
Defined.

(* ===================================================================== *)
(** ** version.json: what is saved is what is loaded                      *)
(* ===================================================================== *)

(** Decoding undoes the escape of one character. *)
Lemma scanstring_escape_char (c : ascii) (tail : str) :
  scanstring (escape_char c ++ tail) = cons_fst c (scanstring tail).
Proof.
  destruct c as [[] [] [] [] [] [] [] []]; reflexivity.
Qed.

Lemma scanstring_encode (s rest : str) :
  scanstring (flat_map escape_char s ++ dquote :: rest) = Some (s, rest).
Proof.
  induction s as [|c s IH]; [reflexivity|].
  simpl. rewrite <- app_assoc, scanstring_escape_char, IH. reflexivity.
Qed.

Lemma reads_back_str (s : str) : reads_back (SStr s).
Proof.
  intros f tail _. unfold dumps_scalar, encode_basestring_ascii.
  simpl. rewrite <- app_assoc. simpl. by rewrite scanstring_encode.
Qed.

Lemma reads_back_none : reads_back SNone.
Proof. intros f tail _. vm_compute. reflexivity. Qed.

Lemma reads_back_pr_number : reads_back (SInt Lynks.PR_NUMBER).
Proof. intros f tail [r [-> | ->]]; vm_compute; reflexivity. Qed.

Lemma join_items (kv : str * scalar) (d : list (str * scalar)) :
  join item_separator (map dumps_item (kv :: d)) = dumps_item kv ++ more_items d.
Proof.
  revert kv. induction d as [|kv' d IH]; intros kv.
  - simpl. by rewrite app_nil_r.
  - change (join item_separator (map dumps_item (kv :: kv' :: d)))
      with (dumps_item kv ++ item_separator
            ++ join item_separator (map dumps_item (kv' :: d))).
    rewrite IH. simpl. by rewrite <- !app_assoc.
Qed.

Lemma parse_members_S (f : nat) (acc : list (str * pyval)) (s : str) :
  parse_members (S f) acc s =
    match scanstring s with
    | None => None
    | Some (k, r) =>
        match skip_ws r with
        | c :: r1 =>
            if ascii_eqb c ":" then
              match parse_value f (skip_ws r1) with
              | None => None
              | Some (v, r2) =>
                  match skip_ws r2 with
                  | c2 :: r3 =>
                      if ascii_eqb c2 "}" then Some (PDict (dict_set acc k v), r3)
                      else if ascii_eqb c2 "," then
                        match skip_ws r3 with
                        | c3 :: r4 =>
                            if ascii_eqb c3 dquote
                            then parse_members f (dict_set acc k v) r4
                            else None
                        | [] => None
                        end
                      else None
                  | [] => None
                  end
              end
            else None
        | [] => None
        end
    end.
Proof. reflexivity. Qed.

(** One member and what follows it: the closing brace behind a newline,
    or a separator and the next key. *)
Lemma parse_member (f : nat) (acc : list (str * pyval)) (k : str) (v : scalar)
  (tail : str) :
  reads_back v -> terminated tail ->
  parse_members (S (S f)) acc
    (flat_map escape_char k ++ dquote :: list_ascii_of_string ": "
     ++ dumps_scalar v ++ tail)
  = match skip_ws tail with
    | c2 :: r3 =>
        if ascii_eqb c2 "}" then Some (PDict (dict_set acc k (to_py v)), r3)
        else if ascii_eqb c2 "," then
          match skip_ws r3 with
          | c3 :: r4 =>
              if ascii_eqb c3 dquote
              then parse_members (S f) (dict_set acc k (to_py v)) r4
              else None
          | [] => None
          end
        else None
    | [] => None
    end.
Proof.
  intros Hv Ht. rewrite parse_members_S, scanstring_encode.
  change (skip_ws (list_ascii_of_string ": " ++ dumps_scalar v ++ tail))
    with (":"%char :: " "%char :: dumps_scalar v ++ tail).
  change (ascii_eqb ":" ":") with true. cbv iota.
  change (skip_ws (" "%char :: dumps_scalar v ++ tail))
    with (skip_ws (dumps_scalar v ++ tail)).
  by rewrite Hv.
Qed.

Lemma more_items_cons (k : str) (v : scalar) (d : list (str * scalar)) (tail : str) :
  more_items ((k, v) :: d) ++ tail
  = ","%char :: newline :: " "%char :: " "%char :: " "%char :: " "%char :: dquote
    :: flat_map escape_char k ++ dquote :: list_ascii_of_string ": "
    ++ dumps_scalar v ++ more_items d ++ tail.
Proof.
  change (more_items ((k, v) :: d))
    with ((item_separator ++ dumps_item (k, v)) ++ more_items d).
  unfold item_separator, dumps_item, encode_basestring_ascii. cbn [fst snd].
  rewrite <- !app_assoc. simpl. rewrite <- !app_assoc. reflexivity.
Qed.

(** The members of an object, read from behind the opening quote of the
    first key. *)
Lemma parse_members_dump (d : list (str * scalar)) :
  forall (k : str) (v : scalar) (acc : list (str * pyval)) (f : nat) (rest : str),
    reads_back v -> Forall (fun kv => reads_back (snd kv)) d ->
    length d < f ->
    parse_members (S f) acc
      (flat_map escape_char k ++ dquote :: list_ascii_of_string ": "
       ++ dumps_scalar v ++ more_items d ++ newline :: "}"%char :: rest)
    = Some (PDict (foldl set_item (dict_set acc k (to_py v)) d), rest).
Proof.
  induction d as [|[k' v'] d IH]; intros k v acc f rest Hv Hd Hf.
  - destruct f as [|f]; [simpl in Hf; lia|].
    cbn [more_items flat_map app].
    rewrite parse_member by (try done; eexists; right; reflexivity).
    reflexivity.
  - destruct f as [|f]; [simpl in Hf; lia|].
    rewrite more_items_cons.
    rewrite parse_member by (try done; eexists; left; reflexivity).
    inversion Hd; subst.
    change (skip_ws (","%char :: ?x)) with (","%char :: x).
    change (ascii_eqb "," "}") with false. change (ascii_eqb "," ",") with true.
    cbv iota.
    change (skip_ws (newline :: " "%char :: " "%char :: " "%char :: " "%char
                     :: dquote :: ?x))
      with (dquote :: x).
    change (ascii_eqb dquote dquote) with true. cbv iota.
    rewrite IH; [reflexivity|assumption|assumption|simpl in Hf; lia].
Qed.

(** Every item of a dump takes a character at least. *)
Lemma length_more_items (d : list (str * scalar)) : length d <= length (more_items d).
Proof.
  induction d as [|kv d IH]; [done|].
  unfold more_items. cbn [flat_map]. fold (more_items d).
  rewrite !length_app. unfold item_separator. simpl. lia.
Qed.

Lemma json_dumps_cons (k : str) (v : scalar) (d : list (str * scalar)) :
  json_dumps ((k, v) :: d)
  = "{"%char :: newline :: " "%char :: " "%char :: " "%char :: " "%char :: dquote
    :: (flat_map escape_char k ++ dquote :: list_ascii_of_string ": "
        ++ dumps_scalar v ++ more_items d ++ newline :: "}"%char :: []).
Proof.
  unfold json_dumps. rewrite join_items.
  unfold dumps_item, encode_basestring_ascii. cbn [fst snd].
  rewrite <- !app_assoc. simpl. rewrite <- !app_assoc. reflexivity.
Qed.

(** [json.load] reads a dumped record back: the pairs in the order they
    were written, a repeated key keeping its first place and its last
    value. *)
Lemma loads_dumps (d : list (str * scalar)) :
  Forall (fun kv => reads_back (snd kv)) d ->
  json_loads (json_dumps d) = Some (PDict (foldl set_item [] d)).
Proof.
  intros Hd. destruct d as [|[k v] d]; [by vm_compute|].
  inversion Hd; subst.
  unfold json_loads. rewrite json_dumps_cons.
  assert (Hlen : length d
                 < length (flat_map escape_char k ++ dquote :: list_ascii_of_string ": "
                           ++ dumps_scalar v ++ more_items d
                           ++ newline :: "}"%char :: [])).
  { pose proof (length_more_items d). rewrite !length_app. cbn [length].
    rewrite !length_app. lia. }
  set (body := flat_map escape_char k ++ dquote :: list_ascii_of_string ": "
               ++ dumps_scalar v ++ more_items d ++ newline :: "}"%char :: []) in *.
  change (skip_ws ("{"%char :: ?x)) with ("{"%char :: x).
  change (length ("{"%char :: newline :: " "%char :: " "%char
                                  :: " "%char :: " "%char :: dquote :: body)) with (S (S (S (S (S (S (S (length body)))))))).
  change (parse_value (S (S ?n))
            ("{"%char :: newline :: " "%char :: " "%char :: " "%char :: " "%char
             :: dquote :: body))
    with (parse_members (S n) [] body).
  unfold body at 2. rewrite parse_members_dump by (try done; lia).
  reflexivity.
Qed.

(** C8. In each of the three schemas, [load_local_version] after
    [save_local_version] returns the record that was saved, field by
    field, whatever the identifier and whatever the state before. *)
Theorem save_then_load (id : str) (st : state) :
  outcome load_local_version (final (TwoShip.save_local_version id) st)
  = inr (PDict [(list_ascii_of_string "installed_version", PStr id);
                (list_ascii_of_string "repo", PStr TwoShip.REPO)])
  /\ outcome load_local_version (final (Spaghettikart.save_local_version id) st)
     = inr (PDict [(list_ascii_of_string "installed_version", PStr id);
                   (list_ascii_of_string "repo", PStr Spaghettikart.REPO)])
  /\ outcome load_local_version (final (SohNightly.save_local_version id) st)
     = inr (PDict [(list_ascii_of_string "latest_commit", PStr id)])
  /\ outcome load_local_version (final (SpaghettikartNightly.save_local_version id) st)
     = inr (PDict [(list_ascii_of_string "latest_commit", PStr id)])
  /\ outcome load_local_version (final (Lynks.save_local_version id) st)
     = inr (PDict [(list_ascii_of_string "download_url", PStr id);
                   (list_ascii_of_string "repo", PStr Lynks.REPO);
                   (list_ascii_of_string "pr_number", PInt Lynks.PR_NUMBER)]).
Proof.
  unfold TwoShip.save_local_version, Spaghettikart.save_local_version,
    SohNightly.save_local_version, SpaghettikartNightly.save_local_version,
    Lynks.save_local_version.
  unfold outcome, final, load_local_version, write_version. cbn [fst snd version_file].
  rewrite !loads_dumps
    by (repeat constructor; cbn [snd];
        auto using reads_back_str, reads_back_none, reads_back_pr_number).
  repeat split.
Qed.

(* ===================================================================== *)
(** ** Strings and patterns                                               *)
(* ===================================================================== *)

Lemma span_app (f : ascii -> bool) (s a b : str) : span f s = (a, b) -> s = a ++ b.
Proof.
  revert a b. induction s as [|c s IH]; intros a b; simpl.
  - by intros [= <- <-].
  - destruct (f c); [|by intros [= <- <-]].
    destruct (span f s) as [a' b'] eqn:Hs. intros [= <- <-].
    by rewrite (IH a' b').
Qed.

Lemma span_exact (f : ascii -> bool) (u : str) (c : ascii) (r : str) :
  Forall (fun x => f x = true) u -> f c = false ->
  span f (u ++ c :: r) = (u, c :: r).
Proof.
  intros Hu Hc. induction Hu as [|x u Hx Hu IH]; simpl.
  - by rewrite Hc.
  - by rewrite Hx, IH.
Qed.

Lemma lstrip_app (s : str) : exists ws, s = ws ++ lstrip s.
Proof.
  induction s as [|c s [ws IH]]; [by exists []|]. simpl.
  destruct (isspace c); [|by exists []].
  exists (c :: ws). simpl. by rewrite <- IH.
Qed.


Lemma lstrip_id (c : ascii) (r : str) : isspace c = false -> lstrip (c :: r) = c :: r.
Proof. intros H. simpl. by rewrite H. Qed.

Lemma strip_decompose (t : str) : exists a b, t = a ++ strip t ++ b.
Proof.
  unfold strip, rstrip.
  destruct (lstrip_app t) as [a Ha].
  destruct (lstrip_app (rev (lstrip t))) as [b Hb].
  exists a, (rev b). rewrite <- rev_app_distr, <- Hb, rev_involutive. exact Ha.
Qed.


Lemma strip_id (m : str) : Forall (fun c => isspace c = false) m -> strip m = m.
Proof.
  intros H. unfold strip, rstrip.
  assert (Hl : forall x, Forall (fun c => isspace c = false) x -> lstrip x = x).
  { intros x Hx. destruct Hx as [|c x Hc _]; [done|]. by apply lstrip_id. }
  rewrite (Hl m H), Hl, rev_involutive; [done|].
  by apply Forall_rev.
Qed.

Lemma consumed_app (m r : str) : consumed (m ++ r) r = m.
Proof.
  unfold consumed. rewrite length_app.
  replace (length m + length r - length r) with (length m) by lia.
  by rewrite take_app_length.
Qed.

Lemma lower_app (a b : str) : lower (a ++ b) = lower a ++ lower b.
Proof. unfold lower. apply map_app. Qed.

(** What a literal matches: a prefix of its own length that lowers to the
    lowered literal. *)
Lemma imatch_app (p s r : str) :
  imatch p s = Some r -> exists m, s = m ++ r /\ lower m = lower p.
Proof.
  revert s. induction p as [|a p IH]; intros s; simpl.
  - intros [= <-]. by exists [].
  - destruct s as [|b s]; [done|].
    destruct (ieq a b) eqn:Hab; [|done]. intros H.
    destruct (IH s H) as (m & -> & Hm).
    exists (b :: m). split; [done|].
    unfold lower in *. simpl. rewrite Hm. f_equal.
    unfold ieq, ascii_eqb in Hab. by apply bool_decide_eq_true in Hab.
Qed.

Lemma imatch_more (p s r b : str) :
  imatch p s = Some r -> imatch p (s ++ b) = Some (r ++ b).
Proof.
  revert s. induction p as [|a p IH]; intros s; simpl.
  - by intros [= <-].
  - destruct s as [|x s]; [done|]. simpl.
    destruct (ieq a x); [|done]. apply IH.
Qed.

Lemma imatch_exact (p m r : str) : lower m = lower p -> imatch p (m ++ r) = Some r.
Proof.
  revert m. induction p as [|a p IH]; intros m H.
  - destruct m; [done|discriminate].
  - destruct m as [|b m]; [discriminate|].
    unfold lower in H. simpl in H. injection H as Hb Hm. simpl.
    unfold ieq, ascii_eqb. rewrite Hb, bool_decide_eq_true_2 by done.
    by apply IH.
Qed.

(** White space is not changed by lowering. *)
Lemma isspace_lower (c : ascii) : isspace c = true -> lower_char c = c.
Proof.
  destruct c as [[] [] [] [] [] [] [] []]; vm_compute; congruence.
Qed.

(** *** The artifact file name *)

Lemma soh_zip_app (s r : str) :
  Lynks.soh_zip s = Some r -> exists m, s = m ++ r /\ In (lower m) soh_zips.
Proof.
  unfold Lynks.soh_zip.
  destruct (imatch (list_ascii_of_string "soh-") s) as [s1|] eqn:H1; [|done].
  destruct (imatch_app _ _ _ H1) as (m1 & -> & Hm1).
  assert (Halt : forall w r,
            match imatch w s1 with
            | Some s2 => imatch (list_ascii_of_string ".zip") s2
            | None => None
            end = Some r ->
            exists m, m1 ++ s1 = m ++ r
                      /\ lower m = lower (list_ascii_of_string "soh-") ++ lower w
                                   ++ lower (list_ascii_of_string ".zip")).
  { intros w r'. destruct (imatch w s1) as [s2|] eqn:H2; [|done]. intros H3.
    destruct (imatch_app _ _ _ H2) as (m2 & -> & Hm2).
    destruct (imatch_app _ _ _ H3) as (m3 & -> & Hm3).
    exists (m1 ++ m2 ++ m3). rewrite <- !app_assoc. split; [done|].
    by rewrite !lower_app, Hm1, Hm2, Hm3. }
  intros H.
  assert (Hany : exists w, In w [list_ascii_of_string "windows";
                                 list_ascii_of_string "linux";
                                 list_ascii_of_string "mac"]
                           /\ match imatch w s1 with
                              | Some s2 => imatch (list_ascii_of_string ".zip") s2
                              | None => None
                              end = Some r).
  { cbv beta zeta in H.
    destruct (match imatch (list_ascii_of_string "windows") s1 with
              | Some s2 => imatch (list_ascii_of_string ".zip") s2
              | None => None end) as [x|] eqn:Hw.
    { injection H as <-. eexists. split; [|exact Hw]. simpl; tauto. }
    destruct (match imatch (list_ascii_of_string "linux") s1 with
              | Some s2 => imatch (list_ascii_of_string ".zip") s2
              | None => None end) as [x|] eqn:Hl.
    { injection H as <-. eexists. split; [|exact Hl]. simpl; tauto. }
    eexists. split; [|exact H]. simpl; tauto. }
  destruct Hany as (w & Hw & Hr). apply Halt in Hr as (m & -> & Hm).
  exists m. split; [done|]. rewrite Hm.
  simpl in Hw. destruct Hw as [<-|[<-|[<-|[]]]]; vm_compute; tauto.
Qed.

Lemma soh_zip_more (s r b : str) :
  Lynks.soh_zip s = Some r -> Lynks.soh_zip (s ++ b) = Some (r ++ b).
Proof.
  unfold Lynks.soh_zip.
  destruct (imatch (list_ascii_of_string "soh-") s) as [s1|] eqn:H1; [|done].
  rewrite (imatch_more _ _ _ b H1). cbv beta zeta.
  assert (Halt : forall w r,
            match imatch w s1 with
            | Some s2 => imatch (list_ascii_of_string ".zip") s2
            | None => None
            end = Some r ->
            match imatch w (s1 ++ b) with
            | Some s2 => imatch (list_ascii_of_string ".zip") s2
            | None => None
            end = Some (r ++ b)).
  { intros w r'. destruct (imatch w s1) as [s2|] eqn:H2; [|done]. intros H3.
    rewrite (imatch_more _ _ _ b H2). by apply imatch_more. }
  destruct (match imatch (list_ascii_of_string "windows") s1 with
            | Some s2 => imatch (list_ascii_of_string ".zip") s2
            | None => None end) as [x|] eqn:Hw.
  { intros [= <-]. by rewrite (Halt _ _ Hw). }
  destruct (match imatch (list_ascii_of_string "linux") s1 with
            | Some s2 => imatch (list_ascii_of_string ".zip") s2
            | None => None end) as [x|] eqn:Hl.
  { intros [= <-].
    destruct (match imatch (list_ascii_of_string "windows") (s1 ++ b) with
              | Some s2 => imatch (list_ascii_of_string ".zip") s2
              | None => None end) as [y|] eqn:Hw'.
    - exfalso. clear Halt.
      destruct (imatch (list_ascii_of_string "linux") s1) as [s2|] eqn:E1; [|done].
      destruct (imatch (list_ascii_of_string "windows") (s1 ++ b)) as [s3|] eqn:E2;
        [|done].
      destruct s1 as [|c s1]; [done|]. simpl in E1, E2.
      destruct (ieq "l" c) eqn:Hc1; [|done].
      destruct (ieq "w" c) eqn:Hc2; [|done].
      unfold ieq, ascii_eqb in Hc1, Hc2.
      apply bool_decide_eq_true in Hc1, Hc2. rewrite Hc1 in Hc2. discriminate.
    - by rewrite (Halt _ _ Hl). }
  intros Hm.
  destruct (match imatch (list_ascii_of_string "windows") (s1 ++ b) with
            | Some s2 => imatch (list_ascii_of_string ".zip") s2
            | None => None end) as [y|] eqn:Hw'.
  { exfalso. clear Halt.
    destruct (imatch (list_ascii_of_string "mac") s1) as [s2|] eqn:E1; [|done].
    destruct (imatch (list_ascii_of_string "windows") (s1 ++ b)) as [s3|] eqn:E2;
      [|done].
    destruct s1 as [|c s1]; [done|]. simpl in E1, E2.
    destruct (ieq "m" c) eqn:Hc1; [|done].
    destruct (ieq "w" c) eqn:Hc2; [|done].
    unfold ieq, ascii_eqb in Hc1, Hc2.
    apply bool_decide_eq_true in Hc1, Hc2. rewrite Hc1 in Hc2. discriminate. }
  destruct (match imatch (list_ascii_of_string "linux") (s1 ++ b) with
            | Some s2 => imatch (list_ascii_of_string ".zip") s2
            | None => None end) as [y|] eqn:Hl'.
  { exfalso. clear Halt.
    destruct (imatch (list_ascii_of_string "mac") s1) as [s2|] eqn:E1; [|done].
    destruct (imatch (list_ascii_of_string "linux") (s1 ++ b)) as [s3|] eqn:E2;
      [|done].
    destruct s1 as [|c s1]; [done|]. simpl in E1, E2.
    destruct (ieq "m" c) eqn:Hc1; [|done].
    destruct (ieq "l" c) eqn:Hc2; [|done].
    unfold ieq, ascii_eqb in Hc1, Hc2.
    apply bool_decide_eq_true in Hc1, Hc2. rewrite Hc1 in Hc2. discriminate. }
  by apply Halt.
Qed.

(** *** [finditer] *)

Section Finditer.
Context {A : Type} (pattern : str -> option (A * str)) (R : A -> str -> Prop).

(** A match takes a part of the text that is not empty and leaves the
    rest; [R] relates its groups to the part taken. *)
Hypothesis matched :
  forall x g rest, pattern x = Some (g, rest) ->
    exists m, x = m ++ rest /\ m <> [] /\ R g m.

Lemma finditer_from_skip (m s : str) :
  finditer_from pattern (length m) (m ++ s) = finditer_from pattern 0 s.
Proof. induction m as [|c m IH]; [done|]. exact IH. Qed.

Lemma finditer_match (m rest : str) (g : A) :
  pattern (m ++ rest) = Some (g, rest) -> m <> [] ->
  finditer pattern (m ++ rest) = g :: finditer pattern rest.
Proof.
  intros Hp Hm. destruct m as [|c m]; [done|].
  unfold finditer. cbn [app finditer_from].
  change (c :: m ++ rest) with ((c :: m) ++ rest). rewrite Hp. f_equal.
  rewrite length_app. cbn [length].
  replace (S (length m) + length rest - length rest - 1) with (length m) by lia.
  apply finditer_from_skip.
Qed.

(** Every match lies inside the text. *)
Lemma finditer_inside (s : str) (skip : nat) :
  Forall (fun g => exists a m b, s = a ++ m ++ b /\ R g m)
    (finditer_from pattern skip s).
Proof.
  revert skip. induction s as [|c s IH]; intros skip; [constructor|].
  assert (Hshift : forall k,
            Forall (fun g => exists a m b, c :: s = a ++ m ++ b /\ R g m)
              (finditer_from pattern k s)).
  { intros k. eapply Forall_impl; [apply IH|].
    intros g (a & m & b & -> & Hr). by exists (c :: a), m, b. }
  cbn [finditer_from]. destruct skip as [|k]; [|apply Hshift].
  destruct (pattern (c :: s)) as [[g rest]|] eqn:Hp; [|apply Hshift].
  constructor; [|apply Hshift].
  destruct (matched _ _ _ Hp) as (m & Hx & _ & Hr).
  exists [], m, rest. by rewrite Hx.
Qed.

Lemma visits_skip_le (skip n : nat) (s : str) :
  visits_from pattern skip n s = true -> skip <= n.
Proof.
  revert skip s. induction n as [|n IH]; intros skip s; simpl.
  - destruct skip; [lia|done].
  - destruct s as [|c s]; [done|].
    destruct skip as [|k]; [lia|]. intros H%IH. lia.
Qed.

(** When the search tries the position behind [pre], the matches up to
    there lie inside [pre] and the search goes on at that position as
    if it began there. *)
Lemma finditer_prefix (pre s : str) (skip : nat) :
  visits_from pattern skip (length pre) (pre ++ s) = true ->
  exists ms,
    finditer_from pattern skip (pre ++ s) = ms ++ finditer_from pattern 0 s
    /\ Forall (fun g => exists a m b, pre = a ++ m ++ b /\ R g m) ms.
Proof.
  revert skip. induction pre as [|c pre IH]; intros skip.
  - simpl. destruct skip; [|done]. intros _. by exists [].
  - assert (Hshift : forall ms,
              Forall (fun g => exists a m b, pre = a ++ m ++ b /\ R g m) ms ->
              Forall (fun g => exists a m b, c :: pre = a ++ m ++ b /\ R g m) ms).
    { intros ms H. eapply Forall_impl; [exact H|].
      intros g (a & m & b & -> & Hr). by exists (c :: a), m, b. }
    cbn [length app visits_from finditer_from].
    destruct skip as [|k].
    2:{ intros (ms & Hms & Hin)%IH. exists ms. split; [done|]. by eapply Hshift. }
    destruct (pattern (c :: pre ++ s)) as [[g rest]|] eqn:Hp.
    2:{ intros (ms & Hms & Hin)%IH. exists ms. split; [done|]. by eapply Hshift. }
    intros Hv. pose proof (visits_skip_le _ _ _ Hv) as Hle.
    destruct (IH _ Hv) as (ms & Hms & Hin).
    exists (g :: ms). split; [by rewrite Hms|].
    constructor; [|by eapply Hshift].
    destruct (matched _ _ _ Hp) as (m & Hx & Hne & Hr).
    assert (Hlen : length m <= S (length pre)).
    { apply (f_equal (@length ascii)) in Hx. cbn [length] in Hx.
      rewrite !length_app in *. lia. }
    exists [], m, (drop (length m) (c :: pre)). split; [|done].
    cbn [app]. rewrite <- (take_drop (length m) (c :: pre)) at 1. f_equal.
    change (c :: pre ++ s) with ((c :: pre) ++ s) in Hx.
    apply (f_equal (take (length m))) in Hx.
    rewrite take_app_le in Hx by (simpl; lia).
    by rewrite take_app_length in Hx.
Qed.

Lemma finditer_reaches (pre s : str) :
  visits pattern (length pre) (pre ++ s) = true ->
  exists ms,
    finditer pattern (pre ++ s) = ms ++ finditer pattern s
    /\ Forall (fun g => exists a m b, pre = a ++ m ++ b /\ R g m) ms.
Proof. apply finditer_prefix. Qed.

Lemma finditer_all_inside (s : str) :
  Forall (fun g => exists a m b, s = a ++ m ++ b /\ R g m) (finditer pattern s).
Proof. apply finditer_inside. Qed.

End Finditer.

(** *** The dict of links *)

(** The URL filed under a key is that of the last match with the key. *)
Lemma record_links_lookup (key : str * str -> option str) (ms : list (str * str))
  (acc : gmap str str) (k : str) :
  foldl (record_link key) acc ms !! k =
    match last (filter (fun m => key m = Some k) ms) with
    | Some m => Some (link_url m)
    | None => acc !! k
    end.
Proof.
  induction ms as [|m ms IH] using rev_ind; [done|].
  rewrite foldl_app, filter_app, last_app. cbn [foldl].
  rewrite filter_cons, filter_nil.
  unfold record_link at 1. destruct (key m) as [k'|] eqn:Hk.
  - destruct (decide (k' = k)) as [->|Hne].
    + rewrite decide_True by done. simpl. by rewrite lookup_insert_eq.
    + rewrite decide_False by congruence. simpl.
      by rewrite lookup_insert_ne.
  - rewrite decide_False by done. simpl. exact IH.
Qed.

Lemma extract_markdown_fold (body : str) :
  Lynks.extract_markdown_links_from_body body
  = foldl (record_link md_key) ∅ (finditer Lynks.markdown_link body).
Proof.
  unfold Lynks.extract_markdown_links_from_body.
  generalize (∅ : gmap str str).
  induction (finditer Lynks.markdown_link body) as [|m ms IH]; intros acc; [done|].
  cbn [foldl]. rewrite IH. f_equal.
  unfold record_link, md_key, link_url. by destruct (Lynks.is_soh_zip _).
Qed.

Lemma extract_nightly_fold (html : str) :
  Lynks.extract_nightly_links_from_html html
  = foldl (record_link html_key) ∅ (finditer Lynks.nightly_link html).
Proof. reflexivity. Qed.

(** *** What the two patterns match *)

Lemma soh_zip_no_space (m : str) :
  In (lower m) soh_zips -> Forall (fun c => isspace c = false) m.
Proof.
  intros H.
  assert (Hl : Forall (fun c => isspace c = false) (lower m)).
  { simpl in H. destruct H as [<-|[<-|[<-|[]]]]; repeat constructor. }
  unfold lower in Hl. apply Forall_map in Hl.
  eapply Forall_impl; [exact Hl|]. intros c Hc. simpl in Hc.
  destruct (isspace c) eqn:Hs; [|done].
  by rewrite (isspace_lower c Hs), Hs in Hc.
Qed.

Lemma soh_zip_key (m : str) : In (lower m) soh_zips -> lower (strip m) = lower m.
Proof. intros H. by rewrite strip_id by by apply soh_zip_no_space. Qed.

(** Equal up to the bracketing of concatenations. *)
Ltac reassoc := cbn [app]; repeat (rewrite <- app_assoc; cbn [app]); reflexivity.

Lemma markdown_link_matched (x : str) (g : str * str) (rest : str) :
  Lynks.markdown_link x = Some (g, rest) ->
  exists m, x = m ++ rest /\ m <> [] /\ (exists a b, m = a ++ fst g ++ b).
Proof.
  unfold Lynks.markdown_link.
  destruct x as [|c s1]; [done|]. destruct (ascii_eqb c "["); [|done].
  destruct (span _ s1) as [text s2] eqn:Hsp. apply span_app in Hsp. subst s1.
  destruct text as [|t0 text]; [done|]. destruct s2 as [|c2 [|c3 s4]]; [done..|].
  destruct (ascii_eqb c3 "("); [|done]. cbv zeta.
  destruct (lstrip_app s4) as [ws Hws].
  destruct (imatch (list_ascii_of_string "http") (lstrip s4)) as [s6|] eqn:H1; [|done].
  apply imatch_app in H1 as (m1 & H1 & _).
  set (s7 := match s6 with
             | c6 :: r6 => if ieq "s" c6 then r6 else s6
             | [] => s6
             end).
  assert (Hs7 : exists o, s6 = o ++ s7).
  { unfold s7. destruct s6 as [|c6 r6]; [by exists []|].
    destruct (ieq "s" c6); [by exists [c6]|by exists []]. }
  destruct Hs7 as [o Hs7].
  destruct (imatch (list_ascii_of_string "://") s7) as [s8|] eqn:H2; [|done].
  apply imatch_app in H2 as (m2 & H2 & _).
  destruct (span _ s8) as [u s9] eqn:Hu. apply span_app in Hu.
  destruct (lstrip_app s9) as [ws2 Hws2].
  destruct u as [|u0 u]; [done|].
  destruct (lstrip s9) as [|c10 rest'] eqn:Hl; [done|].
  destruct (ascii_eqb c10 ")"); [|done]. intros [= <- <-].
  exists (c :: (t0 :: text) ++ c2 :: c3 :: ws ++ m1 ++ o ++ m2 ++ (u0 :: u) ++ ws2 ++ [c10]).
  split; [|split; [done|]].
  - rewrite Hws, H1, Hs7, H2, Hu, Hws2 at 1. reassoc.
  - by exists [c], (c2 :: c3 :: ws ++ m1 ++ o ++ m2 ++ (u0 :: u) ++ ws2 ++ [c10]).
Qed.

Lemma href_nightly_app (t : str) (g rest : str) :
  Lynks.href_nightly t = Some (g, rest) -> exists m, t = m ++ rest.
Proof.
  unfold Lynks.href_nightly.
  destruct (imatch (list_ascii_of_string "href=") t) as [[|q t2]|] eqn:H1; [done| |done].
  apply imatch_app in H1 as (m1 & -> & _).
  destruct (Lynks.is_quote q); [|done].
  destruct (imatch (list_ascii_of_string "https://nightly.link/") t2) as [t3|] eqn:H2;
    [|done].
  apply imatch_app in H2 as (m2 & -> & _).
  destruct (span _ t3) as [u t4] eqn:Hu. apply span_app in Hu. subst t3.
  destruct u as [|u0 u]; [done|]. destruct t4 as [|q' rest']; [done|].
  destruct (Lynks.is_quote q'); [|done]. intros [= <- <-].
  exists (m1 ++ q :: m2 ++ (u0 :: u) ++ [q']). reassoc.
Qed.

Lemma lazy_gap_app (n : nat) (t : str) (g rest : str) :
  Lynks.lazy_gap n t = Some (g, rest) -> exists m, t = m ++ rest.
Proof.
  revert t. induction n as [|n IH]; intros t; simpl.
  - destruct (Lynks.href_nightly t) as [[g' r']|] eqn:H; [|done].
    intros [= <- <-]. by eapply href_nightly_app.
  - destruct (Lynks.href_nightly t) as [[g' r']|] eqn:H.
    + intros [= <- <-]. by eapply href_nightly_app.
    + destruct t as [|c t]; [done|]. intros (m & ->)%IH. by exists (c :: m).
Qed.

Lemma nightly_link_matched (x : str) (g : str * str) (rest : str) :
  Lynks.nightly_link x = Some (g, rest) ->
  exists m, x = m ++ rest /\ m <> [] /\ In (lower (strip (fst g))) soh_zips.
Proof.
  unfold Lynks.nightly_link.
  destruct (Lynks.soh_zip x) as [s1|] eqn:H1; [|done].
  apply soh_zip_app in H1 as (m1 & -> & Hm1).
  destruct (Lynks.lazy_gap 200 s1) as [[url r]|] eqn:H2; [|done].
  apply lazy_gap_app in H2 as (m2 & ->). intros [= <- <-].
  exists (m1 ++ m2). rewrite <- app_assoc, consumed_app. split; [done|]. split.
  - destruct m1; [|done]. simpl in Hm1. intuition discriminate.
  - simpl. by rewrite soh_zip_key.
Qed.


(* ===================================================================== *)
(** ** The link parsers: keys, and the last match wins                    *)
(* ===================================================================== *)



(* ===================================================================== *)
(** ** Links in the PR description                                        *)
(* ===================================================================== *)

Lemma has_soh_zip_app_l (a x : str) :
  has_soh_zip x = true -> has_soh_zip (a ++ x) = true.
Proof.
  intros H. induction a as [|c a IH]; [done|].
  cbn [app has_soh_zip]. rewrite IH. by case_match.
Qed.

Lemma has_soh_zip_app_r (x b : str) :
  has_soh_zip x = true -> has_soh_zip (x ++ b) = true.
Proof.
  induction x as [|c x IH].
  - intros H. by vm_compute in H.
  - cbn [app has_soh_zip].
    destruct (Lynks.soh_zip (c :: x)) as [r|] eqn:H.
    + intros _. change (c :: x ++ b) with ((c :: x) ++ b).
      by rewrite (soh_zip_more _ _ b H).
    + intros Hx%IH. rewrite Hx. by case_match.
Qed.

Lemma has_soh_zip_inside (a m b : str) :
  has_soh_zip m = true -> has_soh_zip (a ++ m ++ b) = true.
Proof. intros H. by apply has_soh_zip_app_l, has_soh_zip_app_r. Qed.

Lemma md_key_has_soh_zip (m : str * str) (k : str) :
  md_key m = Some k -> has_soh_zip (fst m) = true.
Proof.
  unfold md_key, Lynks.is_soh_zip.
  destruct (Lynks.soh_zip (strip (fst m))) as [r|] eqn:H; [|done]. intros _.
  destruct (strip_decompose (fst m)) as (a & b & Hm). rewrite Hm.
  apply has_soh_zip_inside.
  destruct (strip (fst m)); cbn [has_soh_zip]; by rewrite H.
Qed.

(** Matches of the Markdown pattern inside a text without a file name are
    not filed. *)
Lemma md_key_none (s : str) (ms : list (str * str)) :
  has_soh_zip s = false ->
  Forall (fun g => exists a m b, s = a ++ m ++ b
                                 /\ (exists a' b', m = a' ++ fst g ++ b')) ms ->
  forall k, filter (fun m => md_key m = Some k) ms = [].
Proof.
  intros Hs Hms k. induction Hms as [|g ms Hg _ IH]; [done|].
  rewrite filter_cons, IH. rewrite decide_False; [done|].
  intros Hk%md_key_has_soh_zip.
  destruct Hg as (a & m & b & -> & a' & b' & ->).
  rewrite has_soh_zip_inside in Hs; [done|]. by apply has_soh_zip_inside.
Qed.



(** A text without an opening bracket holds no match of the Markdown
    pattern, so the search tries the position behind it. *)
Lemma visits_no_bracket (pre s : str) :
  Forall (fun c => c <> "["%char) pre ->
  visits Lynks.markdown_link (length pre) (pre ++ s) = true.
Proof.
  unfold visits. induction 1 as [|c pre Hc _ IH]; [done|].
  cbn [length app visits_from].
  assert (Lynks.markdown_link (c :: pre ++ s) = None) as ->; [|exact IH].
  unfold Lynks.markdown_link. unfold ascii_eqb.
  by rewrite bool_decide_eq_false_2.
Qed.


Lemma linux_target (E : env) :
  lower (platform_system E) = list_ascii_of_string "linux" ->
  Lynks.get_os_key E = inr (list_ascii_of_string "linux")
  /\ Lynks.ARTIFACT_OS_MAP !! list_ascii_of_string "linux" = Some linux_zip.
Proof.
  intros H. unfold Lynks.get_os_key. rewrite H.
  split; vm_compute; reflexivity.
Qed.




(* ===================================================================== *)
(** ** Links in the PR page                                               *)
(* ===================================================================== *)

Lemma filter_none {A} (P : A -> Prop) `{forall x, Decision (P x)} (l : list A) :
  Forall (fun x => ~ P x) l -> filter P l = [].
Proof.
  induction 1 as [|x l Hx _ IH]; [done|].
  rewrite filter_cons, decide_False by exact Hx. exact IH.
Qed.

Lemma soh_zip_at_mac (rest : str) : Lynks.soh_zip (mac_zip ++ rest) = Some rest.
Proof. vm_compute. reflexivity. Qed.

(** The tail of the page pattern at a quoted URL of the host. *)
Lemma href_nightly_exact (q1 q2 : ascii) (u post : str) :
  Lynks.is_quote q1 = true -> Lynks.is_quote q2 = true ->
  u <> [] -> Forall (fun c => url_char c = true) u ->
  Lynks.href_nightly
    (list_ascii_of_string "href=" ++ q1 :: nightly_host ++ u ++ q2 :: post)
  = Some (nightly_host ++ u, post).
Proof.
  intros Hq1 Hq2 Hu Hall. unfold Lynks.href_nightly.
  rewrite (imatch_exact _ (list_ascii_of_string "href=")) by reflexivity.
  rewrite Hq1.
  rewrite (imatch_exact _ nightly_host) by reflexivity.
  rewrite (span_exact
             (fun c => negb (isspace c || Lynks.is_quote c || ascii_eqb c ">"))
             u q2 post Hall)
    by (by rewrite Hq2, orb_true_r).
  destruct u as [|u0 u]; [done|]. rewrite Hq2.
  rewrite app_assoc. by rewrite consumed_app.
Qed.

(** The lazy gap stops at the first position where the tail matches. *)
Lemma lazy_gap_exact (gap tail : str) (x : str * str) :
  forall n,
    length gap <= n ->
    (forall k, k < length gap -> Lynks.href_nightly (drop k (gap ++ tail)) = None) ->
    Lynks.href_nightly tail = Some x ->
    Lynks.lazy_gap n (gap ++ tail) = Some x.
Proof.
  induction gap as [|c gap IH]; intros n Hn Hnone Hx.
  - destruct n; simpl; by rewrite Hx.
  - destruct n as [|n]; [simpl in Hn; lia|].
    cbn [Lynks.lazy_gap app].
    pose proof (Hnone 0 ltac:(simpl; lia)) as H0. simpl in H0. rewrite H0.
    apply IH; [simpl in Hn; lia| |done].
    intros k Hk. apply (Hnone (S k)). simpl. lia.
Qed.

(** The page pattern at the Mac token. *)
Lemma nightly_link_at_mac (gap u post : str) (q1 q2 : ascii) :
  length gap <= 200 ->
  (forall k, k < length gap ->
     Lynks.href_nightly
       (drop k (gap ++ list_ascii_of_string "href=" ++ q1 :: nightly_host ++ u
                ++ q2 :: post)) = None) ->
  Lynks.is_quote q1 = true -> Lynks.is_quote q2 = true ->
  u <> [] -> Forall (fun c => url_char c = true) u ->
  Lynks.nightly_link
    (mac_zip ++ gap ++ list_ascii_of_string "href=" ++ q1 :: nightly_host ++ u
     ++ q2 :: post)
  = Some ((mac_zip, nightly_host ++ u), post).
Proof.
  intros Hlen Hnone Hq1 Hq2 Hu Hall. unfold Lynks.nightly_link.
  rewrite soh_zip_at_mac.
  rewrite (lazy_gap_exact gap _ (nightly_host ++ u, post) 200 Hlen Hnone)
    by by apply href_nightly_exact.
  by rewrite consumed_app.
Qed.

(** The Mac link of a page that holds the token where the search arrives,
    the link within the window with no other in between, and no later
    match filed under the same name. *)
Lemma nightly_links_of_page (pre gap u post : str) (q1 q2 : ascii) :
  visits Lynks.nightly_link (length pre)
    (pre ++ mac_zip ++ gap ++ list_ascii_of_string "href=" ++ q1 :: nightly_host
     ++ u ++ q2 :: post) = true ->
  length gap <= 200 ->
  (forall k, k < length gap ->
     Lynks.href_nightly
       (drop k (gap ++ list_ascii_of_string "href=" ++ q1 :: nightly_host ++ u
                ++ q2 :: post)) = None) ->
  Lynks.is_quote q1 = true -> Lynks.is_quote q2 = true ->
  u <> [] -> Forall (fun c => url_char c = true) u ->
  Forall (fun m => html_key m <> Some mac_zip) (finditer Lynks.nightly_link post) ->
  Lynks.extract_nightly_links_from_html
    (pre ++ mac_zip ++ gap ++ list_ascii_of_string "href=" ++ q1 :: nightly_host
     ++ u ++ q2 :: post) !! mac_zip
  = Some (nightly_host ++ u).
Proof.
  intros Hv Hlen Hnone Hq1 Hq2 Hu Hall Hpost.
  destruct (finditer_reaches Lynks.nightly_link _ nightly_link_matched pre _ Hv)
    as (ms & Hms & _).
  pose proof (nightly_link_at_mac gap u post q1 q2 Hlen Hnone Hq1 Hq2 Hu Hall)
    as Hat.
  assert (Hm : mac_zip ++ gap ++ list_ascii_of_string "href=" ++ q1 :: nightly_host
               ++ u ++ q2 :: post
               = (mac_zip ++ gap ++ list_ascii_of_string "href=" ++ q1 :: nightly_host
                  ++ u ++ [q2]) ++ post) by reassoc.
  rewrite Hm in Hat, Hms.
  rewrite (finditer_match Lynks.nightly_link _ post _ Hat) in Hms by done.
  rewrite <- Hm in Hms.
  rewrite extract_nightly_fold, record_links_lookup, Hms.
  rewrite filter_app, filter_cons.
  assert (filter (fun m => html_key m = Some mac_zip)
            (finditer Lynks.nightly_link post) = []) as ->.
  { by apply filter_none. }
  assert (html_key (mac_zip, nightly_host ++ u) = Some mac_zip) as Hkey
    by (by vm_compute).
  rewrite decide_True by exact Hkey.
  rewrite last_snoc. unfold link_url. cbn [fmap option_fmap option_map snd]. f_equal.
  apply strip_id. apply Forall_app. split; [repeat constructor|].
  eapply Forall_impl; [exact Hall|]. intros c Hc. unfold url_char in Hc.
  destruct (isspace c); [done|done].
Qed.

(** Rewriting with the equation of a lookup, whatever the spelling of the
    types of keys and values. *)
Ltac rewrite_lookup H :=
  match type of H with
  | @lookup _ _ _ _ ?k ?m = ?v =>
      match goal with
      | |- context [@lookup ?K ?V ?M ?I k m] =>
          replace (@lookup K V M I k m) with v by (symmetry; exact H)
      end
  end.

Lemma darwin_target (E : env) :
  lower (platform_system E) = list_ascii_of_string "darwin" ->
  Lynks.get_os_key E = inr (list_ascii_of_string "darwin")
  /\ Lynks.ARTIFACT_OS_MAP !! list_ascii_of_string "darwin" = Some mac_zip.
Proof.
  intros H. unfold Lynks.get_os_key. rewrite H.
  split; vm_compute; reflexivity.
Qed.

(** The run of the PR script once the platform and version.json are
    read: what it does with the links its lookups found. *)
Lemma lynks_resolution (E : env) (st : state) (key target : str) (local : pyval) :
  Lynks.get_os_key E = inr key ->
  Lynks.ARTIFACT_OS_MAP !! key = Some target ->
  outcome load_local_version st = inr local ->
  Lynks.install_or_update_from_pr E st
  = let st1 := logged st (lookup_events E) in
    if Lynks.is_empty (found_links E) then (inl Lynks.no_links_found, st1)
    else
      match found_links E !! lower target with
      | None =>
          (inl (Lynks.artifact_not_found (lower target) (found_links E)), st1)
      | Some url =>
          if truthy local then
            match get local (list_ascii_of_string "download_url") with
            | inl e => (inl e, st1)
            | inr recorded =>
                if eq_str recorded url then (inr tt, st1)
                else install E url (lower target) (pr_record url) st1
            end
          else install E url (lower target) (pr_record url) st1
      end.
Proof.
  intros Hk Ht Hl. rewrite lynks_eq, Hk. cbv beta iota.
  match goal with
  | |- context [@lookup ?K ?V ?M ?I ?k Lynks.ARTIFACT_OS_MAP] =>
      replace (@lookup K V M I k Lynks.ARTIFACT_OS_MAP) with (Some target)
        by (symmetry; exact Ht)
  end.
  cbv beta iota. by rewrite Hl.
Qed.

(** C7 fails as stated. The page holds the token [soh-mac.zip] and, one
    character on, the link; but the match begun at the Linux name in front
    of the token runs over it and takes the link: the Mac name is not
    resolved, and on a Mac the run ends in the error that lists the Linux
    name. *)
Lemma earlier_name_takes_link :
  page_two_names
  = list_ascii_of_string "soh-linux.zip " ++ mac_zip ++ list_ascii_of_string " "
    ++ list_ascii_of_string "href=" ++ dquote :: nightly_host
    ++ list_ascii_of_string "a/b" ++ [dquote]
  /\ Lynks.extract_nightly_links_from_html page_two_names !! mac_zip = None
  /\ Lynks.extract_nightly_links_from_html page_two_names !! linux_zip
     = Some (list_ascii_of_string "https://nightly.link/a/b")
  /\ outcome (Lynks.install_or_update_from_pr
                (described (list_ascii_of_string "Darwin") [] page_two_names))
       pristine
     = inl (RuntimeError
              (list_ascii_of_string
                 "Artifact for this OS ('soh-mac.zip') not found. Available links: soh-linux.zip")).
Proof.
  split; [reflexivity|]. split; [|split]; vm_compute; reflexivity.
Qed.

(** C7, as the code has it. For a page that holds the token
    [soh-mac.zip] where the search arrives (no match begun at an earlier
    file name runs over it), followed after at most 200 characters by the
    quoted link to the host, with no other such link beginning in between
    and no later match filed under the same name, the parser maps the Mac
    file name to that URL; on a Mac, when the description gives no link
    and this is the page, the run fetches both, and compares and installs
    that URL. When the lookups find no link at all the run ends in the
    no-links error; when they find links but not the one of this
    platform, it ends in the error that lists, sorted, the names found. *)
Theorem page_link_resolved (pre gap u post : str) (q1 q2 : ascii) (E : env)
  (st : state) :
  visits Lynks.nightly_link (length pre)
    (pre ++ mac_zip ++ gap ++ list_ascii_of_string "href=" ++ q1 :: nightly_host
     ++ u ++ q2 :: post) = true ->
  length gap <= 200 ->
  (forall k, k < length gap ->
     Lynks.href_nightly
       (drop k (gap ++ list_ascii_of_string "href=" ++ q1 :: nightly_host ++ u
                ++ q2 :: post)) = None) ->
  Lynks.is_quote q1 = true -> Lynks.is_quote q2 = true ->
  u <> [] -> Forall (fun c => url_char c = true) u ->
  Forall (fun m => html_key m <> Some mac_zip) (finditer Lynks.nightly_link post) ->
  Lynks.extract_nightly_links_from_html
    (pre ++ mac_zip ++ gap ++ list_ascii_of_string "href=" ++ q1 :: nightly_host
     ++ u ++ q2 :: post) !! mac_zip
  = Some (nightly_host ++ u)
  /\ (lower (platform_system E) = list_ascii_of_string "darwin" ->
      body_links E = ∅ ->
      web_page E Lynks.pull_page_url
      = inr (pre ++ mac_zip ++ gap ++ list_ascii_of_string "href=" ++ q1
             :: nightly_host ++ u ++ q2 :: post) ->
      found_links E !! mac_zip = Some (nightly_host ++ u)
      /\ lookup_events E = [Get (Lynks.pull_api_url Lynks.REPO Lynks.PR_NUMBER);
                            Get Lynks.pull_page_url]
      /\ Lynks.install_or_update_from_pr E st
         = match outcome load_local_version st with
           | inl e => (inl e, st)
           | inr local =>
               let st1 :=
                 logged st [Get (Lynks.pull_api_url Lynks.REPO Lynks.PR_NUMBER);
                            Get Lynks.pull_page_url] in
               if truthy local then
                 match get local (list_ascii_of_string "download_url") with
                 | inl e => (inl e, st1)
                 | inr recorded =>
                     if eq_str recorded (nightly_host ++ u) then (inr tt, st1)
                     else install E (nightly_host ++ u) mac_zip
                            (pr_record (nightly_host ++ u)) st1
                 end
               else install E (nightly_host ++ u) mac_zip
                      (pr_record (nightly_host ++ u)) st1
           end)
  /\ (forall key target local,
        Lynks.get_os_key E = inr key ->
        Lynks.ARTIFACT_OS_MAP !! key = Some target ->
        outcome load_local_version st = inr local ->
        (found_links E = ∅ ->
         Lynks.install_or_update_from_pr E st
         = (inl Lynks.no_links_found, logged st (lookup_events E)))
        /\ (found_links E <> ∅ -> found_links E !! lower target = None ->
            Lynks.install_or_update_from_pr E st
            = (inl (RuntimeError
                      (list_ascii_of_string "Artifact for this OS ('" ++ lower target
                       ++ list_ascii_of_string "') not found. Available links: "
                       ++ join (list_ascii_of_string ", ")
                            (sorted (map fst (map_to_list (found_links E)))))),
               logged st (lookup_events E)))).
Proof.
  intros Hv Hlen Hnone Hq1 Hq2 Hu Hall Hpost.
  pose proof (nightly_links_of_page pre gap u post q1 q2 Hv Hlen Hnone Hq1 Hq2 Hu
                Hall Hpost) as Hlink.
  split; [exact Hlink|split].
  - intros Hsys Hbody Hpage.
    assert (Hf : found_links E !! mac_zip = Some (nightly_host ++ u)).
    { unfold found_links, page_links. by rewrite Hbody, is_empty_empty, Hpage. }
    assert (Hev : lookup_events E
                  = [Get (Lynks.pull_api_url Lynks.REPO Lynks.PR_NUMBER);
                     Get Lynks.pull_page_url])
      by (unfold lookup_events; by rewrite Hbody, is_empty_empty).
    split; [exact Hf|split; [exact Hev|]].
    destruct (darwin_target E Hsys) as (Hk & Ht).
    destruct (outcome load_local_version st) as [e|local] eqn:Hl.
    { rewrite lynks_eq, Hk. cbv beta iota.
      match goal with
      | |- context [@lookup ?K ?V ?M ?I ?k Lynks.ARTIFACT_OS_MAP] =>
          replace (@lookup K V M I k Lynks.ARTIFACT_OS_MAP) with (Some mac_zip)
            by (symmetry; exact Ht)
      end.
      cbv beta iota. by rewrite Hl. }
    rewrite (lynks_resolution E st _ _ local Hk Ht Hl). cbv zeta.
    change (lower mac_zip) with mac_zip.
    rewrite Hev, (is_empty_false _ _ _ Hf). rewrite_lookup Hf. reflexivity.
  - intros key target local Hk Ht Hl.
    rewrite (lynks_resolution E st _ _ local Hk Ht Hl). cbv zeta. split.
    + intros ->. by rewrite is_empty_empty.
    + intros Hne Hnone'. rewrite_lookup Hnone'.
      assert (Lynks.is_empty (found_links E) = false) as ->; [|done].
      unfold Lynks.is_empty. by apply bool_decide_eq_false.
Qed.

Lemma page_link_resolved_witness :
  visits Lynks.nightly_link (length (list_ascii_of_string "<li>"))
    (list_ascii_of_string "<li>" ++ mac_zip ++ list_ascii_of_string "</a> <a "
     ++ list_ascii_of_string "href=" ++ dquote :: nightly_host
     ++ list_ascii_of_string "a/b" ++ dquote :: list_ascii_of_string ">x") = true
  /\ Lynks.extract_nightly_links_from_html
       (list_ascii_of_string "<li>" ++ mac_zip ++ list_ascii_of_string "</a> <a "
        ++ list_ascii_of_string "href=" ++ dquote :: nightly_host
        ++ list_ascii_of_string "a/b" ++ dquote :: list_ascii_of_string ">x")
     !! mac_zip
     = Some (nightly_host ++ list_ascii_of_string "a/b").
Proof.
  assert (Hv : visits Lynks.nightly_link (length (list_ascii_of_string "<li>"))
                 (list_ascii_of_string "<li>" ++ mac_zip
                  ++ list_ascii_of_string "</a> <a "
                  ++ list_ascii_of_string "href=" ++ dquote :: nightly_host
                  ++ list_ascii_of_string "a/b" ++ dquote
                  :: list_ascii_of_string ">x") = true)
    by (vm_compute; reflexivity).
  assert (Hlen : length (list_ascii_of_string "</a> <a ") <= 200)
    by (simpl; lia).
  assert (Hnone : forall k, k < length (list_ascii_of_string "</a> <a ") ->
            Lynks.href_nightly
              (drop k (list_ascii_of_string "</a> <a "
                       ++ list_ascii_of_string "href=" ++ dquote :: nightly_host
                       ++ list_ascii_of_string "a/b" ++ dquote
                       :: list_ascii_of_string ">x")) = None).
  { intros k Hk. do 8 (destruct k as [|k]; [vm_compute; reflexivity|]).
    simpl in Hk. lia. }
  assert (Hq : Lynks.is_quote dquote = true) by reflexivity.
  assert (Hu : list_ascii_of_string "a/b" <> []) by discriminate.
  assert (Hall : Forall (fun c => url_char c = true) (list_ascii_of_string "a/b"))
    by (repeat constructor).
  assert (Hpost : Forall (fun m => html_key m <> Some mac_zip)
                    (finditer Lynks.nightly_link (list_ascii_of_string ">x")))
    by (vm_compute; constructor).
  split; [exact Hv|].
  exact (proj1 (page_link_resolved _ _ _ _ _ _
                  (offline (list_ascii_of_string "Darwin")) pristine
                  Hv Hlen Hnone Hq Hq Hu Hall Hpost)).
Defined.

(* ===================================================================== *)
(** ** Completed updates                                                  *)
(* ===================================================================== *)

(** A release or nightly run, by what it reads and what the remote
    answers. *)
Lemma script_eq (s : id_script) (E : env) (st : state) :
  In s identifier_scripts ->
  run s E st =
    match read_installed (state_key s) st with
    | inl e => (inl e, st)
    | inr installed =>
        match remote s E with
        | inl e => (inl e, logged st [Get (query_url s)])
        | inr r =>
            if eq_str installed (fst r) then
              if tidies_when_current s
              then clear_downloads (logged st [Get (query_url s)])
              else (inr tt, logged st [Get (query_url s)])
            else
              match plan s E (snd r) with
              | inl e => (inl e, logged st [Get (query_url s)])
              | inr target =>
                  install E (fst target) (snd target) (record_of s (fst r))
                    (logged st [Get (query_url s)])
              end
        end
    end.
Proof. intros Hin. rewrite (script_is_pipeline s E st Hin). apply pipeline_eq. Qed.

(** X1. A release or nightly run that reads an installed identifier
    other than the one the remote reports, on a platform for which the
    script finds an archive, with the transfer complete and the archive
    sound, succeeds after exactly five calls: the query, the download,
    the extraction, the write of version.json and the removal of the
    staging directory. It leaves the record of the remote identifier in
    version.json, no staging directory, and the members of the archive
    written over the installation. *)
Theorem update_installs (s : id_script) (E : env) (st : state) (installed : pyval)
  (id url file content : str) (l : list asset) (entries : list (str * str)) :
  In s identifier_scripts ->
  read_installed (state_key s) st = inr installed ->
  remote s E = inr (id, l) ->
  eq_str installed id = false ->
  plan s E l = inr (url, file) ->
  download E url = Complete content ->
  unzip E content = inr entries ->
  run s E st
  = (inr tt,
     updated st (record_of s id) entries
       (Get (query_url s) :: install_events url file (record_of s id))).
Proof.
  intros Hin Hi Hr He Hp Hd Hu.
  rewrite (script_eq s E st Hin), Hi, Hr. simpl. rewrite He, Hp. simpl.
  rewrite install_eq, Hd, Hu. unfold updated, unpacked, install_events. simpl.
  by rewrite <- app_assoc.
Qed.

Lemma update_installs_witness :
  In two_ship identifier_scripts
  /\ read_installed (state_key two_ship) pristine = inr PNone
  /\ remote two_ship (online (list_ascii_of_string "Linux"))
     = inr (tag_name release_v1, assets release_v1)
  /\ run two_ship (online (list_ascii_of_string "Linux")) pristine
     = (inr tt,
        updated pristine (record_of two_ship (tag_name release_v1))
          [(list_ascii_of_string "game.bin", list_ascii_of_string "bits")]
          (Get (query_url two_ship)
           :: install_events (list_ascii_of_string "https://example.org/game-v1-Linux.zip")
                (list_ascii_of_string "game-v1-Linux.zip")
                (record_of two_ship (tag_name release_v1)))).
Proof.
  assert (Hin : In two_ship identifier_scripts) by (simpl; tauto).
  assert (Hi : read_installed (state_key two_ship) pristine = inr PNone)
    by reflexivity.
  assert (Hr : remote two_ship (online (list_ascii_of_string "Linux"))
               = inr (tag_name release_v1, assets release_v1)) by reflexivity.
  split; [exact Hin|split; [exact Hi|split; [exact Hr|]]].
  refine (update_installs two_ship (online (list_ascii_of_string "Linux")) pristine
            PNone _ _ _ (list_ascii_of_string "PK") _ _ Hin Hi Hr _ _ _ _).
  - reflexivity.
  - vm_compute. reflexivity.
  - reflexivity.
  - reflexivity.
Defined.

(** X2. A run of the PR script on a platform of the map, with a link for
    the platform's file among those its lookups find, where version.json
    is absent, falsy or records another URL, with the transfer complete
    and the archive sound, succeeds: after the lookups it downloads the
    linked URL into the platform's file name, unpacks it, writes the
    record of the URL and removes the staging directory. *)
Theorem pr_update_installs (E : env) (st : state) (key target url content : str)
  (local : pyval) (entries : list (str * str)) :
  Lynks.get_os_key E = inr key ->
  Lynks.ARTIFACT_OS_MAP !! key = Some target ->
  outcome load_local_version st = inr local ->
  found_links E !! lower target = Some url ->
  (truthy local = false
   \/ exists recorded, get local (list_ascii_of_string "download_url") = inr recorded
                       /\ eq_str recorded url = false) ->
  download E url = Complete content ->
  unzip E content = inr entries ->
  Lynks.install_or_update_from_pr E st
  = (inr tt,
     updated st (pr_record url) entries
       (lookup_events E ++ install_events url (lower target) (pr_record url))).
Proof.
  intros Hk Ht Hl Hf Hn Hd Hu.
  rewrite lynks_eq, Hk, Ht, Hl. cbv zeta. rewrite Hf, (is_empty_false _ _ _ Hf).
  assert (Hgo : install E url (lower target) (pr_record url) (logged st (lookup_events E))
                = (inr tt,
                   updated st (pr_record url) entries
                     (lookup_events E
                      ++ install_events url (lower target) (pr_record url)))).
  { rewrite install_eq, Hd, Hu. unfold updated, unpacked, install_events. simpl.
    by rewrite <- app_assoc. }
  destruct Hn as [Hn | (recorded & Hg & Hn)].
  - by rewrite Hn.
  - rewrite Hg, Hn. by destruct (truthy local).
Qed.

Lemma pr_update_installs_witness :
  Lynks.get_os_key (api_down (list_ascii_of_string "Linux"))
  = inr (list_ascii_of_string "linux")
  /\ found_links (api_down (list_ascii_of_string "Linux")) !! lower linux_zip
     = Some (list_ascii_of_string "https://nightly.link/a/b")
  /\ Lynks.install_or_update_from_pr (api_down (list_ascii_of_string "Linux")) pristine
     = (inr tt,
        updated pristine (pr_record (list_ascii_of_string "https://nightly.link/a/b"))
          [(list_ascii_of_string "soh.elf", list_ascii_of_string "bits")]
          (lookup_events (api_down (list_ascii_of_string "Linux"))
           ++ install_events (list_ascii_of_string "https://nightly.link/a/b")
                (lower linux_zip)
                (pr_record (list_ascii_of_string "https://nightly.link/a/b")))).
Proof.
  assert (Hk : Lynks.get_os_key (api_down (list_ascii_of_string "Linux"))
               = inr (list_ascii_of_string "linux")) by (vm_compute; reflexivity).
  assert (Hf : found_links (api_down (list_ascii_of_string "Linux")) !! lower linux_zip
               = Some (list_ascii_of_string "https://nightly.link/a/b"))
    by (vm_compute; reflexivity).
  split; [exact Hk|split; [exact Hf|]].
  refine (pr_update_installs (api_down (list_ascii_of_string "Linux")) pristine
            (list_ascii_of_string "linux") linux_zip _ (list_ascii_of_string "PK")
            PNone _ Hk _ _ Hf _ _ _).
  - vm_compute. reflexivity.
  - reflexivity.
  - left. reflexivity.
  - reflexivity.
  - reflexivity.
Defined.

(* ===================================================================== *)
(** ** A run after a successful run                                       *)
(* ===================================================================== *)

(** What a run reads of version.json depends on the file alone. *)
Lemma load_version_file (st st' : state) :
  version_file st = version_file st' ->
  outcome load_local_version st = outcome load_local_version st'.
Proof.
  unfold outcome, load_local_version. intros ->.
  by repeat (step; simplify_eq/=).
Qed.

Lemma read_installed_version_file (key : str) (st st' : state) :
  version_file st = version_file st' ->
  read_installed key st = read_installed key st'.
Proof.
  unfold read_installed, outcome, bind, load_local_version, installed_field, lift,
    ret, raise.
  intros ->. by repeat (step; simplify_eq/=).
Qed.

(** The record a release or nightly script writes gives the identifier
    back under the key the script reads. *)
Lemma read_installed_record (s : id_script) (id : str) (st : state) :
  In s identifier_scripts ->
  version_file st = Some (json_dumps (record_of s id)) ->
  read_installed (state_key s) st = inr (PStr id).
Proof.
  intros Hin Hv.
  unfold read_installed, outcome, bind, load_local_version. rewrite Hv.
  rewrite loads_dumps.
  - in_list Hin; reflexivity.
  - in_list Hin; repeat constructor; apply reads_back_str.
Qed.

(** The record of the PR script gives the URL back. *)
Lemma load_pr_record (url : str) (st : state) :
  version_file st = Some (json_dumps (pr_record url)) ->
  outcome load_local_version st
  = inr (PDict [(list_ascii_of_string "download_url", PStr url);
                (list_ascii_of_string "repo", PStr Lynks.REPO);
                (list_ascii_of_string "pr_number", PInt Lynks.PR_NUMBER)]).
Proof.
  intros Hv. unfold outcome, load_local_version. rewrite Hv.
  rewrite loads_dumps; [reflexivity|].
  repeat constructor; cbn [snd];
    auto using reads_back_str, reads_back_pr_number.
Qed.

Lemma eq_str_refl (s : str) : eq_str (PStr s) s = true.
Proof. apply str_eqb_refl. Qed.

Lemma eq_str_true (v : pyval) (s : str) : eq_str v s = true -> v = PStr s.
Proof.
  destruct v; try done. unfold eq_str. by intros ->%str_eqb_eq.
Qed.

(** A release or nightly run after a successful run only repeats the
    query. *)
Lemma rerun_script (s : id_script) (E : env) (st : state) :
  In s identifier_scripts ->
  outcome (run s E) st = inr tt ->
  run s E (final (run s E) st)
  = (inr tt, logged (final (run s E) st) [Get (query_url s)]).
Proof.
  intros Hin. unfold outcome, final. rewrite (script_eq s E st Hin).
  destruct (read_installed (state_key s) st) as [e|installed] eqn:Hi; [done|].
  destruct (remote s E) as [e|[id l]] eqn:Hr; [done|]. simpl.
  destruct (eq_str installed id) eqn:He.
  - apply eq_str_true in He as ->.
    assert (Hgo : forall st', version_file st' = version_file st ->
                    downloads st' = None \/ tidies_when_current s = false ->
                    run s E st' = (inr tt, logged st' [Get (query_url s)])).
    { intros st' Hv Hd. rewrite (script_eq s E st' Hin).
      rewrite (read_installed_version_file _ st' st Hv), Hi, Hr. simpl.
      rewrite eq_str_refl. unfold clear_downloads. simpl.
      destruct Hd as [-> | ->]; [|done]. by destruct (tidies_when_current s). }
    destruct (tidies_when_current s) eqn:Ht; simpl.
    + intros _. apply Hgo.
      * unfold clear_downloads, rmtree_downloads, logged. simpl.
        by destruct (downloads st).
      * left. unfold clear_downloads, rmtree_downloads, logged. simpl.
        by destruct (downloads st).
    + intros _. apply Hgo; auto.
  - destruct (plan s E l) as [e|[url file]] eqn:Hp; [done|]. simpl.
    rewrite install_eq.
    destruct (download E url) as [e|e w|content] eqn:Hd; try done.
    destruct (unzip E content) as [e|entries] eqn:Hu; [done|].
    simpl. intros _.
    rewrite (script_eq s E _ Hin).
    rewrite (read_installed_record s id) by done.
    rewrite Hr. simpl. rewrite eq_str_refl. unfold clear_downloads. simpl.
    by destruct (tidies_when_current s).
Qed.

(** The PR script likewise only repeats its lookups. *)
Lemma rerun_pr_script (E : env) (st : state) :
  outcome (Lynks.install_or_update_from_pr E) st = inr tt ->
  Lynks.install_or_update_from_pr E (final (Lynks.install_or_update_from_pr E) st)
  = (inr tt, logged (final (Lynks.install_or_update_from_pr E) st) (lookup_events E)).
Proof.
  unfold outcome at 1, final. rewrite (lynks_eq E st).
  destruct (Lynks.get_os_key E) as [e|key] eqn:Hk; [done|].
  destruct (Lynks.ARTIFACT_OS_MAP !! key) as [target|] eqn:Ht; [|done].
  destruct (outcome load_local_version st) as [e|local] eqn:Hl; [done|]. cbv zeta.
  destruct (Lynks.is_empty (found_links E)) eqn:Hem; [done|].
  destruct (found_links E !! lower target) as [url|] eqn:Hf; [|done].
  assert (Hgo : forall st' d,
            outcome load_local_version st' = inr (PDict d) ->
            dict_get d (list_ascii_of_string "download_url") = Some (PStr url) ->
            Lynks.install_or_update_from_pr E st'
            = (inr tt, logged st' (lookup_events E))).
  { intros st' d Hl' Hd. by apply (up_to_date_pr_run E st' key target url d). }
  pose proof (install_eq E url (lower target) (pr_record url)
                (logged st (lookup_events E))) as Hin.
  destruct (truthy local) eqn:Htr.
  - destruct (get local (list_ascii_of_string "download_url")) as [e|recorded] eqn:Hg;
      [done|].
    destruct (eq_str recorded url) eqn:He.
    + simpl. intros _. apply eq_str_true in He as ->.
      destruct local; try done. apply (Hgo _ d).
      * rewrite <- Hl. by apply load_version_file.
      * unfold get in Hg. by destruct (dict_get d _); simplify_eq.
    + rewrite Hin.
      destruct (download E url) as [e|e w|content] eqn:Hd; try done.
      destruct (unzip E content) as [e|entries] eqn:Hu; [done|].
      simpl. intros _. eapply Hgo; [by apply load_pr_record|reflexivity].
  - rewrite Hin.
    destruct (download E url) as [e|e w|content] eqn:Hd; try done.
    destruct (unzip E content) as [e|entries] eqn:Hu; [done|].
    simpl. intros _. eapply Hgo; [by apply load_pr_record|reflexivity].
Qed.

(** X3. A run of any of the five scripts that follows a successful run in
    the same surroundings succeeds as well, makes only read requests (no
    download, extraction, write or removal) and leaves version.json, the
    staging directory and the installation as the first run left them. *)
Theorem rerun_changes_nothing (script : env -> M unit) (E : env) (st : state) :
  In script orchestrators ->
  outcome (script E) st = inr tt ->
  outcome (script E) (final (script E) st) = inr tt
  /\ Forall (fun ev => is_get ev = true)
       (run_events (script E) (final (script E) st))
  /\ version_file (final (script E) (final (script E) st))
     = version_file (final (script E) st)
  /\ downloads (final (script E) (final (script E) st))
     = downloads (final (script E) st)
  /\ installation (final (script E) (final (script E) st))
     = installation (final (script E) st).
Proof.
  intros Hin Ho.
  assert (Hre : exists evs, Forall (fun ev => is_get ev = true) evs
                  /\ script E (final (script E) st)
                     = (inr tt, logged (final (script E) st) evs)).
  { in_list Hin.
    - exists [Get (query_url two_ship)]. split; [by repeat constructor|].
      apply (rerun_script two_ship); [simpl; tauto|done].
    - exists [Get (query_url spaghettikart)]. split; [by repeat constructor|].
      apply (rerun_script spaghettikart); [simpl; tauto|done].
    - exists [Get (query_url soh_nightly)]. split; [by repeat constructor|].
      apply (rerun_script soh_nightly); [simpl; tauto|done].
    - exists [Get (query_url spaghettikart_nightly)].
      split; [by repeat constructor|].
      apply (rerun_script spaghettikart_nightly); [simpl; tauto|done].
    - exists (lookup_events E). split; [|by apply rerun_pr_script].
      unfold lookup_events. destruct (Lynks.is_empty _); by repeat constructor. }
  destruct Hre as (evs & Hevs & Hre).
  unfold run_events, outcome, final in *. rewrite Hre. simpl.
  by rewrite drop_trace.
Qed.

Lemma rerun_changes_nothing_witness :
  In TwoShip.install_or_update orchestrators
  /\ outcome (TwoShip.install_or_update (online (list_ascii_of_string "Linux")))
       pristine = inr tt
  /\ outcome (TwoShip.install_or_update (online (list_ascii_of_string "Linux")))
       (final (TwoShip.install_or_update (online (list_ascii_of_string "Linux")))
          pristine) = inr tt.
Proof.
  assert (Hin : In TwoShip.install_or_update orchestrators) by (simpl; tauto).
  assert (Ho : outcome (TwoShip.install_or_update
                          (online (list_ascii_of_string "Linux"))) pristine = inr tt)
    by (vm_compute; reflexivity).
  split; [exact Hin|split; [exact Ho|]].
  exact (proj1 (rerun_changes_nothing _ _ _ Hin Ho)).
Defined.

(* ===================================================================== *)
(** ** The course of a run                                                *)
(* ===================================================================== *)

Lemma logged_nil (st : state) : logged st [] = st.
Proof. destruct st. unfold logged. simpl. by rewrite app_nil_r. Qed.

Lemma lookup_events_get (E : env) :
  Forall (fun ev => is_get ev = true) (lookup_events E)
  /\ length (lookup_events E) <= 2.
Proof.
  unfold lookup_events. destruct (Lynks.is_empty _); simpl;
    (split; [by repeat constructor|lia]).
Qed.

(** Each entry point is a release or nightly script, or the PR script. *)
Lemma orchestrator_cases (script : env -> M unit) :
  In script orchestrators ->
  (exists s, In s identifier_scripts /\ script = run s)
  \/ script = Lynks.install_or_update_from_pr.
Proof.
  intros Hin. in_list Hin.
  - left. exists two_ship. simpl. tauto.
  - left. exists spaghettikart. simpl. tauto.
  - left. exists soh_nightly. simpl. tauto.
  - left. exists spaghettikart_nightly. simpl. tauto.
  - by right.
Qed.

(** Every run is a series of at most two read requests followed by one of
    three things: a stop with some outcome (an error when nothing was
    asked), the removal of the staging directory, or an installation. *)
Lemma run_cases (script : env -> M unit) (E : env) (st : state) :
  In script orchestrators ->
  exists gets,
    Forall (fun ev => is_get ev = true) gets
    /\ length gets <= 2
    /\ ((exists r, script E st = (r, logged st gets) /\ (gets = [] -> failed r))
        \/ (gets <> [] /\ script E st = clear_downloads (logged st gets))
        \/ (gets <> []
            /\ exists url file d,
                 script E st = install E url file d (logged st gets))).
Proof.
  intros Hin.
  destruct (orchestrator_cases script Hin) as [(s & Hs & ->) | ->].
  - rewrite (script_eq s E st Hs).
    destruct (read_installed (state_key s) st) as [e|installed].
    { exists []. rewrite logged_nil. split; [constructor|split; [simpl; lia|]].
      left. by exists (inl e). }
    exists [Get (query_url s)]. split; [by repeat constructor|].
    split; [simpl; lia|].
    destruct (remote s E) as [e|r]; [left; by exists (inl e)|].
    destruct (eq_str installed (fst r)).
    + destruct (tidies_when_current s); [by right; left|left; by exists (inr tt)].
    + destruct (plan s E (snd r)) as [e|target]; [left; by exists (inl e)|].
      right; right. split; [done|]. by eexists _, _, _.
  - rewrite lynks_eq.
    destruct (Lynks.get_os_key E) as [e|key].
    { exists []. rewrite logged_nil. split; [constructor|split; [simpl; lia|]].
      left. by exists (inl e). }
    destruct (Lynks.ARTIFACT_OS_MAP !! key) as [target|].
    2: { exists []. rewrite logged_nil. split; [constructor|split; [simpl; lia|]].
         left. by exists (inl (KeyError key)). }
    destruct (outcome load_local_version st) as [e|local].
    { exists []. rewrite logged_nil. split; [constructor|split; [simpl; lia|]].
      left. by exists (inl e). }
    cbv zeta. exists (lookup_events E).
    destruct (lookup_events_get E) as (Hg & Hl).
    split; [done|split; [done|]].
    assert (Hne : lookup_events E = [] -> False) by (unfold lookup_events; done).
    destruct (Lynks.is_empty (found_links E)); [left; by eexists|].
    destruct (found_links E !! lower target) as [url|]; [|left; by eexists].
    assert (Hi : lookup_events E <> []
                 /\ exists url0 file d,
                      install E url (lower target) (pr_record url)
                        (logged st (lookup_events E))
                      = install E url0 file d (logged st (lookup_events E)))
      by (split; [done|by eexists _, _, _]).
    destruct (truthy local); [|by right; right].
    destruct (get local _) as [e|recorded]; [left; by eexists|].
    destruct (eq_str recorded url); [left; by eexists|by right; right].
Qed.

(** The calls and the outcome of each of the three. *)
Lemma stop_events (st : state) (gets : list event) :
  drop (length (trace st)) (trace (logged st gets)) = gets.
Proof. unfold logged. simpl. apply drop_trace. Qed.

Lemma tidy_cases (st : state) (gets : list event) :
  (downloads st = None
   /\ clear_downloads (logged st gets) = (inr tt, logged st gets))
  \/ (downloads st <> None
      /\ clear_downloads (logged st gets)
         = (inr tt, {| version_file := version_file st; downloads := None;
                       installation := installation st;
                       trace := trace st ++ gets ++ [Clear] |})).
Proof.
  unfold clear_downloads, rmtree_downloads, logged. simpl.
  destruct (downloads st); [right|left]; split; try done.
  by rewrite <- app_assoc.
Qed.

Lemma install_cases (E : env) (url file : str) (d : list (str * scalar))
  (st : state) (gets : list event) :
  let r := install E url file d (logged st gets) in
  version_file (snd r)
  = match fst r with inr _ => Some (json_dumps d) | inl _ => version_file st end
  /\ downloads (snd r)
     = match fst r with
       | inr _ => None
       | inl _ => Some (staged_by (download E url) file (default ∅ (downloads st)))
       end
  /\ match download E url with
     | Refused e => fst r = inl e /\ trace (snd r) = trace st ++ gets ++ [Download url]
                    /\ installation (snd r) = installation st
     | Aborted e _ =>
         fst r = inl e /\ trace (snd r) = trace st ++ gets ++ [Download url]
         /\ installation (snd r) = installation st
     | Complete content =>
         match unzip E content with
         | inl e =>
             fst r = inl e
             /\ trace (snd r) = trace st ++ gets ++ [Download url; Extract file]
             /\ installation (snd r) = installation st
         | inr entries =>
             fst r = inr tt
             /\ trace (snd r)
                = trace st ++ gets ++ [Download url; Extract file;
                                       Save (json_dumps d); Clear]
             /\ installation (snd r) = unpacked (installation st) entries
         end
     end.
Proof.
  intros r. subst r. rewrite install_eq. unfold logged, staged, staged_by, unpacked.
  destruct (download E url) as [e|e w|content]; simpl;
    rewrite <- ?app_assoc; try done.
  destruct (unzip E content) as [e|entries]; simpl; rewrite <- ?app_assoc; done.
Qed.

(** X4. The calls of a run of any of the five scripts are at most two
    read requests followed by one of five endings, each with its outcome:
    nothing more; the removal of the staging directory, in a successful
    run; a download, in a failed run; a download and an extraction, in a
    failed run; a download, an extraction, the write of version.json and
    the removal of the staging directory, in a successful run. A run
    that has asked nothing has done nothing else and has failed. *)
Theorem run_shape (script : env -> M unit) (E : env) (st : state) :
  In script orchestrators ->
  exists gets tail,
    run_events (script E) st = gets ++ tail
    /\ Forall (fun ev => is_get ev = true) gets
    /\ length gets <= 2
    /\ ending (outcome (script E) st) tail
    /\ (gets = [] -> tail = [] /\ failed (outcome (script E) st)).
Proof.
  intros Hin.
  destruct (run_cases script E st Hin)
    as (gets & Hg & Hl & [(r & Hr & Hf) | [(Hne & Hr) | (Hne & url & file & d & Hr)]]).
  - exists gets, []. unfold run_events, outcome, final. rewrite Hr. simpl.
    rewrite drop_trace, app_nil_r. repeat split; auto.
  - unfold run_events, outcome, final. rewrite Hr.
    destruct (tidy_cases st gets) as [(_ & ->) | (_ & ->)]; simpl.
    + exists gets, []. rewrite drop_trace, app_nil_r. repeat split; done.
    + exists gets, [Clear]. rewrite drop_trace. repeat split; done.
  - unfold run_events, outcome, final. rewrite Hr.
    destruct (install_cases E url file d st gets) as (_ & _ & H).
    destruct (download E url) as [e|e w|content].
    + destruct H as (-> & -> & _). exists gets, [Download url].
      rewrite drop_trace. repeat split; done.
    + destruct H as (-> & -> & _). exists gets, [Download url].
      rewrite drop_trace. repeat split; done.
    + destruct (unzip E content) as [e|entries].
      * destruct H as (-> & -> & _). exists gets, [Download url; Extract file].
        rewrite drop_trace. repeat split; done.
      * destruct H as (-> & -> & _).
        exists gets, [Download url; Extract file; Save (json_dumps d); Clear].
        rewrite drop_trace. repeat split; done.
Qed.

Lemma run_shape_witness :
  In SohNightly.install_latest_nightly orchestrators
  /\ exists gets tail,
       run_events (SohNightly.install_latest_nightly
                     (online (list_ascii_of_string "Linux"))) pristine
       = gets ++ tail
       /\ Forall (fun ev => is_get ev = true) gets
       /\ length gets <= 2
       /\ ending (outcome (SohNightly.install_latest_nightly
                             (online (list_ascii_of_string "Linux"))) pristine) tail
       /\ (gets = [] ->
           tail = []
           /\ failed (outcome (SohNightly.install_latest_nightly
                                 (online (list_ascii_of_string "Linux"))) pristine)).
Proof.
  assert (Hin : In SohNightly.install_latest_nightly orchestrators)
    by (simpl; tauto).
  split; [exact Hin|].
  exact (run_shape _ (online (list_ascii_of_string "Linux")) pristine Hin).
Defined.

(* ===================================================================== *)
(** ** The staging directory and the installation after a run             *)
(* ===================================================================== *)

Lemma gets_no_save (gets : list event) (t : str) :
  Forall (fun ev => is_get ev = true) gets -> ~ In (Save t) gets.
Proof.
  intros Hg Hin. rewrite Forall_forall in Hg.
  apply list_elem_of_In in Hin. by apply Hg in Hin.
Qed.



(** X5. After a successful run of any of the five scripts the staging
    directory is gone, or else the run only made read requests and the
    directory is as it was; after a successful run of a nightly script,
    and after every run that wrote version.json, it is gone. *)
Theorem staging_after_success (script : env -> M unit) (E : env) (st : state) :
  In script orchestrators ->
  outcome (script E) st = inr tt ->
  (downloads (final (script E) st) = None
   \/ (downloads (final (script E) st) = downloads st
       /\ Forall (fun ev => is_get ev = true) (run_events (script E) st)))
  /\ (In script nightly_orchestrators -> downloads (final (script E) st) = None)
  /\ (forall t, In (Save t) (run_events (script E) st) ->
        downloads (final (script E) st) = None).
Proof.
  intros Hin Ho. split; [|split].
  - destruct (run_cases script E st Hin)
      as (gets & Hg & _ & [(r & Hr & _) | [(_ & Hr) | (_ & url & file & d & Hr)]]).
    + right. unfold run_events, final. rewrite Hr. simpl. by rewrite drop_trace.
    + unfold run_events, final. rewrite Hr.
      destruct (tidy_cases st gets) as [(Hd & ->) | (_ & ->)]; simpl; auto.
    + left. unfold outcome, final in *. rewrite Hr in *.
      destruct (install_cases E url file d st gets) as (_ & -> & _).
      by rewrite Ho.
  - intros Hn. unfold outcome, final in *.
    assert (Hs : exists s, In s identifier_scripts /\ script = run s
                           /\ tidies_when_current s = true).
    { in_list Hn; [exists soh_nightly|exists spaghettikart_nightly]; simpl; tauto. }
    destruct Hs as (s & Hs & -> & Ht).
    rewrite (script_eq s E st Hs) in *.
    destruct (read_installed (state_key s) st) as [e|installed]; [done|].
    destruct (remote s E) as [e|r]; [done|].
    destruct (eq_str installed (fst r)).
    + rewrite Ht.
      by destruct (tidy_cases st [Get (query_url s)]) as [(Hd & ->) | (_ & ->)].
    + destruct (plan s E (snd r)) as [e|target]; [done|].
      destruct (install_cases E (fst target) (snd target) (record_of s (fst r)) st
                  [Get (query_url s)]) as (_ & -> & _).
      by rewrite Ho.
  - intros t.
    destruct (run_cases script E st Hin)
      as (gets & Hg & _ & [(r & Hr & _) | [(_ & Hr) | (_ & url & file & d & Hr)]]).
    + unfold run_events, final. rewrite Hr. simpl. rewrite drop_trace.
      intros H. by apply gets_no_save in H.
    + unfold run_events, final. rewrite Hr.
      by destruct (tidy_cases st gets) as [(Hd & ->) | (_ & ->)].
    + intros _. unfold outcome, final in *. rewrite Hr in *.
      destruct (install_cases E url file d st gets) as (_ & -> & _).
      by rewrite Ho.
Qed.

Lemma staging_after_success_witness :
  In SohNightly.install_latest_nightly orchestrators
  /\ outcome (SohNightly.install_latest_nightly
                (online (list_ascii_of_string "Linux"))) leftover = inr tt
  /\ In SohNightly.install_latest_nightly nightly_orchestrators
  /\ downloads (final (SohNightly.install_latest_nightly
                         (online (list_ascii_of_string "Linux"))) leftover)
     = None.
Proof.
  assert (Hin : In SohNightly.install_latest_nightly orchestrators)
    by (simpl; tauto).
  assert (Ho : outcome (SohNightly.install_latest_nightly
                          (online (list_ascii_of_string "Linux"))) leftover
               = inr tt) by (vm_compute; reflexivity).
  assert (Hn : In SohNightly.install_latest_nightly nightly_orchestrators)
    by (simpl; tauto).
  split; [exact Hin|split; [exact Ho|split; [exact Hn|]]].
  exact (proj1 (proj2 (staging_after_success _ _ _ Hin Ho)) Hn).
Defined.






(* ===================================================================== *)
(** ** The archive a run fetches                                          *)
(* ===================================================================== *)

Lemma ascii_eqb_eq (a b : ascii) : ascii_eqb a b = true <-> a = b.
Proof. unfold ascii_eqb. apply bool_decide_eq_true. Qed.

(** [startswith], [endswith] and [in] are what their names say. *)
Lemma startswith_spec (s p : str) : startswith s p = true <-> exists r, s = p ++ r.
Proof.
  revert s. induction p as [|a p IH]; intros s; simpl.
  { split; [intros _; by exists s|done]. }
  destruct s as [|b s].
  { split; [done|]. by intros (r & [=]). }
  rewrite andb_true_iff, ascii_eqb_eq, IH. split.
  - intros (-> & r & ->). by exists r.
  - intros (r & [= -> ->]). split; [done|by exists r].
Qed.

Lemma endswith_spec (s suffix : str) : endswith s suffix = true <-> ends_with s suffix.
Proof.
  unfold endswith, ends_with. rewrite startswith_spec. split.
  - intros (r & Hr). exists (rev r).
    apply (f_equal (@rev ascii)) in Hr. by rewrite rev_involutive, rev_app_distr,
      rev_involutive in Hr.
  - intros (p & ->). exists (rev p). by rewrite rev_app_distr.
Qed.

Lemma contains_spec (sub s : str) : contains sub s = true <-> occurs_in sub s.
Proof.
  unfold occurs_in. induction s as [|c s IH].
  - change (contains sub []) with (startswith [] sub || false).
    rewrite orb_false_r, startswith_spec. split.
    + intros (r & Hr). by exists [], r.
    + intros (a & b & H). symmetry in H.
      apply app_eq_nil in H as (-> & H). apply app_eq_nil in H as (-> & ->).
      by exists [].
  - change (contains sub (c :: s)) with (startswith (c :: s) sub || contains sub s).
    rewrite orb_true_iff, IH, startswith_spec. split.
    + intros [(r & ->) | (a & b & ->)]; [by exists [], r|by exists (c :: a), b].
    + intros ([|c' a] & b & H); [left; by exists b|].
      right. injection H as -> ->. by exists a, b.
Qed.

Lemma endswith_false (s suffix : str) : endswith s suffix = false <-> ~ ends_with s suffix.
Proof. rewrite <- endswith_spec. by destruct (endswith s suffix). Qed.

(** The head of a filtered list is the first element that passes. *)
Lemma filter_head {A} (f : A -> bool) (l : list A) (a : A) (r : list A) :
  List.filter f l = a :: r ->
  exists pre post, l = pre ++ a :: post /\ Forall (fun b => f b = false) pre
                   /\ f a = true.
Proof.
  induction l as [|x l IH]; simpl; [done|].
  destruct (f x) eqn:Hx.
  - intros [= -> <-]. exists [], l. by repeat split.
  - intros (pre & post & -> & Hp & Ha)%IH. exists (x :: pre), post.
    repeat split; try done. by constructor.
Qed.

Lemma filter_nil {A} (f : A -> bool) (l : list A) :
  List.filter f l = [] <-> Forall (fun b => f b = false) l.
Proof.
  induction l as [|x l IH]; simpl; [by split|].
  destruct (f x) eqn:Hx.
  - split; [done|]. intros H. inversion H; congruence.
  - rewrite IH. split; [by constructor|by inversion 1].
Qed.

(** A release or nightly run downloads what its plan names for the
    release the remote reports, and unpacks the file the plan names. *)
Lemma script_download (s : id_script) (E : env) (st : state) (u : str) :
  In s identifier_scripts ->
  In (Download u) (run_events (run s E) st) ->
  exists r file,
    remote s E = inr r /\ plan s E (snd r) = inr (u, file)
    /\ forall f, In (Extract f) (run_events (run s E) st) -> f = file.
Proof.
  intros Hin. unfold run_events, final. rewrite (script_eq s E st Hin).
  destruct (read_installed (state_key s) st) as [e|installed].
  { simpl. by rewrite drop_trace_nil. }
  destruct (remote s E) as [e|r].
  { simpl. rewrite drop_trace. by intros [|[]]. }
  destruct (eq_str installed (fst r)).
  { destruct (tidies_when_current s).
    - destruct (tidy_cases st [Get (query_url s)]) as [(_ & ->) | (_ & ->)];
        simpl; rewrite drop_trace; simpl; intuition discriminate.
    - simpl. rewrite drop_trace. by intros [|[]]. }
  destruct (plan s E (snd r)) as [e|[url file]] eqn:Hp.
  { simpl. rewrite drop_trace. by intros [|[]]. }
  simpl.
  destruct (install_cases E url file (record_of s (fst r)) st [Get (query_url s)])
    as (_ & _ & H).
  set (res := install E url file (record_of s (fst r))
                (logged st [Get (query_url s)])) in *.
  assert (Hev : exists tail,
            trace (snd res) = trace st ++ [Get (query_url s)] ++ tail
            /\ (forall u', In (Download u') tail -> u' = url)
            /\ (forall f, In (Extract f) tail -> f = file)).
  { destruct (download E url) as [e|e w|content];
      [| |destruct (unzip E content) as [e|entries]];
      destruct H as (_ & Ht & _); eexists; (split; [exact Ht|]);
      simpl; intuition congruence. }
  destruct Hev as (tail & -> & Hd & He). rewrite drop_trace. simpl.
  intros [[=]|Hi]. apply Hd in Hi as ->. exists r, file.
  split; [done|split; [done|]]. intros f [[=]|Hf]. by apply He.
Qed.

(** X8. A run of a nightly script downloads from one of three fixed
    addresses only, the one that goes with the platform: the workflow
    page of the branch on nightly.link followed by the name of the
    platform's archive, whatever the remote answers. *)
Theorem nightly_download_urls (E : env) (st : state) (u : str) :
  (In (Download u) (run_events (SohNightly.install_latest_nightly E) st) ->
   In (lower (platform_system E), u) soh_nightly_urls)
  /\ (In (Download u) (run_events (SpaghettikartNightly.install_latest_nightly E) st) ->
      In (lower (platform_system E), u) spaghettikart_nightly_urls).
Proof.
  split; intros Hd.
  - apply (script_download soh_nightly) in Hd as (r & file & _ & Hp & _);
      [|simpl; tauto].
    simpl in Hp. unfold nightly_plan, SohNightly.get_os_zip_name in Hp.
    repeat (destruct (str_eqb _ _) eqn:Hs in Hp;
            [apply str_eqb_eq in Hs as ->; injection Hp as <- _;
             vm_compute; tauto|clear Hs]).
    done.
  - apply (script_download spaghettikart_nightly) in Hd as (r & file & _ & Hp & _);
      [|simpl; tauto].
    simpl in Hp. unfold nightly_plan, SpaghettikartNightly.get_os_zip_name in Hp.
    repeat (destruct (str_eqb _ _) eqn:Hs in Hp;
            [apply str_eqb_eq in Hs as ->; injection Hp as <- _;
             vm_compute; tauto|clear Hs]).
    done.
Qed.

Lemma nightly_download_urls_witness :
  In (Download (list_ascii_of_string
        "https://nightly.link/HarbourMasters/Shipwright/workflows/generate-builds/develop/soh-linux.zip"))
     (run_events (SohNightly.install_latest_nightly
                    (online (list_ascii_of_string "Linux"))) pristine)
  /\ In (lower (platform_system (online (list_ascii_of_string "Linux"))),
         list_ascii_of_string
           "https://nightly.link/HarbourMasters/Shipwright/workflows/generate-builds/develop/soh-linux.zip")
       soh_nightly_urls.
Proof.
  assert (Hd : In (Download (list_ascii_of_string
                     "https://nightly.link/HarbourMasters/Shipwright/workflows/generate-builds/develop/soh-linux.zip"))
                 (run_events (SohNightly.install_latest_nightly
                                (online (list_ascii_of_string "Linux"))) pristine))
    by (vm_compute; tauto).
  split; [exact Hd|].
  exact (proj1 (nightly_download_urls (online (list_ascii_of_string "Linux")) pristine _)
           Hd).
Defined.

(** The boolean tests of the list comprehensions decide the two
    candidate conditions. *)
Lemma two_ship_candidate_spec (target_word : str) (a : asset) :
  endswith (lower (name a))
    (list_ascii_of_string "-" ++ target_word ++ list_ascii_of_string ".zip") = true
  <-> two_ship_candidate target_word a.
Proof. apply endswith_spec. Qed.

Lemma spaghettikart_candidate_spec (os_tag : str) (a : asset) :
  contains os_tag (lower (name a))
  && endswith (lower (name a)) (list_ascii_of_string ".zip") = true
  <-> spaghettikart_candidate os_tag a.
Proof.
  unfold spaghettikart_candidate.
  by rewrite andb_true_iff, contains_spec, endswith_spec.
Qed.

Lemma first_asset_candidate (P : asset -> Prop) (f : asset -> bool) (l : list asset)
  (none : exn) (u file : str) :
  (forall a, f a = true <-> P a) ->
  first_asset (List.filter f l) none = inr (u, file) ->
  exists a, first_candidate P l a /\ u = browser_download_url a /\ file = name a.
Proof.
  intros Hf. unfold first_asset.
  destruct (List.filter f l) as [|a r] eqn:Hl; [done|].
  intros [= <- <-]. exists a. split; [|done].
  apply filter_head in Hl as (pre & post & -> & Hpre & Ha).
  exists pre, post. split; [done|]. split; [|by apply Hf].
  eapply Forall_impl; [exact Hpre|]. intros b Hb HP. apply Hf in HP. congruence.
Qed.

(** X9. What a release script downloads is an asset of the release the
    remote reports: the first, in the order of the listing, that passes
    the script's test on the lower-cased name. For 2ship the name ends
    with a hyphen, the lower-cased word of the platform and [.zip]; for
    Spaghettikart the name contains the tag of the platform and ends with
    [.zip], the release being the first of the listing. The archive is
    fetched from the asset's download URL and unpacked from a file of the
    asset's name. *)
Theorem release_download_is_first_candidate (E : env) (st : state) (u : str) :
  (In (Download u) (run_events (TwoShip.install_or_update E) st) ->
   exists rel word a,
     api_release E TwoShip.releases_latest_url = inr rel
     /\ TwoShip.get_os_target_word E = inr word
     /\ first_candidate (two_ship_candidate (lower word)) (assets rel) a
     /\ u = browser_download_url a
     /\ forall f, In (Extract f) (run_events (TwoShip.install_or_update E) st) ->
          f = name a)
  /\ (In (Download u) (run_events (Spaghettikart.install_or_update E) st) ->
      exists rel rest os_tag a,
        api_releases E Spaghettikart.releases_url = inr (rel :: rest)
        /\ Spaghettikart.get_os_tag E = inr os_tag
        /\ first_candidate (spaghettikart_candidate os_tag) (assets rel) a
        /\ u = browser_download_url a
        /\ forall f, In (Extract f) (run_events (Spaghettikart.install_or_update E) st) ->
             f = name a).
Proof.
  split; intros Hd.
  - apply (script_download two_ship) in Hd as (r & file & Hr & Hp & He);
      [|simpl; tauto].
    simpl in Hr, Hp.
    destruct (api_release E TwoShip.releases_latest_url) as [e|rel]; [done|].
    injection Hr as <-. simpl in Hp.
    destruct (TwoShip.get_os_target_word E) as [e|word]; [done|].
    apply (first_asset_candidate (two_ship_candidate (lower word))) in Hp
      as (a & Ha & -> & ->); [|intros a; apply two_ship_candidate_spec].
    by exists rel, word, a.
  - apply (script_download spaghettikart) in Hd as (r & file & Hr & Hp & He);
      [|simpl; tauto].
    simpl in Hr, Hp.
    destruct (api_releases E Spaghettikart.releases_url) as [e|[|rel rest]];
      try done.
    injection Hr as <-. simpl in Hp.
    destruct (Spaghettikart.get_os_tag E) as [e|os_tag]; [done|].
    apply (first_asset_candidate (spaghettikart_candidate os_tag)) in Hp
      as (a & Ha & -> & ->); [|intros a; apply spaghettikart_candidate_spec].
    by exists rel, rest, os_tag, a.
Qed.

Lemma release_download_is_first_candidate_witness :
  In (Download (list_ascii_of_string "https://example.org/game-v1-Linux.zip"))
     (run_events (TwoShip.install_or_update (online (list_ascii_of_string "Linux")))
        pristine)
  /\ exists rel word a,
       api_release (online (list_ascii_of_string "Linux")) TwoShip.releases_latest_url
       = inr rel
       /\ TwoShip.get_os_target_word (online (list_ascii_of_string "Linux")) = inr word
       /\ first_candidate (two_ship_candidate (lower word)) (assets rel) a
       /\ list_ascii_of_string "https://example.org/game-v1-Linux.zip"
          = browser_download_url a
       /\ forall f,
            In (Extract f)
              (run_events (TwoShip.install_or_update
                             (online (list_ascii_of_string "Linux"))) pristine) ->
            f = name a.
Proof.
  assert (Hd : In (Download (list_ascii_of_string
                               "https://example.org/game-v1-Linux.zip"))
                 (run_events (TwoShip.install_or_update
                                (online (list_ascii_of_string "Linux"))) pristine))
    by (vm_compute; tauto).
  split; [exact Hd|].
  exact (proj1 (release_download_is_first_candidate
                  (online (list_ascii_of_string "Linux")) pristine _) Hd).
Defined.

(** X10. A release run that finds another identifier than the installed
    one, on a platform it knows, and no asset of the release that passes
    its test (so also a release without assets) fails after the query
    alone with the error that names the word or tag searched for; nothing
    is downloaded and no file is touched. *)
Theorem no_matching_asset (E : env) (st : state) (installed : pyval) :
  (forall rel word,
     read_installed (list_ascii_of_string "installed_version") st = inr installed ->
     api_release E TwoShip.releases_latest_url = inr rel ->
     eq_str installed (tag_name rel) = false ->
     TwoShip.get_os_target_word E = inr word ->
     Forall (fun a => ~ two_ship_candidate (lower word) a) (assets rel) ->
     TwoShip.install_or_update E st
     = (inl (RuntimeError (list_ascii_of_string "No matching asset for OS '"
                           ++ lower word ++ list_ascii_of_string "'")),
        logged st [Get TwoShip.releases_latest_url]))
  /\ (forall rel rest os_tag,
        read_installed (list_ascii_of_string "installed_version") st = inr installed ->
        api_releases E Spaghettikart.releases_url = inr (rel :: rest) ->
        eq_str installed (tag_name rel) = false ->
        Spaghettikart.get_os_tag E = inr os_tag ->
        Forall (fun a => ~ spaghettikart_candidate os_tag a) (assets rel) ->
        Spaghettikart.install_or_update E st
        = (inl (RuntimeError (list_ascii_of_string "No asset found for: " ++ os_tag)),
           logged st [Get Spaghettikart.releases_url])).
Proof.
  split.
  - intros rel word Hi Hr He Hw Hn.
    assert (Hi' : read_installed (state_key two_ship) st = inr installed)
      by exact Hi.
    assert (Hr' : remote two_ship E = inr (tag_name rel, assets rel))
      by (simpl; by rewrite Hr).
    assert (Hp : plan two_ship E (assets rel)
                 = inl (RuntimeError (list_ascii_of_string "No matching asset for OS '"
                                      ++ lower word ++ list_ascii_of_string "'"))).
    { simpl. rewrite Hw.
      replace (List.filter _ (assets rel)) with (@nil asset); [done|].
      symmetry. apply filter_nil. eapply Forall_impl; [exact Hn|].
      intros a Ha. apply not_true_is_false. intros Hc. apply Ha.
      by apply two_ship_candidate_spec. }
    change (TwoShip.install_or_update E st) with (run two_ship E st).
    rewrite script_eq by (simpl; tauto).
    rewrite Hi', Hr'. cbn [fst snd]. by rewrite He, Hp.
  - intros rel rest os_tag Hi Hr He Hw Hn.
    assert (Hi' : read_installed (state_key spaghettikart) st = inr installed)
      by exact Hi.
    assert (Hr' : remote spaghettikart E = inr (tag_name rel, assets rel))
      by (simpl; by rewrite Hr).
    assert (Hp : plan spaghettikart E (assets rel)
                 = inl (RuntimeError (list_ascii_of_string "No asset found for: "
                                      ++ os_tag))).
    { simpl. rewrite Hw.
      replace (List.filter _ (assets rel)) with (@nil asset); [done|].
      symmetry. apply filter_nil. eapply Forall_impl; [exact Hn|].
      intros a Ha. apply not_true_is_false. intros Hc. apply Ha.
      by apply spaghettikart_candidate_spec. }
    change (Spaghettikart.install_or_update E st) with (run spaghettikart E st).
    rewrite script_eq by (simpl; tauto).
    rewrite Hi', Hr'. cbn [fst snd]. by rewrite He, Hp.
Qed.

Lemma no_matching_asset_witness :
  read_installed (list_ascii_of_string "installed_version") pristine = inr PNone
  /\ Forall (fun a => ~ two_ship_candidate (lower (list_ascii_of_string "Linux")) a)
       (assets release_v2_notes)
  /\ TwoShip.install_or_update (without_archive (list_ascii_of_string "Linux")) pristine
     = (inl (RuntimeError (list_ascii_of_string "No matching asset for OS '"
                           ++ lower (list_ascii_of_string "Linux")
                           ++ list_ascii_of_string "'")),
        logged pristine [Get TwoShip.releases_latest_url]).
Proof.
  assert (Hi : read_installed (list_ascii_of_string "installed_version") pristine
               = inr PNone) by reflexivity.
  assert (Hn : Forall (fun a => ~ two_ship_candidate
                                    (lower (list_ascii_of_string "Linux")) a)
                 (assets release_v2_notes)).
  { repeat constructor. apply endswith_false. vm_compute. reflexivity. }
  split; [exact Hi|split; [exact Hn|]].
  refine (proj1 (no_matching_asset (without_archive (list_ascii_of_string "Linux"))
                   pristine PNone) release_v2_notes (list_ascii_of_string "Linux")
            Hi _ _ _ Hn); reflexivity.
Defined.

(* ===================================================================== *)
(** ** What a run makes of version.json                                   *)
(* ===================================================================== *)

Lemma install_agree (E : env) (url file : str) (d : list (str * scalar))
  (st st' : state) (gets : list event) :
  same_files st st' ->
  fst (install E url file d (logged st gets))
  = fst (install E url file d (logged st' gets))
  /\ same_files (snd (install E url file d (logged st gets)))
       (snd (install E url file d (logged st' gets))).
Proof.
  intros (Hd & Hi & Ht). rewrite !install_eq. unfold same_files, logged, staged.
  destruct (download E url) as [e|e w|content]; simpl; rewrite ?Hd, ?Hi, ?Ht;
    try done.
  destruct (unzip E content) as [e|entries]; simpl; rewrite ?Hd, ?Hi, ?Ht; done.
Qed.

Lemma tidy_agree (st st' : state) (gets : list event) :
  same_files st st' ->
  fst (clear_downloads (logged st gets)) = fst (clear_downloads (logged st' gets))
  /\ same_files (snd (clear_downloads (logged st gets)))
       (snd (clear_downloads (logged st' gets))).
Proof.
  intros (Hd & Hi & Ht). unfold same_files, clear_downloads, rmtree_downloads, logged.
  simpl. rewrite Hd. destruct (downloads st'); simpl; rewrite ?Hi, ?Ht; done.
Qed.

Lemma logged_agree (st st' : state) (gets : list event) :
  same_files st st' -> same_files (logged st gets) (logged st' gets).
Proof. intros (Hd & Hi & Ht). unfold same_files, logged. simpl. by rewrite Hd, Hi, Ht. Qed.

(** Two results with equal outcomes and equal files are the same run. *)
Lemma same_run_intro (m : M unit) (st st' : state) :
  same_files st st' ->
  fst (m st) = fst (m st') -> same_files (snd (m st)) (snd (m st')) ->
  same_run m st st'.
Proof.
  intros (_ & _ & Ht) Ho (Hd & Hi & Ht').
  unfold same_run, run_events, outcome, final. by rewrite Ho, Hd, Hi, Ht, Ht'.
Qed.

(** A release or nightly run depends on version.json through the
    installed identifier it reads alone. *)
Lemma script_agree (s : id_script) (E : env) (st st' : state) :
  In s identifier_scripts ->
  same_files st st' ->
  (exists installed, read_installed (state_key s) st = inr installed
                     /\ read_installed (state_key s) st' = inr installed) ->
  same_run (run s E) st st'.
Proof.
  intros Hin Hs (installed & Hi & Hi'). apply same_run_intro; [done|..];
    rewrite !(script_eq s E _ Hin), Hi, Hi'.
  all: destruct (remote s E) as [e|r]; [by try apply logged_agree|].
  all: destruct (eq_str installed (fst r)).
  1,3: destruct (tidies_when_current s);
    [by apply tidy_agree|by try apply logged_agree].
  all: destruct (plan s E (snd r)) as [e|target]; [by try apply logged_agree|].
  all: by apply install_agree.
Qed.

(** The PR script depends on version.json through its test for a current
    installation alone. *)
Lemma lynks_agree (E : env) (st st' : state) (local local' : pyval) :
  same_files st st' ->
  outcome load_local_version st = inr local ->
  outcome load_local_version st' = inr local' ->
  (forall url, records_url local url = records_url local' url) ->
  same_run (Lynks.install_or_update_from_pr E) st st'.
Proof.
  intros Hs Hl Hl' Hr. apply same_run_intro; [done|..]; rewrite !lynks_eq, Hl, Hl'.
  all: destruct (Lynks.get_os_key E) as [e|key]; [by destruct Hs as (? & ? & ?)|].
  all: destruct (Lynks.ARTIFACT_OS_MAP !! key) as [target|];
    [|by destruct Hs as (? & ? & ?)].
  all: cbv zeta.
  all: destruct (Lynks.is_empty (found_links E)); [by try apply logged_agree|].
  all: destruct (found_links E !! lower target) as [url|];
    [|by try apply logged_agree].
  all: specialize (Hr url); unfold records_url in Hr.
  all: destruct (truthy local), (truthy local');
    repeat (destruct (get _ _)); simplify_eq;
    repeat match goal with H : eq_str _ _ = eq_str _ _ |- _ => rewrite H end;
    repeat (destruct (eq_str _ _)); simplify_eq;
    by (try apply logged_agree; try apply install_agree).
Qed.

Lemma without_version_files (st : state) : same_files st (without_version st).
Proof. done. Qed.

Lemma read_installed_eq (key : str) (st : state) :
  read_installed key st =
    match version_file st with
    | None => inr PNone
    | Some text =>
        match json_loads text with
        | None => inl JSONDecodeError
        | Some v => if truthy v then getitem v key else inr PNone
        end
    end.
Proof.
  unfold read_installed, outcome, bind, load_local_version, installed_field, lift,
    ret, raise.
  repeat (step; simplify_eq/=); done.
Qed.

Lemma load_eq (st : state) :
  outcome load_local_version st =
    match version_file st with
    | None => inr PNone
    | Some text =>
        match json_loads text with
        | None => inl JSONDecodeError
        | Some v => inr v
        end
    end.
Proof.
  unfold outcome, load_local_version. repeat (step; simplify_eq/=); done.
Qed.

(** A run that cannot read the installed identifier stops at once. *)
Lemma script_unread (s : id_script) (E : env) (st : state) (e : exn) :
  In s identifier_scripts ->
  read_installed (state_key s) st = inl e ->
  run s E st = (inl e, st).
Proof. intros Hin Hi. by rewrite (script_eq s E st Hin), Hi. Qed.



(** X12. A version.json that holds a falsy document ([null], [false], a
    zero, an empty string, list or object) counts as no installation:
    every one of the five scripts runs as it does without the file, with
    the same outcome after the same calls and the same staging directory
    and installation in the end. *)
Theorem falsy_state_is_fresh (script : env -> M unit) (E : env) (st : state)
  (text : str) (v : pyval) :
  In script orchestrators ->
  version_file st = Some text ->
  json_loads text = Some v ->
  truthy v = false ->
  same_run (script E) st (without_version st).
Proof.
  intros Hin Hv Hj Ht.
  destruct (orchestrator_cases script Hin) as [(s & Hs & ->) | ->].
  - apply script_agree; [done|done|]. exists PNone.
    by rewrite !read_installed_eq, Hv, Hj, Ht.
  - apply (lynks_agree E _ _ v PNone); [done|..].
    + by rewrite load_eq, Hv, Hj.
    + by rewrite load_eq.
    + intros url. unfold records_url. by rewrite Ht.
Qed.

Lemma falsy_state_is_fresh_witness :
  In TwoShip.install_or_update orchestrators
  /\ version_file blank = Some (list_ascii_of_string "{}")
  /\ json_loads (list_ascii_of_string "{}") = Some (PDict [])
  /\ truthy (PDict []) = false
  /\ same_run (TwoShip.install_or_update (online (list_ascii_of_string "Linux")))
       blank (without_version blank).
Proof.
  assert (Hin : In TwoShip.install_or_update orchestrators) by (simpl; tauto).
  assert (Hv : version_file blank = Some (list_ascii_of_string "{}")) by reflexivity.
  assert (Hj : json_loads (list_ascii_of_string "{}") = Some (PDict []))
    by (vm_compute; reflexivity).
  assert (Ht : truthy (PDict []) = false) by reflexivity.
  split; [exact Hin|split; [exact Hv|split; [exact Hj|split; [exact Ht|]]]].
  exact (falsy_state_is_fresh _ (online (list_ascii_of_string "Linux")) blank _ _
           Hin Hv Hj Ht).
Defined.

(** An object without the key a release or nightly script reads, and an
    object without the key of the PR script. *)
Lemma script_missing_key (s : id_script) (E : env) (st : state) (text : str)
  (d : list (str * pyval)) :
  In s identifier_scripts ->
  version_file st = Some text ->
  json_loads text = Some (PDict d) ->
  d <> [] ->
  dict_get d (state_key s) = None ->
  run s E st = (inl (KeyError (state_key s)), st).
Proof.
  intros Hin Hv Hj Hd Hk.
  assert (Ht : truthy (PDict d) = true) by (by destruct d).
  apply script_unread; [done|].
  rewrite read_installed_eq, Hv, Hj, Ht. unfold getitem. by rewrite Hk.
Qed.

Lemma lynks_missing_key (E : env) (st : state) (text : str) (d : list (str * pyval)) :
  version_file st = Some text ->
  json_loads text = Some (PDict d) ->
  dict_get d (list_ascii_of_string "download_url") = None ->
  same_run (Lynks.install_or_update_from_pr E) st (without_version st).
Proof.
  intros Hv Hj Hk. apply (lynks_agree E _ _ (PDict d) PNone); [done|..].
  - by rewrite load_eq, Hv, Hj.
  - by rewrite load_eq.
  - intros url. unfold records_url, get. rewrite Hk.
    by destruct (truthy (PDict d)).
Qed.





(* ===================================================================== *)
(** ** One script's record read by another                                *)
(* ===================================================================== *)

(** All five scripts keep their record in the version.json beside the
    script. What a release or nightly script has written reads back as
    an object that holds its identifier under its own key, and no other
    script's key. *)
Lemma record_loads (s : id_script) (id : str) :
  In s identifier_scripts ->
  exists d,
    json_loads (json_dumps (record_of s id)) = Some (PDict d)
    /\ d <> []
    /\ dict_get d (state_key s) = Some (PStr id)
    /\ dict_get d (list_ascii_of_string "download_url") = None
    /\ forall s', In s' identifier_scripts -> state_key s' <> state_key s ->
         dict_get d (state_key s') = None.
Proof.
  intros Hin. exists (foldl set_item [] (record_of s id)).
  split; [|split; [|split; [|split]]].
  - apply loads_dumps. in_list Hin; repeat constructor; apply reads_back_str.
  - in_list Hin; discriminate.
  - in_list Hin; reflexivity.
  - in_list Hin; reflexivity.
  - intros s' Hin' Hne. in_list Hin; in_list Hin'; done.
Qed.

Lemma pr_record_loads (url : str) :
  exists d,
    json_loads (json_dumps (pr_record url)) = Some (PDict d)
    /\ d <> []
    /\ forall s', In s' identifier_scripts -> dict_get d (state_key s') = None.
Proof.
  exists (foldl set_item [] (pr_record url)). split; [|split].
  - apply loads_dumps. repeat constructor; cbn [snd];
      auto using reads_back_str, reads_back_pr_number.
  - discriminate.
  - intros s' Hin'. in_list Hin'; reflexivity.
Qed.

(** X15. The two release scripts read and write the key
    [installed_version], the two nightly scripts the key [latest_commit],
    the PR script the key [download_url], all in the same version.json.
    After a release or nightly script has written its record, a script
    with the same key reads the identifier as its own; a release or
    nightly script with the other key fails with [KeyError] for its key
    before any request; and the PR script runs as without the file.
    After the PR script has written its record, every release and
    nightly script fails with [KeyError] for its key. *)
Theorem foreign_records (E : env) (st : state) (id : str) :
  (forall s s', In s identifier_scripts -> In s' identifier_scripts ->
     version_file st = Some (json_dumps (record_of s id)) ->
     (state_key s' = state_key s -> read_installed (state_key s') st = inr (PStr id))
     /\ (state_key s' <> state_key s ->
         run s' E st = (inl (KeyError (state_key s')), st))
     /\ same_run (Lynks.install_or_update_from_pr E) st (without_version st))
  /\ (version_file st = Some (json_dumps (pr_record id)) ->
      forall s', In s' identifier_scripts ->
        run s' E st = (inl (KeyError (state_key s')), st)).
Proof.
  split.
  - intros s s' Hin Hin' Hv.
    destruct (record_loads s id Hin) as (d & Hj & Hd & Hk & Hu & Ho).
    split; [|split].
    + intros ->. rewrite read_installed_eq, Hv, Hj.
      assert (truthy (PDict d) = true) as -> by (by destruct d).
      unfold getitem. by rewrite Hk.
    + intros Hne. eapply (script_missing_key s' E st _ d); eauto.
    + by eapply (lynks_missing_key E st _ d).
  - intros Hv s' Hin'.
    destruct (pr_record_loads id) as (d & Hj & Hd & Ho).
    eapply (script_missing_key s' E st _ d); eauto.
Qed.

Lemma foreign_records_witness :
  In two_ship identifier_scripts
  /\ In soh_nightly identifier_scripts
  /\ version_file installed_v1_stale
     = Some (json_dumps (record_of two_ship (list_ascii_of_string "v1")))
  /\ state_key soh_nightly <> state_key two_ship
  /\ run soh_nightly (online (list_ascii_of_string "Linux")) installed_v1_stale
     = (inl (KeyError (state_key soh_nightly)), installed_v1_stale).
Proof.
  assert (Hin : In two_ship identifier_scripts) by (simpl; tauto).
  assert (Hin' : In soh_nightly identifier_scripts) by (simpl; tauto).
  assert (Hv : version_file installed_v1_stale
               = Some (json_dumps (record_of two_ship (list_ascii_of_string "v1"))))
    by reflexivity.
  assert (Hne : state_key soh_nightly <> state_key two_ship) by discriminate.
  split; [exact Hin|split; [exact Hin'|split; [exact Hv|split; [exact Hne|]]]].
  exact (proj1 (proj2 (proj1 (foreign_records (online (list_ascii_of_string "Linux"))
                                installed_v1_stale (list_ascii_of_string "v1"))
                         two_ship soh_nightly Hin Hin' Hv)) Hne).
Defined.

(* ===================================================================== *)
(** ** The links the parsers return                                       *)
(* ===================================================================== *)

Lemma lower_char_idem (c : ascii) : lower_char (lower_char c) = lower_char c.
Proof. destruct c as [[] [] [] [] [] [] [] []]; vm_compute; reflexivity. Qed.

Lemma lower_idem (s : str) : lower (lower s) = lower s.
Proof.
  unfold lower. rewrite map_map. apply map_ext. intros c. apply lower_char_idem.
Qed.

Lemma lower_nil (s : str) : lower s = [] -> s = [].
Proof. by destruct s. Qed.

(** Matching under [re.IGNORECASE] sees the text lower-cased. *)
Lemma imatch_lower (p s : str) : imatch p (lower s) = lower <$> imatch p s.
Proof.
  revert s. induction p as [|a p IH]; intros s; [done|].
  destruct s as [|b s]; [done|].
  change (lower (b :: s)) with (lower_char b :: lower s). cbn [imatch].
  unfold ieq. rewrite lower_char_idem.
  destruct (ascii_eqb (lower_char b) (lower_char a)); [apply IH|done].
Qed.

Lemma soh_zip_lower (s : str) : Lynks.soh_zip (lower s) = lower <$> Lynks.soh_zip s.
Proof.
  unfold Lynks.soh_zip. rewrite imatch_lower.
  destruct (imatch (list_ascii_of_string "soh-") s) as [s1|]; [|done].
  cbn [fmap option_fmap option_map]. rewrite !imatch_lower.
  destruct (imatch (list_ascii_of_string "windows") s1) as [s2|];
    cbn [fmap option_fmap option_map].
  { rewrite imatch_lower.
    destruct (imatch (list_ascii_of_string ".zip") s2) as [s3|];
      cbn [fmap option_fmap option_map]; [done|].
    destruct (imatch (list_ascii_of_string "linux") s1) as [s4|];
      cbn [fmap option_fmap option_map].
    - rewrite imatch_lower.
      destruct (imatch (list_ascii_of_string ".zip") s4) as [s5|];
        cbn [fmap option_fmap option_map]; [done|].
      destruct (imatch (list_ascii_of_string "mac") s1) as [s6|];
        cbn [fmap option_fmap option_map]; [|done].
      by rewrite imatch_lower.
    - destruct (imatch (list_ascii_of_string "mac") s1) as [s6|];
        cbn [fmap option_fmap option_map]; [|done].
      by rewrite imatch_lower. }
  destruct (imatch (list_ascii_of_string "linux") s1) as [s4|];
    cbn [fmap option_fmap option_map].
  - rewrite imatch_lower.
    destruct (imatch (list_ascii_of_string ".zip") s4) as [s5|];
      cbn [fmap option_fmap option_map]; [done|].
    destruct (imatch (list_ascii_of_string "mac") s1) as [s6|];
      cbn [fmap option_fmap option_map]; [|done].
    by rewrite imatch_lower.
  - destruct (imatch (list_ascii_of_string "mac") s1) as [s6|];
      cbn [fmap option_fmap option_map]; [|done].
    by rewrite imatch_lower.
Qed.

(** A text that lowers to one of the three names is matched whole. *)
Lemma soh_zip_name (m r : str) :
  In (lower m) soh_zips -> Lynks.soh_zip (m ++ r) = Some r.
Proof.
  intros Hin.
  assert (H : Lynks.soh_zip m = Some []).
  { pose proof (soh_zip_lower m) as Hl.
    assert (Hc : Lynks.soh_zip (lower m) = Some []).
    { simpl in Hin. destruct Hin as [<-|[<-|[<-|[]]]]; vm_compute; reflexivity. }
    rewrite Hc in Hl. destruct (Lynks.soh_zip m) as [x|]; [|done].
    injection Hl as Hl. symmetry in Hl. by apply lower_nil in Hl as ->. }
  by apply (soh_zip_more m [] r).
Qed.






Lemma link_char_space (u : str) :
  Forall (fun c => link_char c = true) u -> Forall (fun c => isspace c = false) u.
Proof.
  intros H. eapply Forall_impl; [exact H|]. intros c. unfold link_char.
  by destruct (isspace c).
Qed.

Lemma consumed_prefix (s m r : str) : s = m ++ r -> consumed s r = m.
Proof. intros ->. apply consumed_app. Qed.










(** A match of the page pattern begins with a file name. *)
Lemma nightly_link_has_name (x : str) (g : str * str) (rest : str) :
  Lynks.nightly_link x = Some (g, rest) ->
  exists m, x = m ++ rest /\ m <> [] /\ has_soh_zip m = true.
Proof.
  intros H. destruct (nightly_link_matched x g rest H) as (m & Hm & Hne & _).
  exists m. split; [done|split; [done|]].
  unfold Lynks.nightly_link in H.
  destruct (Lynks.soh_zip x) as [s1|] eqn:H1; [|done].
  destruct (Lynks.lazy_gap 200 s1) as [[url r]|] eqn:H2; [|done].
  injection H as _ <-.
  apply soh_zip_app in H1 as (m1 & -> & Hm1).
  apply lazy_gap_app in H2 as (m2 & ->).
  rewrite app_assoc in Hm. apply app_inv_tail in Hm as <-.
  apply has_soh_zip_app_r.
  pose proof (soh_zip_name m1 [] Hm1) as Hz. rewrite app_nil_r in Hz.
  destruct m1; cbn [has_soh_zip]; by rewrite Hz.
Qed.

(** X18. A text in which no artifact file name occurs, in any letter
    case, gives no link with either parser. So a description that names
    no artifact always sends the run to the page: the links of the page
    are the ones the run goes on with, and on a platform of the map, with
    version.json readable, the run begins with the two lookups in
    turn. *)
Theorem no_names_no_links (text : str) (E : env) :
  has_soh_zip text = false ->
  Lynks.extract_markdown_links_from_body text = ∅
  /\ Lynks.extract_nightly_links_from_html text = ∅
  /\ (api_pull_body E (Lynks.pull_api_url Lynks.REPO Lynks.PR_NUMBER) = inr text ->
      found_links E = page_links E
      /\ forall st key local,
           Lynks.get_os_key E = inr key ->
           outcome load_local_version st = inr local ->
           exists evs,
             run_events (Lynks.install_or_update_from_pr E) st
             = Get (Lynks.pull_api_url Lynks.REPO Lynks.PR_NUMBER)
               :: Get Lynks.pull_page_url :: evs).
Proof.
  intros Hn.
  assert (Hmd : Lynks.extract_markdown_links_from_body text = ∅).
  { apply map_eq. intros k.
    rewrite extract_markdown_fold, record_links_lookup, !lookup_empty.
    pose proof (finditer_all_inside Lynks.markdown_link _ markdown_link_matched text)
      as Hall.
    by rewrite (md_key_none text _ Hn Hall). }
  assert (Hht : Lynks.extract_nightly_links_from_html text = ∅).
  { rewrite extract_nightly_fold.
    pose proof (finditer_all_inside Lynks.nightly_link _ nightly_link_has_name text)
      as Hall.
    destruct (finditer Lynks.nightly_link text) as [|g ms]; [done|].
    inversion Hall as [|? ? (a & m & b & -> & Hm) _]; subst.
    by rewrite has_soh_zip_inside in Hn. }
  split; [done|split; [done|]]. intros Hb.
  assert (Hbl : body_links E = ∅).
  { unfold body_links. rewrite Hb. by destruct text. }
  assert (Hev : lookup_events E
                = [Get (Lynks.pull_api_url Lynks.REPO Lynks.PR_NUMBER);
                   Get Lynks.pull_page_url])
    by (unfold lookup_events; by rewrite Hbl, is_empty_empty).
  split; [unfold found_links; by rewrite Hbl, is_empty_empty|].
  intros st key local Hk Hl.
  destruct (get_os_key_inr E key Hk) as (target & Ht).
  unfold run_events, final.
  rewrite (lynks_resolution E st key target local Hk Ht Hl). cbv zeta.
  rewrite Hev.
  assert (Hstop : forall r : exn + unit,
            exists evs,
              drop (length (trace st))
                (trace (snd (r, logged st [Get (Lynks.pull_api_url Lynks.REPO
                                                  Lynks.PR_NUMBER);
                                           Get Lynks.pull_page_url])))
              = Get (Lynks.pull_api_url Lynks.REPO Lynks.PR_NUMBER)
                :: Get Lynks.pull_page_url :: evs).
  { intros r. exists []. simpl. by rewrite drop_trace. }
  assert (Hgo : forall url file d,
            exists evs,
              drop (length (trace st))
                (trace (snd (install E url file d
                               (logged st [Get (Lynks.pull_api_url Lynks.REPO
                                                  Lynks.PR_NUMBER);
                                           Get Lynks.pull_page_url]))))
              = Get (Lynks.pull_api_url Lynks.REPO Lynks.PR_NUMBER)
                :: Get Lynks.pull_page_url :: evs).
  { intros url file d.
    destruct (install_cases E url file d st
                [Get (Lynks.pull_api_url Lynks.REPO Lynks.PR_NUMBER);
                 Get Lynks.pull_page_url]) as (_ & _ & H).
    destruct (download E url) as [e|e w|content];
      [| |destruct (unzip E content) as [e|entries]];
      destruct H as (_ & -> & _); rewrite drop_trace; eauto. }
  destruct (Lynks.is_empty (found_links E)); [apply Hstop|].
  destruct (found_links E !! lower target) as [url|]; [|apply Hstop].
  destruct (truthy local); [|apply Hgo].
  destruct (get local _) as [e|recorded]; [apply Hstop|].
  destruct (eq_str recorded url); [apply Hstop|apply Hgo].
Qed.

Lemma no_names_no_links_witness :
  has_soh_zip (list_ascii_of_string "See [the builds](https://example.org/ci).") = false
  /\ Lynks.extract_markdown_links_from_body
       (list_ascii_of_string "See [the builds](https://example.org/ci).") = ∅.
Proof.
  assert (H : has_soh_zip (list_ascii_of_string
                             "See [the builds](https://example.org/ci).") = false)
    by (vm_compute; reflexivity).
  split; [exact H|].
  exact (proj1 (no_names_no_links _ (offline (list_ascii_of_string "Linux")) H)).
Defined.

(** A text that lowers to one of the three names passes the anchored
    pattern. *)
Lemma name_is_accepted (t : str) : In (lower t) soh_zips -> Lynks.is_soh_zip t = true.
Proof.
  intros Hin. unfold Lynks.is_soh_zip.
  pose proof (soh_zip_name t [] Hin) as Hz. rewrite app_nil_r in Hz.
  by rewrite Hz.
Qed.



(* ===================================================================== *)
(** ** A link of the description, in general                              *)
(* ===================================================================== *)

Lemma lstrip_spaces (ws s : str) :
  Forall (fun c => isspace c = true) ws -> lstrip (ws ++ s) = lstrip s.
Proof. induction 1 as [|c ws Hc _ IH]; [done|]. simpl. by rewrite Hc. Qed.

Lemma lower_length (s : str) : length (lower s) = length s.
Proof. unfold lower. apply length_map. Qed.

(** The text after the scheme of an address of the Markdown pattern. *)
Lemma scheme_matched (scheme r : str) :
  lower scheme = list_ascii_of_string "http"
  \/ lower scheme = list_ascii_of_string "https" ->
  exists s6,
    imatch (list_ascii_of_string "http") (scheme ++ list_ascii_of_string "://" ++ r)
    = Some s6
    /\ match s6 with
       | c6 :: r6 => if ieq "s" c6 then r6 else s6
       | [] => s6
       end = list_ascii_of_string "://" ++ r.
Proof.
  intros [Hs | Hs].
  - exists (list_ascii_of_string "://" ++ r). split; [|reflexivity].
    apply imatch_exact. by rewrite Hs.
  - destruct scheme as [|a [|b [|c [|d [|e [|]]]]]]; try done.
    injection Hs as Ha Hb Hc Hd He.
    exists (e :: list_ascii_of_string "://" ++ r). split.
    + apply (imatch_exact _ [a; b; c; d]).
      change (lower [a; b; c; d])
        with [lower_char a; lower_char b; lower_char c; lower_char d].
      by rewrite Ha, Hb, Hc, Hd.
    + unfold ieq. by rewrite He.
Qed.

(** The pattern at a Markdown link. *)
Lemma markdown_link_exact (text w1 url w2 post : str) :
  text <> [] ->
  Forall (fun c => c <> "]"%char) text ->
  Forall (fun c => isspace c = true) w1 ->
  Forall (fun c => isspace c = true) w2 ->
  web_url url ->
  Lynks.markdown_link (markdown text w1 url w2 ++ post) = Some ((text, url), post).
Proof.
  intros Hne Ht Hw1 Hw2 (scheme & u & -> & Hs & Hu & Hc).
  assert (Hcs : Forall (fun c => link_char c = true) scheme
                /\ Forall (fun c => link_char c = true) u).
  { rewrite !Forall_app in Hc. tauto. }
  destruct Hcs as (Hcs & Hcu).
  set (s9 := w2 ++ ")"%char :: post).
  set (s5 := scheme ++ list_ascii_of_string "://" ++ u ++ s9).
  assert (Hbody : markdown text w1 (scheme ++ list_ascii_of_string "://" ++ u) w2 ++ post
                  = "["%char :: text ++ "]"%char :: "("%char :: w1 ++ s5).
  { unfold markdown, s5, s9. reassoc. }
  rewrite Hbody. unfold Lynks.markdown_link.
  change (ascii_eqb "[" "[") with true. cbv iota.
  rewrite (span_exact _ text "]" ("("%char :: w1 ++ s5)); [|
    eapply Forall_impl; [exact Ht|];
    intros c Hcne; unfold ascii_eqb; by rewrite bool_decide_eq_false_2 | done].
  destruct text as [|t0 text]; [done|].
  change (ascii_eqb "(" "(") with true. cbv iota zeta.
  assert (Hl5 : lstrip (w1 ++ s5) = s5).
  { rewrite lstrip_spaces by done. unfold s5.
    destruct scheme as [|a scheme]; [by destruct Hs|].
    apply lstrip_id. inversion Hcs as [|? ? Ha _]; subst.
    unfold link_char in Ha. by destruct (isspace a). }
  rewrite Hl5.
  destruct (scheme_matched scheme (u ++ s9) Hs) as (s6 & H6 & H7).
  unfold s5 at 1. rewrite H6, H7.
  change (imatch (list_ascii_of_string "://") (list_ascii_of_string "://" ++ u ++ s9))
    with (Some (u ++ s9)). cbv iota.
  assert (Hs9 : exists c r, s9 = c :: r /\ link_char c = false /\ lstrip s9 = ")"%char :: post).
  { unfold s9. rewrite lstrip_spaces by done.
    destruct Hw2 as [|c w2 Hcw _].
    - by exists ")"%char, post.
    - exists c, (w2 ++ ")"%char :: post). split; [done|].
      unfold link_char. by rewrite Hcw. }
  destruct Hs9 as (c & r & Hs9 & Hcl & Hls). rewrite Hs9.
  rewrite (span_exact _ u c r); [|exact Hcu|exact Hcl].
  destruct u as [|u0 u]; [done|]. rewrite <- Hs9, Hls.
  change (ascii_eqb ")" ")") with true. cbv iota.
  rewrite (consumed_prefix s5 (scheme ++ list_ascii_of_string "://" ++ u0 :: u) s9);
    [done|].
  unfold s5. reassoc.
Qed.

(** X20. When the description holds a Markdown link whose text is one of
    the artifact names, in any letter case and with or without white
    space around it, and whose address is an [http] or [https] address,
    with or without white space around it inside the parentheses, the
    search for links arrives at its opening bracket, and no artifact name
    occurs before or after the link, the parser returns exactly one
    entry: the lower-cased name with the address as written. *)
Theorem markdown_link_resolved (pre text w1 url w2 post : str) :
  visits Lynks.markdown_link (length pre) (pre ++ markdown text w1 url w2 ++ post)
  = true ->
  has_soh_zip pre = false ->
  has_soh_zip post = false ->
  Forall (fun c => c <> "]"%char) text ->
  In (lower (strip text)) soh_zips ->
  Forall (fun c => isspace c = true) w1 ->
  Forall (fun c => isspace c = true) w2 ->
  web_url url ->
  Lynks.extract_markdown_links_from_body (pre ++ markdown text w1 url w2 ++ post)
  = {[ lower (strip text) := url ]}.
Proof.
  intros Hv Hpre Hpost Ht Hin Hw1 Hw2 Hu.
  assert (Hne : text <> []).
  { intros ->. simpl in Hin. intuition discriminate. }
  pose proof (markdown_link_exact text w1 url w2 post Hne Ht Hw1 Hw2 Hu) as Hm.
  destruct (finditer_reaches Lynks.markdown_link _ markdown_link_matched
              pre (markdown text w1 url w2 ++ post) Hv) as (ms & Hms & Hins).
  rewrite (finditer_match Lynks.markdown_link (markdown text w1 url w2) post _ Hm)
    in Hms by done.
  pose proof (finditer_all_inside Lynks.markdown_link _ markdown_link_matched post)
    as Hpo.
  assert (Hk : md_key (text, url) = Some (lower (strip text))).
  { unfold md_key. cbn [fst].
    by rewrite (name_is_accepted _ Hin). }
  assert (Hurl : link_url (text, url) = url).
  { unfold link_url. cbn [snd]. apply strip_id.
    destruct Hu as (? & ? & _ & _ & _ & Hc). by apply link_char_space. }
  apply map_eq. intros k.
  rewrite extract_markdown_fold, record_links_lookup, Hms, lookup_empty.
  rewrite filter_app, filter_cons.
  rewrite (md_key_none pre ms Hpre Hins), (md_key_none post _ Hpost Hpo).
  rewrite Hk.
  destruct (decide (Some (lower (strip text)) = Some k)) as [[= <-]|Hnk]; simpl.
  - by rewrite lookup_singleton_eq, Hurl.
  - rewrite lookup_singleton_ne; [done|congruence].
Qed.

Lemma markdown_link_resolved_witness :
  visits Lynks.markdown_link (length (list_ascii_of_string "Builds: ")) shouted_body
  = true
  /\ In (lower (strip shouted_text)) soh_zips
  /\ web_url shouted_url
  /\ Lynks.extract_markdown_links_from_body shouted_body
     = {[ lower (strip shouted_text) := shouted_url ]}.
Proof.
  assert (Hv : visits Lynks.markdown_link (length (list_ascii_of_string "Builds: "))
                 shouted_body = true) by (vm_compute; reflexivity).
  assert (Hin : In (lower (strip shouted_text)) soh_zips) by (vm_compute; tauto).
  assert (Hu : web_url shouted_url).
  { exists (list_ascii_of_string "HTTPS"), (list_ascii_of_string "nightly.link/x/y.zip").
    split; [reflexivity|split; [right; vm_compute; reflexivity|split; [discriminate|]]].
    vm_compute. repeat constructor. }
  split; [exact Hv|split; [exact Hin|split; [exact Hu|]]].
  refine (markdown_link_resolved (list_ascii_of_string "Builds: ") shouted_text
            (list_ascii_of_string " ") shouted_url (list_ascii_of_string " ")
            (list_ascii_of_string " (CI)") Hv _ _ _ Hin _ _ Hu).
  - vm_compute. reflexivity.
  - vm_compute. reflexivity.
  - vm_compute. repeat constructor; discriminate.
  - repeat constructor.
  - repeat constructor.
Defined.

(* ===================================================================== *)
(** ** The window of the page pattern                                     *)
(* ===================================================================== *)

Lemma lazy_gap_none (n : nat) :
  forall t, (forall k, k <= n -> Lynks.href_nightly (drop k t) = None) ->
            Lynks.lazy_gap n t = None.
Proof.
  induction n as [|n IH]; intros t H; simpl.
  - pose proof (H 0 (Nat.le_0_l _)) as H0. rewrite drop_0 in H0. rewrite H0.
    by destruct t.
  - pose proof (H 0 (Nat.le_0_l _)) as H0. rewrite drop_0 in H0. rewrite H0.
    destruct t as [|c t]; [done|].
    apply IH. intros k Hk. apply (H (S k)). lia.
Qed.

(** X21. The page pattern pairs a file name with the nearest link that
    begins within 200 characters after it: when a link to nightly.link
    begins [k] characters after the name, with [k] at most 200 and no
    such link beginning earlier, the match takes the name and that
    address; when no such link begins within the first 200 characters
    after the name, there is no match at the name. *)
Theorem href_window (name t : str) :
  In (lower name) soh_zips ->
  (forall k url rest,
     k <= 200 ->
     (forall j, j < k -> Lynks.href_nightly (drop j t) = None) ->
     Lynks.href_nightly (drop k t) = Some (url, rest) ->
     Lynks.nightly_link (name ++ t) = Some ((name, url), rest))
  /\ ((forall k, k <= 200 -> Lynks.href_nightly (drop k t) = None) ->
      Lynks.nightly_link (name ++ t) = None).
Proof.
  intros Hin. unfold Lynks.nightly_link. rewrite (soh_zip_name name t Hin).
  split.
  - intros k url rest Hk Hno Hyes.
    assert (Hlen : k <= length t).
    { destruct (decide (k <= length t)) as [|Hgt]; [done|].
      rewrite drop_ge in Hyes by lia. by vm_compute in Hyes. }
    rewrite <- (take_drop k t) at 1.
    rewrite (lazy_gap_exact (take k t) (drop k t) (url, rest)).
    + by rewrite consumed_app.
    + rewrite length_take. lia.
    + intros j Hj. rewrite take_drop. apply Hno. rewrite length_take in Hj. lia.
    + done.
  - intros Hno. by rewrite lazy_gap_none.
Qed.

(** No link begins among blanks. *)
Lemma blanks_no_href (n : nat) (s : str) :
  forall k, k < n ->
    Lynks.href_nightly (drop k (repeat " "%char n ++ s)) = None.
Proof.
  induction n as [|n IH]; intros k Hk; [lia|].
  destruct k as [|k]; [reflexivity|].
  cbn [repeat app drop]. apply IH. lia.
Qed.

Lemma href_window_witness :
  In (lower mac_zip) soh_zips
  /\ (forall k, k <= 200 -> Lynks.href_nightly (drop k page_far_link) = None)
  /\ Lynks.nightly_link (mac_zip ++ page_far_link) = None.
Proof.
  assert (Hin : In (lower mac_zip) soh_zips) by (vm_compute; tauto).
  assert (Hno : forall k, k <= 200 ->
                  Lynks.href_nightly (drop k page_far_link) = None).
  { intros k Hk. apply blanks_no_href. lia. }
  split; [exact Hin|split; [exact Hno|]].
  exact (proj2 (href_window mac_zip page_far_link Hin) Hno).
Defined.

(* ===================================================================== *)
(** ** The Spaghettikart release script on macOS                          *)
(* ===================================================================== *)

(** X22. On macOS the Spaghettikart release script never installs: no
    run downloads, unpacks or writes version.json. It still queries the
    releases first, and so fails with its no-macOS-build error, straight
    after the query, exactly when the tag it gets is not the installed
    one; when the tags agree it reports the installation as current. *)
Theorem spaghettikart_on_macos (E : env) (st : state) :
  lower (platform_system E) = list_ascii_of_string "darwin" ->
  Forall (fun ev => is_download ev = false /\ is_extract ev = false
                    /\ is_save ev = false)
    (run_events (Spaghettikart.install_or_update E) st)
  /\ final (Spaghettikart.install_or_update E) st
     = match read_installed (list_ascii_of_string "installed_version") st with
       | inl _ => st
       | inr _ => logged st [Get Spaghettikart.releases_url]
       end
  /\ (forall installed rel rest,
        read_installed (list_ascii_of_string "installed_version") st = inr installed ->
        api_releases E Spaghettikart.releases_url = inr (rel :: rest) ->
        outcome (Spaghettikart.install_or_update E) st
        = if eq_str installed (tag_name rel) then inr tt
          else inl Spaghettikart.no_macos_build).
Proof.
  intros Hsys.
  assert (Hp : forall l, plan spaghettikart E l = inl Spaghettikart.no_macos_build).
  { intros l. simpl. unfold Spaghettikart.get_os_tag. by rewrite Hsys. }
  unfold run_events, outcome, final.
  change (Spaghettikart.install_or_update E st) with (run spaghettikart E st).
  rewrite script_eq by (simpl; tauto).
  change (state_key spaghettikart) with (list_ascii_of_string "installed_version").
  destruct (read_installed (list_ascii_of_string "installed_version") st)
    as [e|installed].
  { simpl. rewrite drop_trace_nil. by repeat split. }
  assert (Hev : Forall (fun ev => is_download ev = false /\ is_extract ev = false
                                  /\ is_save ev = false)
                  [Get (query_url spaghettikart)]) by (by repeat constructor).
  change (tidies_when_current spaghettikart) with false.
  destruct (remote spaghettikart E) as [e|r] eqn:Hr.
  { simpl. rewrite drop_trace. split; [done|split; [done|]].
    intros installed' rel rest [= <-] Ha. simpl in Hr. by rewrite Ha in Hr. }
  rewrite Hp.
  assert (Hsame : snd (if eq_str installed (fst r)
                       then (inr tt, logged st [Get (query_url spaghettikart)])
                       else (inl Spaghettikart.no_macos_build,
                             logged st [Get (query_url spaghettikart)]))
                  = logged st [Get (query_url spaghettikart)])
    by (by destruct (eq_str installed (fst r))).
  rewrite Hsame. simpl. rewrite drop_trace. split; [done|split; [done|]].
  intros installed' rel rest [= <-] Ha. simpl in Hr. rewrite Ha in Hr.
  injection Hr as <-. simpl. by destruct (eq_str installed (tag_name rel)).
Qed.

Lemma spaghettikart_on_macos_witness :
  lower (platform_system (online (list_ascii_of_string "Darwin")))
  = list_ascii_of_string "darwin"
  /\ outcome (Spaghettikart.install_or_update (online (list_ascii_of_string "Darwin")))
       pristine
     = inl Spaghettikart.no_macos_build.
Proof.
  assert (Hsys : lower (platform_system (online (list_ascii_of_string "Darwin")))
                 = list_ascii_of_string "darwin") by (vm_compute; reflexivity).
  split; [exact Hsys|].
  exact (proj2 (proj2 (spaghettikart_on_macos (online (list_ascii_of_string "Darwin"))
                         pristine Hsys))
           PNone release_v1 [] eq_refl eq_refl).
Defined.

(* ===================================================================== *)
(** ** The text of version.json                                           *)
(* ===================================================================== *)

Lemma plain_forallb (l : str) :
  forallb plain l = true -> Forall (fun x => plain x = true) l.
Proof.
  intros H. apply Forall_forall. intros x Hx%list_elem_of_In.
  by apply (proj1 (forallb_forall plain l) H).
Qed.

Lemma escape_char_plain (c : ascii) : Forall (fun x => plain x = true) (escape_char c).
Proof.
  apply plain_forallb.
  destruct c as [[] [] [] [] [] [] [] []]; vm_compute; reflexivity.
Qed.

Lemma encode_plain (s : str) :
  Forall (fun x => plain x = true) (encode_basestring_ascii s).
Proof.
  unfold encode_basestring_ascii. constructor; [reflexivity|].
  apply Forall_app. split; [|by repeat constructor].
  induction s as [|c s IH]; [constructor|]. simpl.
  apply Forall_app. split; [apply escape_char_plain|exact IH].
Qed.

Lemma dumps_scalar_plain (v : scalar) :
  (exists s, v = SStr s) \/ v = SInt Lynks.PR_NUMBER ->
  Forall (fun x => plain x = true) (dumps_scalar v).
Proof.
  intros [(s & ->) | ->]; [apply encode_plain|].
  apply plain_forallb. vm_compute. reflexivity.
Qed.

Lemma more_items_plain (d : list (str * scalar)) :
  Forall (fun kv => (exists s, snd kv = SStr s) \/ snd kv = SInt Lynks.PR_NUMBER) d ->
  Forall (fun x => plain x = true) (more_items d).
Proof.
  induction 1 as [|[k v] d Hv _ IH]; [constructor|].
  rewrite <- (app_nil_r (more_items _)), more_items_cons, app_nil_r.
  repeat (constructor; [reflexivity|]).
  pose proof (encode_plain k) as Hk. unfold encode_basestring_ascii in Hk.
  inversion Hk as [|? ? _ Hk']; subst. apply Forall_app in Hk' as (Hk' & _).
  rewrite !Forall_app. split; [exact Hk'|].
  constructor; [reflexivity|]. rewrite !Forall_app.
  split; [by repeat constructor|]. split; [by apply dumps_scalar_plain|exact IH].
Qed.

(** A record whose values are strings, or the number of the PR, is
    written in plain characters. *)
Lemma json_dumps_plain (d : list (str * scalar)) :
  Forall (fun kv => (exists s, snd kv = SStr s) \/ snd kv = SInt Lynks.PR_NUMBER) d ->
  Forall (fun x => plain x = true) (json_dumps d).
Proof.
  intros Hd. destruct d as [|[k v] d]; [by repeat constructor|].
  inversion Hd as [|? ? Hv Hd']; subst. rewrite json_dumps_cons.
  repeat (constructor; [reflexivity|]).
  pose proof (encode_plain k) as Hk. unfold encode_basestring_ascii in Hk.
  inversion Hk as [|? ? _ Hk']; subst. apply Forall_app in Hk' as (Hk' & _).
  rewrite !Forall_app. split; [exact Hk'|].
  constructor; [reflexivity|]. rewrite !Forall_app.
  split; [by repeat constructor|]. split; [by apply dumps_scalar_plain|].
  split; [by apply more_items_plain|by repeat constructor].
Qed.

(** X23. Whatever the identifier, the text each script writes to
    version.json consists of printing characters of 7-bit ASCII and line
    feeds: every other character of the identifier is written as an
    escape. *)
Theorem version_file_is_plain (id : str) (st : state) :
  Forall (fun save : str -> M unit =>
            exists text, version_file (final (save id) st) = Some text
                         /\ Forall (fun c => plain c = true) text)
    [TwoShip.save_local_version; Spaghettikart.save_local_version;
     SohNightly.save_local_version; SpaghettikartNightly.save_local_version;
     Lynks.save_local_version].
Proof.
  assert (H : forall d,
            Forall (fun kv => (exists s, snd kv = SStr s)
                              \/ snd kv = SInt Lynks.PR_NUMBER) d ->
            exists text, version_file (final (write_version d) st) = Some text
                         /\ Forall (fun c => plain c = true) text).
  { intros d Hd. eexists. split; [reflexivity|]. by apply json_dumps_plain. }
  repeat (apply List.Forall_cons;
          [apply H;
           repeat (apply List.Forall_cons;
                   [first [left; eexists; reflexivity | right; reflexivity]|]);
           apply List.Forall_nil|]).
  apply List.Forall_nil.
Qed.

(* ===================================================================== *)
(** ** Links of the description before links of the page                  *)
(* ===================================================================== *)

(** X24. The page is a fallback for the description as a whole, not for
    one file. When the description gives a link for any artifact, the
    page is not fetched; and when the description then has no link for
    the platform's file, the run fails after the one lookup with the
    error that lists the names the description gave, whatever the page
    holds. *)
Theorem description_shadows_page (E : env) (st : state) (key target k u : str)
  (local : pyval) :
  Lynks.get_os_key E = inr key ->
  Lynks.ARTIFACT_OS_MAP !! key = Some target ->
  outcome load_local_version st = inr local ->
  body_links E !! k = Some u ->
  found_links E = body_links E
  /\ lookup_events E = [Get (Lynks.pull_api_url Lynks.REPO Lynks.PR_NUMBER)]
  /\ (body_links E !! lower target = None ->
      Lynks.install_or_update_from_pr E st
      = (inl (Lynks.artifact_not_found (lower target) (body_links E)),
         logged st [Get (Lynks.pull_api_url Lynks.REPO Lynks.PR_NUMBER)])).
Proof.
  intros Hk Ht Hl Hb.
  assert (He : Lynks.is_empty (body_links E) = false) by (by eapply is_empty_false).
  assert (Hf : found_links E = body_links E) by (unfold found_links; by rewrite He).
  assert (Hev : lookup_events E
                = [Get (Lynks.pull_api_url Lynks.REPO Lynks.PR_NUMBER)])
    by (unfold lookup_events; by rewrite He).
  split; [done|split; [done|]]. intros Hn.
  rewrite lynks_eq, Hk, Ht, Hl. cbv zeta. by rewrite Hev, Hf, He, Hn.
Qed.

Lemma description_shadows_page_witness :
  body_links (described (list_ascii_of_string "Linux") windows_link page_linux)
    !! list_ascii_of_string "soh-windows.zip"
  = Some (list_ascii_of_string "https://nightly.link/x/y/soh-windows.zip")
  /\ page_links (described (list_ascii_of_string "Linux") windows_link page_linux)
       !! linux_zip
     = Some (list_ascii_of_string "https://nightly.link/a/b")
  /\ Lynks.install_or_update_from_pr
       (described (list_ascii_of_string "Linux") windows_link page_linux) pristine
     = (inl (Lynks.artifact_not_found (lower linux_zip)
               (body_links (described (list_ascii_of_string "Linux") windows_link
                              page_linux))),
        logged pristine [Get (Lynks.pull_api_url Lynks.REPO Lynks.PR_NUMBER)]).
Proof.
  assert (Hb : body_links (described (list_ascii_of_string "Linux") windows_link
                             page_linux) !! list_ascii_of_string "soh-windows.zip"
               = Some (list_ascii_of_string "https://nightly.link/x/y/soh-windows.zip"))
    by (vm_compute; reflexivity).
  assert (Hp : page_links (described (list_ascii_of_string "Linux") windows_link
                             page_linux) !! linux_zip
               = Some (list_ascii_of_string "https://nightly.link/a/b"))
    by (vm_compute; reflexivity).
  split; [exact Hb|split; [exact Hp|]].
  refine (proj2 (proj2 (description_shadows_page
                          (described (list_ascii_of_string "Linux") windows_link
                             page_linux)
                          pristine (list_ascii_of_string "linux") linux_zip _ _ PNone
                          _ _ _ Hb)) _).
  - vm_compute. reflexivity.
  - vm_compute. reflexivity.
  - reflexivity.
  - vm_compute. reflexivity.
Defined.

(* ===================================================================== *)
(** ** What a run records, and when it finds the installation current     *)
(* ===================================================================== *)

Lemma in_gets_tail (gets tail : list event) (ev : event) :
  Forall (fun e => is_get e = true) gets -> is_get ev = false ->
  In ev (gets ++ tail) -> In ev tail.
Proof.
  intros Hg He [Hin | Hin]%in_app_or; [|done].
  rewrite Forall_forall in Hg. apply list_elem_of_In, Hg in Hin. congruence.
Qed.

(** The calls of an installation, once it has begun. *)
Lemma install_saves (E : env) (url file : str) (d : list (str * scalar))
  (st : state) (gets : list event) (t : str) :
  Forall (fun e => is_get e = true) gets ->
  In (Save t)
    (drop (length (trace st)) (trace (snd (install E url file d (logged st gets))))) ->
  t = json_dumps d
  /\ In (Download url)
       (drop (length (trace st)) (trace (snd (install E url file d (logged st gets))))).
Proof.
  intros Hg. destruct (install_cases E url file d st gets) as (_ & _ & H).
  destruct (download E url) as [e|e w|content];
    [| |destruct (unzip E content) as [e|entries]];
    destruct H as (_ & -> & _); rewrite drop_trace; intros Hs;
    apply in_gets_tail in Hs; try done.
  all: simpl in Hs; try (intuition discriminate).
  destruct Hs as [[=]|[[=]|[[= <-]|[[=]|[]]]]].
  split; [done|]. apply in_or_app. right. simpl. auto.
Qed.

(** X25. What a run writes to version.json is the record of what it has
    just fetched. In a release or nightly run that writes, the text
    written is the record of the identifier the remote reported in this
    run, and the archive downloaded is the one the script's plan names
    for that same answer. In a run of the PR script that writes, the
    text written is the record of the address its lookups gave for the
    platform's file, which is the address downloaded. *)
Theorem saved_record_is_remote (E : env) (st : state) (t : str) :
  (forall s, In s identifier_scripts ->
     In (Save t) (run_events (run s E) st) ->
     exists r url file,
       remote s E = inr r /\ plan s E (snd r) = inr (url, file)
       /\ t = json_dumps (record_of s (fst r))
       /\ In (Download url) (run_events (run s E) st))
  /\ (In (Save t) (run_events (Lynks.install_or_update_from_pr E) st) ->
      exists key target url,
        Lynks.get_os_key E = inr key
        /\ Lynks.ARTIFACT_OS_MAP !! key = Some target
        /\ found_links E !! lower target = Some url
        /\ t = json_dumps (pr_record url)
        /\ In (Download url) (run_events (Lynks.install_or_update_from_pr E) st)).
Proof.
  split.
  - intros s Hin. unfold run_events, final. rewrite (script_eq s E st Hin).
    destruct (read_installed (state_key s) st) as [e|installed].
    { simpl. by rewrite drop_trace_nil. }
    destruct (remote s E) as [e|r].
    { simpl. rewrite drop_trace. by intros [|[]]. }
    destruct (eq_str installed (fst r)).
    { destruct (tidies_when_current s).
      - destruct (tidy_cases st [Get (query_url s)]) as [(_ & ->) | (_ & ->)];
          simpl; rewrite drop_trace; simpl; intuition discriminate.
      - simpl. rewrite drop_trace. by intros [|[]]. }
    destruct (plan s E (snd r)) as [e|[url file]] eqn:Hp.
    { simpl. rewrite drop_trace. by intros [|[]]. }
    cbn [fst snd]. intros Hs.
    apply install_saves in Hs as (-> & Hd); [|by repeat constructor].
    by exists r, url, file.
  - unfold run_events, final. rewrite lynks_eq.
    destruct (Lynks.get_os_key E) as [e|key]; [simpl; by rewrite drop_trace_nil|].
    destruct (Lynks.ARTIFACT_OS_MAP !! key) as [target|] eqn:Hm;
      [|simpl; by rewrite drop_trace_nil].
    destruct (outcome load_local_version st) as [e|local];
      [simpl; by rewrite drop_trace_nil|].
    cbv zeta.
    assert (Hstop : forall r : exn + unit,
              ~ In (Save t) (drop (length (trace st))
                               (trace (snd (r, logged st (lookup_events E)))))).
    { intros r. simpl. rewrite drop_trace. apply gets_no_save, lookup_events_get. }
    destruct (Lynks.is_empty (found_links E)); [by intros ?%Hstop|].
    destruct (found_links E !! lower target) as [url|] eqn:Hf; [|by intros ?%Hstop].
    assert (Hgo : In (Save t)
                    (drop (length (trace st))
                       (trace (snd (install E url (lower target) (pr_record url)
                                      (logged st (lookup_events E)))))) ->
                  exists key0 target0 url0,
                    @inr exn str key = inr key0
                    /\ Lynks.ARTIFACT_OS_MAP !! key0 = Some target0
                    /\ found_links E !! lower target0 = Some url0
                    /\ t = json_dumps (pr_record url0)
                    /\ In (Download url0)
                         (drop (length (trace st))
                            (trace (snd (install E url (lower target) (pr_record url)
                                           (logged st (lookup_events E))))))).
    { intros Hs. apply install_saves in Hs as (-> & Hd); [|apply lookup_events_get].
      by exists key, target, url. }
    destruct (truthy local); [|exact Hgo].
    destruct (get local _) as [e|recorded]; [by intros ?%Hstop|].
    destruct (eq_str recorded url); [by intros ?%Hstop|exact Hgo].
Qed.

Lemma saved_record_is_remote_witness :
  In two_ship identifier_scripts
  /\ In (Save (json_dumps (record_of two_ship (list_ascii_of_string "v1"))))
       (run_events (run two_ship (online (list_ascii_of_string "Linux"))) pristine)
  /\ exists r url file,
       remote two_ship (online (list_ascii_of_string "Linux")) = inr r
       /\ plan two_ship (online (list_ascii_of_string "Linux")) (snd r) = inr (url, file)
       /\ json_dumps (record_of two_ship (list_ascii_of_string "v1"))
          = json_dumps (record_of two_ship (fst r))
       /\ In (Download url)
            (run_events (run two_ship (online (list_ascii_of_string "Linux"))) pristine).
Proof.
  assert (Hin : In two_ship identifier_scripts) by (simpl; tauto).
  assert (Hs : In (Save (json_dumps (record_of two_ship (list_ascii_of_string "v1"))))
                 (run_events (run two_ship (online (list_ascii_of_string "Linux")))
                    pristine)) by (vm_compute; tauto).
  split; [exact Hin|split; [exact Hs|]].
  exact (proj1 (saved_record_is_remote (online (list_ascii_of_string "Linux")) pristine _)
           two_ship Hin Hs).
Defined.

(** X26. A run reports the installation as current only when version.json
    holds, as a string under the script's key, the very identifier the
    remote reports. For a release or nightly run that succeeds without
    writing version.json, the installed identifier read is a string
    equal to the remote one; for such a run of the PR script, version.json
    holds an object whose [download_url] is the address the lookups give
    for the platform's file. *)
Theorem current_only_if_recorded (E : env) (st : state) :
  (forall s, In s identifier_scripts ->
     outcome (run s E) st = inr tt ->
     (forall t, ~ In (Save t) (run_events (run s E) st)) ->
     exists id, read_installed (state_key s) st = inr (PStr id)
                /\ remote_identifier s E = inr id)
  /\ (outcome (Lynks.install_or_update_from_pr E) st = inr tt ->
      (forall t, ~ In (Save t) (run_events (Lynks.install_or_update_from_pr E) st)) ->
      exists key target url d,
        Lynks.get_os_key E = inr key
        /\ Lynks.ARTIFACT_OS_MAP !! key = Some target
        /\ found_links E !! lower target = Some url
        /\ outcome load_local_version st = inr (PDict d)
        /\ dict_get d (list_ascii_of_string "download_url") = Some (PStr url)).
Proof.
  assert (Hinst : forall url file d gets,
            fst (install E url file d (logged st gets)) = inr tt ->
            In (Save (json_dumps d))
              (drop (length (trace st))
                 (trace (snd (install E url file d (logged st gets)))))).
  { intros url file d gets Ho.
    destruct (install_cases E url file d st gets) as (_ & _ & H).
    destruct (download E url) as [e|e w|content];
      [| |destruct (unzip E content) as [e|entries]];
      destruct H as (Ho' & Ht & _); rewrite Ho' in Ho; try done.
    rewrite Ht, drop_trace. apply in_or_app. right. simpl. auto. }
  split.
  - intros s Hin. unfold run_events, outcome, final, remote_identifier.
    rewrite (script_eq s E st Hin).
    destruct (read_installed (state_key s) st) as [e|installed]; [done|].
    destruct (remote s E) as [e|r]; [done|].
    destruct (eq_str installed (fst r)) eqn:He.
    { intros _ _. apply eq_str_true in He as ->. by exists (fst r). }
    destruct (plan s E (snd r)) as [e|[url file]]; [done|].
    cbn [fst snd]. intros Ho Hn. destruct (Hn _ (Hinst _ _ _ _ Ho)).
  - unfold run_events, outcome at 1, final. rewrite lynks_eq.
    destruct (Lynks.get_os_key E) as [e|key]; [done|].
    destruct (Lynks.ARTIFACT_OS_MAP !! key) as [target|] eqn:Hm; [|done].
    destruct (outcome load_local_version st) as [e|local] eqn:Hl; [done|].
    cbv zeta.
    destruct (Lynks.is_empty (found_links E)); [done|].
    destruct (found_links E !! lower target) as [url|] eqn:Hf; [|done].
    destruct (truthy local) eqn:Ht.
    2: { intros Ho Hn. destruct (Hn _ (Hinst _ _ _ _ Ho)). }
    destruct (get local _) as [e|recorded] eqn:Hg; [done|].
    destruct (eq_str recorded url) eqn:He.
    2: { intros Ho Hn. destruct (Hn _ (Hinst _ _ _ _ Ho)). }
    intros _ _. apply eq_str_true in He as ->.
    destruct local as [| | | | |l|d]; try done.
    exists key, target, url, d.
    split; [done|split; [done|split; [done|split; [done|]]]].
    unfold get in Hg. by destruct (dict_get d _); simplify_eq.
Qed.

Lemma current_only_if_recorded_witness :
  In two_ship identifier_scripts
  /\ outcome (run two_ship (online (list_ascii_of_string "Linux"))) installed_v1_stale
     = inr tt
  /\ exists id, read_installed (state_key two_ship) installed_v1_stale = inr (PStr id)
                /\ remote_identifier two_ship (online (list_ascii_of_string "Linux"))
                   = inr id.
Proof.
  assert (Hin : In two_ship identifier_scripts) by (simpl; tauto).
  assert (Ho : outcome (run two_ship (online (list_ascii_of_string "Linux")))
                 installed_v1_stale = inr tt) by (vm_compute; reflexivity).
  split; [exact Hin|split; [exact Ho|]].
  refine (proj1 (current_only_if_recorded (online (list_ascii_of_string "Linux"))
                   installed_v1_stale) two_ship Hin Ho _).
  intros t. vm_compute. intros [H|[]]. discriminate H.
Defined.

(* ===================================================================== *)
(** ** The budget of the JSON parser                                      *)
(* ===================================================================== *)

Lemma skip_ws_length (s : str) : length (skip_ws s) <= length s.
Proof.
  induction s as [|c s IH]; [done|]. simpl. destruct (is_ws c); simpl; lia.
Qed.

Lemma cons_fst_length (c : ascii) (x : option (str * str)) (t r : str) :
  cons_fst c x = Some (t, r) -> exists t', x = Some (t', r).
Proof. destruct x as [[t' r']|]; [|done]. intros [= <- <-]. eauto. Qed.

Lemma scanstring_length (s : str) :
  forall t r, scanstring s = Some (t, r) -> length r < length s.
Proof.
  induction s as [s IH] using (induction_ltof1 _ (@length ascii)).
  unfold ltof in IH. intros t r. destruct s as [|c s]; [done|]. simpl.
  destruct (ascii_eqb c dquote); [intros [= <- <-]; lia|].
  destruct (ascii_eqb c backslash).
  - destruct s as [|e s]; [done|].
    destruct (unescape e).
    + intros (t' & H)%cons_fst_length. apply IH in H; simpl in *; lia.
    + destruct (ascii_eqb e "u"); [|done].
      destruct s as [|h1 [|h2 [|h3 [|h4 s]]]]; try done.
      destruct (hex4 h1 h2 h3 h4) as [n|]; [|done].
      destruct (n <? 256)%N; [|done].
      intros (t' & H)%cons_fst_length. apply IH in H; simpl in *; lia.
  - destruct (ord c <? 32)%N; [done|].
    intros (t' & H)%cons_fst_length. apply IH in H; simpl in *; lia.
Qed.

Lemma digits_length (s : str) :
  forall acc n m k r, digits acc n s = (m, k, r) -> length r <= length s.
Proof.
  induction s as [|c s IH]; intros acc n m k r; simpl.
  - intros [= <- <- <-]. done.
  - destruct (is_digit c); [|intros [= <- <- <-]; done].
    intros H%IH. lia.
Qed.

Lemma scan_integer_length (s : str) (neg : bool) (m : N) (r : str) :
  scan_integer s = Some (neg, m, r) -> length r < length s.
Proof.
  unfold scan_integer.
  assert (Hgo : forall s1 neg0,
            length s1 <= length s ->
            match s1 with
            | c :: r0 =>
                if ascii_eqb c "0" then Some (neg0, 0%N, r0)
                else if is_digit c
                     then let '(m0, _, r') := digits 0 0 s1 in Some (neg0, m0, r')
                     else None
            | [] => None
            end = Some (neg, m, r) -> length r < length s).
  { intros s1 neg0 Hl. destruct s1 as [|c r0]; [done|].
    destruct (ascii_eqb c "0"); [intros [= <- <- <-]; simpl in Hl; lia|].
    destruct (is_digit c) eqn:Hd; [|done].
    simpl. rewrite Hd.
    destruct (digits _ 1 r0) as [[m0 k] r'] eqn:Hg. intros [= <- <- <-].
    apply digits_length in Hg. simpl in Hl. lia. }
  destruct s as [|c s']; [done|].
  destruct (ascii_eqb c "-");
    [apply (Hgo s' true)|apply (Hgo (c :: s') false)]; simpl; lia.
Qed.

Lemma scan_frac_length (m : N) (s : str) (m' : N) (n : nat) (r : str) :
  scan_frac m s = Some (m', n, r) -> length r <= length s.
Proof.
  unfold scan_frac. destruct s as [|c s]; [done|].
  destruct (ascii_eqb c "."); [|done].
  destruct (digits m 0 s) as [[x k] r'] eqn:Hg. apply digits_length in Hg.
  destruct k; [done|]. intros [= <- <- <-]. simpl. lia.
Qed.

Lemma scan_exp_length (s : str) (x : Z) (r : str) :
  scan_exp s = Some (x, r) -> length r <= length s.
Proof.
  unfold scan_exp. destruct s as [|c s]; [done|].
  destruct (ascii_eqb c "e" || ascii_eqb c "E"); [|done].
  set (p := match s with
            | d :: r' =>
                if ascii_eqb d "-" then (true, r')
                else if ascii_eqb d "+" then (false, r') else (false, s)
            | [] => (false, s)
            end).
  assert (Hp : length (snd p) <= length s).
  { unfold p. destruct s as [|d r']; [done|].
    destruct (ascii_eqb d "-"); [simpl; lia|].
    destruct (ascii_eqb d "+"); simpl; lia. }
  destruct p as [neg r1]. simpl in Hp.
  destruct (digits 0 0 r1) as [[y k] r2] eqn:Hg. apply digits_length in Hg.
  destruct k; [done|]. intros [= <- <-]. simpl. lia.
Qed.

Lemma scan_number_length (s : str) (v : pyval) (r : str) :
  scan_number s = Some (v, r) -> length r < length s.
Proof.
  unfold scan_number.
  destruct (scan_integer s) as [[[neg m] r0]|] eqn:Hi; [|done].
  apply scan_integer_length in Hi.
  destruct (scan_frac m r0) as [[[m' n] r1]|] eqn:Hf.
  - apply scan_frac_length in Hf.
    destruct (scan_exp r1) as [[x r2]|] eqn:He.
    + apply scan_exp_length in He. intros [= <- <-]. lia.
    + intros [= <- <-]. lia.
  - destruct (scan_exp r0) as [[x r2]|] eqn:He.
    + apply scan_exp_length in He. intros [= <- <-]. lia.
    + intros [= <- <-]. lia.
Qed.

Lemma after_length (p s r : str) :
  p <> [] -> after p s = Some r -> length r < length s.
Proof.
  unfold after. destruct (startswith s p) eqn:Hs; [|done].
  apply startswith_spec in Hs as (x & ->). intros Hp [= <-].
  rewrite drop_app_length, length_app. destruct p; [done|]. simpl. lia.
Qed.

Lemma scan_constant_length (s : str) (v : pyval) (r : str) :
  scan_constant s = Some (v, r) -> length r < length s.
Proof.
  unfold scan_constant.
  repeat (match goal with
          | |- context [after ?p s] =>
              let H := fresh "H" in
              destruct (after p s) as [?r|] eqn:H;
              [apply after_length in H; [|done]; intros [= <- <-]; lia|clear H]
          | |- context [scan_number s] =>
              let H := fresh "H" in
              destruct (scan_number s) as [[? ?]|] eqn:H;
              [apply scan_number_length in H; intros [= <- <-]; lia|clear H]
          end).
  done.
Qed.

(** Rewriting with what the case distinctions have found. *)
Ltac recall :=
  repeat match goal with
         | H : ?x = _ |- context [?x] => rewrite H
         end.

(** A successful parse takes characters from the text, and succeeds the
    same with any budget that is at least the number of characters it
    takes. *)
Lemma parse_budget (f : nat) :
  (forall s v r, parse_value f s = Some (v, r) ->
     length r < length s
     /\ forall f', length s - length r <= f' -> parse_value f' s = Some (v, r))
  /\ (forall acc s v r, parse_members f acc s = Some (v, r) ->
        length r < length s
        /\ forall f', length s - length r <= f' ->
             parse_members f' acc s = Some (v, r))
  /\ (forall acc s v r, parse_elems f acc s = Some (v, r) ->
        length r < length s
        /\ forall f', length s - length r <= f' ->
             parse_elems f' acc s = Some (v, r)).
Proof.
  induction f as [|f (IHv & IHm & IHe)]; [by repeat split|].
  split; [|split].
  - intros s v r. destruct s as [|c r0]; [done|].
    cbn [parse_value].
    destruct (ascii_eqb c dquote) eqn:Hq.
    { destruct (scanstring r0) as [[t r1]|] eqn:Hs; [|done].
      intros [= <- <-]. pose proof (scanstring_length _ _ _ Hs).
      split; [simpl; lia|]. intros [|f'] Hf'; [simpl in Hf'; lia|].
      cbn [parse_value]. by recall. }
    destruct (ascii_eqb c "{") eqn:Hb.
    { pose proof (skip_ws_length r0) as Hw.
      destruct (skip_ws r0) as [|c1 r1] eqn:Hs; [done|].
      destruct (ascii_eqb c1 "}") eqn:Hc.
      { intros [= <- <-]. split; [simpl in *; lia|].
        intros [|f'] Hf'; [simpl in *; lia|]. cbn [parse_value]. by recall. }
      destruct (ascii_eqb c1 dquote) eqn:Hd; [|done].
      intros H. destruct (IHm _ _ _ _ H) as (Hl & Hf).
      split; [simpl in *; lia|].
      intros [|f'] Hf'; [simpl in *; lia|]. cbn [parse_value]. recall.
      apply Hf. simpl in *. lia. }
    destruct (ascii_eqb c "[") eqn:Hl.
    { pose proof (skip_ws_length r0) as Hw.
      destruct (skip_ws r0) as [|c1 r1] eqn:Hs; [done|].
      destruct (ascii_eqb c1 "]") eqn:Hc.
      { intros [= <- <-]. split; [simpl in *; lia|].
        intros [|f'] Hf'; [simpl in *; lia|]. cbn [parse_value]. by recall. }
      intros H. destruct (IHe _ _ _ _ H) as (Hl' & Hf).
      split; [simpl in *; lia|].
      intros [|f'] Hf'; [simpl in *; lia|]. cbn [parse_value]. recall.
      apply Hf. simpl in *. lia. }
    intros H. pose proof (scan_constant_length _ _ _ H) as Hc.
    split; [done|].
    intros [|f'] Hf'; [lia|]. cbn [parse_value]. by recall.
  - intros acc s v r. rewrite parse_members_S.
    destruct (scanstring s) as [[k r0]|] eqn:Hs; [|done].
    pose proof (scanstring_length _ _ _ Hs) as Hk.
    pose proof (skip_ws_length r0) as Hw0.
    destruct (skip_ws r0) as [|c r1] eqn:Hs0; [done|].
    destruct (ascii_eqb c ":") eqn:Hc; [|done].
    pose proof (skip_ws_length r1) as Hw1.
    destruct (parse_value f (skip_ws r1)) as [[v0 r2]|] eqn:Hv; [|done].
    destruct (IHv _ _ _ Hv) as (Hl2 & Hf2).
    pose proof (skip_ws_length r2) as Hw2.
    destruct (skip_ws r2) as [|c2 r3] eqn:Hs2; [done|].
    destruct (ascii_eqb c2 "}") eqn:Hc2.
    { intros [= <- <-]. split; [simpl in *; lia|].
      intros [|f'] Hf'; [simpl in *; lia|]. rewrite parse_members_S. recall.
      rewrite Hf2; [by recall|]. simpl in *. lia. }
    destruct (ascii_eqb c2 ",") eqn:Hc3; [|done].
    pose proof (skip_ws_length r3) as Hw3.
    destruct (skip_ws r3) as [|c3 r4] eqn:Hs3; [done|].
    destruct (ascii_eqb c3 dquote) eqn:Hc4; [|done].
    intros H. destruct (IHm _ _ _ _ H) as (Hl4 & Hf4).
    split; [simpl in *; lia|].
    intros [|f'] Hf'; [simpl in *; lia|]. rewrite parse_members_S. recall.
    rewrite Hf2; [|simpl in *; lia]. recall. apply Hf4. simpl in *. lia.
  - intros acc s v r. cbn [parse_elems].
    destruct (parse_value f s) as [[v0 r1]|] eqn:Hv; [|done].
    destruct (IHv _ _ _ Hv) as (Hl1 & Hf1).
    pose proof (skip_ws_length r1) as Hw1.
    destruct (skip_ws r1) as [|c r2] eqn:Hs1; [done|].
    destruct (ascii_eqb c "]") eqn:Hc.
    { intros [= <- <-]. split; [simpl in *; lia|].
      intros [|f'] Hf'; [simpl in *; lia|]. cbn [parse_elems].
      rewrite Hf1; [by recall|]. simpl in *. lia. }
    destruct (ascii_eqb c ",") eqn:Hc2; [|done].
    pose proof (skip_ws_length r2) as Hw2.
    intros H. destruct (IHe _ _ _ _ H) as (Hl3 & Hf3).
    split; [simpl in *; lia|].
    intros [|f'] Hf'; [simpl in *; lia|]. cbn [parse_elems].
    rewrite Hf1; [|simpl in *; lia]. recall. apply Hf3. simpl in *. lia.
Qed.

(** The verdict of the decoder does not hang on its budget: whenever some
    budget reads the whole text as one value, [json_loads] returns that
    value. *)
Lemma json_loads_budget (s : str) (v : pyval) :
  json_loads s = Some v
  <-> exists f r, parse_value f (skip_ws s) = Some (v, r) /\ skip_ws r = [].
Proof.
  unfold json_loads. split.
  - destruct (parse_value _ _) as [[v' r]|] eqn:H; [|done].
    destruct (skip_ws r) eqn:Hr; [|done]. intros [= <-]. eauto.
  - intros (f & r & H & Hr).
    destruct (proj1 (parse_budget f) _ _ _ H) as (Hl & Hf).
    rewrite Hf, Hr; [done|]. pose proof (skip_ws_length s). lia.
Qed.

(* ===================================================================== *)
(** ** The description decides what is installed                          *)
(* ===================================================================== *)

(** X27. The address of a link in the description is taken as it stands,
    whatever its host. On Linux, without version.json, when the
    description is a Markdown link with the text [soh-linux.zip] and any
    [http] or [https] address, and the transfer from that address and
    the extraction succeed, the run makes the one lookup, downloads from
    that address, unpacks the archive over the installation and records
    the address in version.json. *)
Theorem description_decides_download (E : env) (st : state) (url content : str)
  (entries : list (str * str)) :
  lower (platform_system E) = list_ascii_of_string "linux" ->
  api_pull_body E (Lynks.pull_api_url Lynks.REPO Lynks.PR_NUMBER)
  = inr (markdown linux_zip [] url []) ->
  web_url url ->
  version_file st = None ->
  download E url = Complete content ->
  unzip E content = inr entries ->
  Lynks.install_or_update_from_pr E st
  = (inr tt,
     updated st (pr_record url) entries
       (Get (Lynks.pull_api_url Lynks.REPO Lynks.PR_NUMBER)
        :: install_events url linux_zip (pr_record url))).
Proof.
  intros Hsys Hb Hu Hv Hd Hz.
  destruct (linux_target E Hsys) as (Hk & Ht).
  assert (Hm : Lynks.markdown_link (markdown linux_zip [] url [])
               = Some ((linux_zip, url), [])).
  { rewrite <- (app_nil_r (markdown _ _ _ _)).
    apply markdown_link_exact; try done.
    repeat constructor; discriminate. }
  assert (Hurl : strip url = url).
  { apply strip_id. destruct Hu as (? & ? & _ & _ & _ & Hc).
    by apply link_char_space. }
  assert (Hl : body_links E = {[ linux_zip := url ]}).
  { assert (Hbody : body_links E
                    = Lynks.extract_markdown_links_from_body
                        (markdown linux_zip [] url []))
      by (unfold body_links; by rewrite Hb).
    rewrite Hbody, extract_markdown_fold.
    rewrite <- (app_nil_r (markdown _ _ _ _)) in Hm.
    rewrite <- (app_nil_r (markdown _ _ _ _)).
    rewrite (finditer_match Lynks.markdown_link _ [] _ Hm) by done.
    change (finditer Lynks.markdown_link []) with (@nil (str * str)).
    cbn [foldl]. unfold record_link.
    change (md_key (linux_zip, url)) with (Some linux_zip).
    unfold link_url. cbn [snd]. by rewrite Hurl. }
  assert (He : Lynks.is_empty (body_links E) = false).
  { rewrite Hl. eapply is_empty_false. apply lookup_singleton_eq. }
  assert (Hf : found_links E = {[ linux_zip := url ]})
    by (unfold found_links; by rewrite He).
  assert (Hev : lookup_events E
                = [Get (Lynks.pull_api_url Lynks.REPO Lynks.PR_NUMBER)])
    by (unfold lookup_events; by rewrite He).
  assert (Hload : outcome load_local_version st = inr PNone)
    by (by rewrite load_eq, Hv).
  rewrite (lynks_resolution E st _ _ PNone Hk Ht Hload). cbv zeta.
  change (lower linux_zip) with linux_zip.
  assert (Hfl : found_links E !! linux_zip = Some url)
    by (rewrite Hf; apply lookup_singleton_eq).
  rewrite Hev, (is_empty_false _ _ _ Hfl). rewrite_lookup Hfl.
  change (truthy PNone) with false. cbv iota.
  rewrite install_eq, Hd, Hz. unfold updated, unpacked, install_events. simpl.
  by rewrite <- app_assoc.
Qed.

Lemma description_decides_download_witness :
  web_url (list_ascii_of_string "http://example.org/any.zip")
  /\ Lynks.install_or_update_from_pr
       (described (list_ascii_of_string "Linux")
          (markdown linux_zip [] (list_ascii_of_string "http://example.org/any.zip") [])
          [])
       pristine
     = (inr tt,
        updated pristine (pr_record (list_ascii_of_string "http://example.org/any.zip"))
          [(list_ascii_of_string "soh.elf", list_ascii_of_string "bits")]
          (Get (Lynks.pull_api_url Lynks.REPO Lynks.PR_NUMBER)
           :: install_events (list_ascii_of_string "http://example.org/any.zip")
                linux_zip
                (pr_record (list_ascii_of_string "http://example.org/any.zip")))).
Proof.
  assert (Hu : web_url (list_ascii_of_string "http://example.org/any.zip")).
  { exists (list_ascii_of_string "http"), (list_ascii_of_string "example.org/any.zip").
    split; [reflexivity|split; [left; vm_compute; reflexivity|split; [discriminate|]]].
    vm_compute. repeat constructor. }
  split; [exact Hu|].
  refine (description_decides_download
            (described (list_ascii_of_string "Linux")
               (markdown linux_zip []
                  (list_ascii_of_string "http://example.org/any.zip") []) [])
            pristine _ (list_ascii_of_string "PK") _ _ _ Hu _ _ _).
  - vm_compute. reflexivity.
  - reflexivity.
  - reflexivity.
  - reflexivity.
  - reflexivity.
Defined.

(* ===================================================================== *)
(** ** A run after a failed run                                           *)
(* ===================================================================== *)






